(** * Stonk.stats: balance, statistics and calendar engine

    A shallow embedding of the trading-journal core:
    - [StatsCalculator] in its two versions (straight-line and
      [_getClosedTradeMetrics]-based), from features/stats/StatsCalculator.js;
    - [IncrementalStatsCalculator] (checksum-gated cache);
    - [AppState] with its cached computed getters, from core/state.js;
    - the end-of-day snapshot policy of features/stats/stats.js;
    - [PnLCalendar] (daily and weekly P&L), from features/stats/PnLCalendar.js.
    - the cash-flow, timestamp and trade-date utilities of utils/, the
      net cash flow of the two calculators, the reads of the stats cache,
      [priceTracker], [HistoricalPrices] and the figures of a journal row
      (shared/journalTableRenderer.js).

    JavaScript numbers are modelled as exact rationals ([Qc]): rounding of
    IEEE doubles, NaN and the infinities are outside the model.  The
    properties stated of computed numbers are therefore the formula the
    code evaluates, comparisons of sign, and equalities between results
    that the code obtains by the same operations on the same operands;
    an equality that holds by the laws of exact arithmetic only is not
    stated.  [Binary64] embeds calculateTradeExpectancy a second time over
    binary64 floats, to evaluate where rounding separates the two
    versions.  Every division of the embedded code is guarded by a test
    that its divisor is not zero, so the value [Qc] gives to a division by
    0 is never used.  Date objects are calendar days. *)

From Stdlib Require Import ZArith QArith Qcanon Lia List Bool.
From Stdlib Require Import Ascii DecimalString DecimalNat DecimalN.
From Stdlib Require Import Lqa.
From Stdlib Require Floats.
From stdpp Require Import base numbers list strings gmap sorting.

Local Open Scope Qc_scope.

(** ** Data model *)

(** [trade.status]; the journal writes 'open', 'closed' and 'trimmed'. *)
Inductive Status := StOpen | StClosed | StTrimmed.

Global Instance Status_eq_dec : EqDecision Status.
Proof. solve_decision. Defined.

(** One journal entry.  [id] is the numeric identifier the journal assigns
    (Date.now()); [realized] is the P&L the trade record stores for
    getTradeRealizedPnL. *)
Record Trade := mkTrade {
  id : N;
  status : Status;
  realized : Qc
}.

(** [e.status === 'closed' || e.status === 'trimmed'] *)
Definition isClosedOrTrimmed (t : Trade) : bool :=
  match status t with
  | StClosed | StTrimmed => true
  | StOpen => false
  end.

(** Boolean comparisons of JavaScript numbers. *)
Definition Qc_gtb (x y : Qc) : bool := bool_decide (y < x).
Definition Qc_ltb (x y : Qc) : bool := bool_decide (x < y).
Definition Qc_leb (x y : Qc) : bool := bool_decide (x ≤ y).
Definition Qc_eqb (x y : Qc) : bool := bool_decide (x = y).

(** [Math.abs] *)
Definition Qc_abs (x : Qc) : Qc := if Qc_ltb x 0 then - x else x.

(** [arr.length] as a JavaScript number. *)
Definition len {A} (l : list A) : Qc := Qc_of_Z (Z.of_nat (length l)).

Record WinsLosses := mkWinsLosses {
  wl_wins : nat;
  wl_losses : nat;
  wl_total : nat
}.

(** ** StatsCalculator, straight-line version *)

Module StatsCalculator.
Section WithExtractor.

(** getTradeRealizedPnL is imported from core/utils/tradeCalculations.js,
    which is not part of the sources; the calculators are embedded over
    an arbitrary realized-P&L extractor that returns a number. *)
Variable getTradeRealizedPnL : Trade -> Qc.

(** [xs.reduce((sum, t) => sum + getTradeRealizedPnL(t), 0)] *)
Definition sumPnL (xs : list Trade) : Qc :=
  fold_left (fun sum t => sum + getTradeRealizedPnL t) xs 0.

Definition calculateWinRate (trades : list Trade) : option Qc :=
  let closedTrades := List.filter isClosedOrTrimmed trades in
  if (length closedTrades =? 0)%nat then None
  else
    let wins := List.filter (fun t => Qc_gtb (getTradeRealizedPnL t) 0) closedTrades in
    Some ((len wins / len closedTrades) * Qc_of_Z 100).

Definition calculateWinsLosses (trades : list Trade) : WinsLosses :=
  let closedTrades := List.filter isClosedOrTrimmed trades in
  let wins := List.filter (fun t => Qc_gtb (getTradeRealizedPnL t) 0) closedTrades in
  let losses := List.filter (fun t => Qc_leb (getTradeRealizedPnL t) 0) closedTrades in
  {| wl_wins := length wins; wl_losses := length losses; wl_total := length closedTrades |}.

Definition calculateAvgWinLossRatio (trades : list Trade) : option Qc :=
  let closedTrades := List.filter isClosedOrTrimmed trades in
  if (length closedTrades =? 0)%nat then None
  else
    let wins := List.filter (fun t => Qc_gtb (getTradeRealizedPnL t) 0) closedTrades in
    let losses := List.filter (fun t => Qc_ltb (getTradeRealizedPnL t) 0) closedTrades in
    if (length wins =? 0)%nat || (length losses =? 0)%nat then None
    else
      let totalWins := sumPnL wins in
      let totalLosses := sumPnL losses in
      let avgWin := totalWins / len wins in
      let avgLoss := Qc_abs (totalLosses / len losses) in
      if Qc_eqb avgLoss 0 then None else Some (avgWin / avgLoss).

Definition calculateTradeExpectancy (trades : list Trade) : option Qc :=
  let closedTrades := List.filter isClosedOrTrimmed trades in
  if (length closedTrades =? 0)%nat then None
  else
    let wins := List.filter (fun t => Qc_gtb (getTradeRealizedPnL t) 0) closedTrades in
    let losses := List.filter (fun t => Qc_ltb (getTradeRealizedPnL t) 0) closedTrades in
    let totalTrades := len closedTrades in
    let winRate := len wins / totalTrades in
    let lossRate := len losses / totalTrades in
    let totalWins := sumPnL wins in
    let totalLosses := sumPnL losses in
    let avgWin := if (0 <? length wins)%nat then totalWins / len wins else 0 in
    let avgLoss := if (0 <? length losses)%nat then totalLosses / len losses else 0 in
    Some ((winRate * avgWin) + (lossRate * avgLoss)).

End WithExtractor.
End StatsCalculator.

(** ** StatsCalculator, refactored on [_getClosedTradeMetrics] *)

Module StatsCalculatorRefactored.

Record ClosedTradeMetrics := mkMetrics {
  closedTrades : list Trade;
  wins : list Trade;
  losses : list Trade;
  totalWins : Qc;
  totalLosses : Qc;
  winRate : option Qc;
  winsCount : nat;
  lossesCount : nat
}.

Section WithExtractor.

Variable getTradeRealizedPnL : Trade -> Qc.

(** Loop state of [for (const trade of closedTrades)]:
    (wins, losses, totalWins, totalLosses); [push] appends at the end. *)
Definition metricsStep (acc : list Trade * list Trade * Qc * Qc) (trade : Trade)
  : list Trade * list Trade * Qc * Qc :=
  let '(ws, ls, tw, tl) := acc in
  let pnl := getTradeRealizedPnL trade in
  if Qc_gtb pnl 0 then (ws ++ [trade], ls, tw + pnl, tl)
  else (ws, ls ++ [trade], tw, tl + pnl).

Definition _getClosedTradeMetrics (trades : list Trade) : ClosedTradeMetrics :=
  let closed := List.filter isClosedOrTrimmed trades in
  if (length closed =? 0)%nat then
    {| closedTrades := []; wins := []; losses := [];
       totalWins := 0; totalLosses := 0; winRate := None;
       winsCount := 0; lossesCount := 0 |}
  else
    let '(ws, ls, tw, tl) := fold_left metricsStep closed ([], [], 0, 0) in
    {| closedTrades := closed; wins := ws; losses := ls;
       totalWins := tw; totalLosses := tl;
       winRate := Some ((len ws / len closed) * Qc_of_Z 100);
       winsCount := length ws; lossesCount := length ls |}.

Definition calculateWinRate (trades : list Trade) : option Qc :=
  winRate (_getClosedTradeMetrics trades).

Definition calculateWinsLosses (trades : list Trade) : WinsLosses :=
  let metrics := _getClosedTradeMetrics trades in
  {| wl_wins := winsCount metrics; wl_losses := lossesCount metrics;
     wl_total := length (closedTrades metrics) |}.

Definition calculateAvgWinLossRatio (trades : list Trade) : option Qc :=
  let metrics := _getClosedTradeMetrics trades in
  if (length (wins metrics) =? 0)%nat || (length (losses metrics) =? 0)%nat
  then None
  else
    let avgWin := totalWins metrics / len (wins metrics) in
    let avgLoss := Qc_abs (totalLosses metrics / len (losses metrics)) in
    if Qc_eqb avgLoss 0 then None else Some (avgWin / avgLoss).

Definition calculateProfitFactor (trades : list Trade) : option Qc :=
  let metrics := _getClosedTradeMetrics trades in
  if (length (wins metrics) =? 0)%nat || (length (losses metrics) =? 0)%nat
  then None
  else
    let totalLossesAbs := Qc_abs (totalLosses metrics) in
    if Qc_eqb totalLossesAbs 0 then None else Some (totalWins metrics / totalLossesAbs).

Definition calculateTradeExpectancy (trades : list Trade) : option Qc :=
  let metrics := _getClosedTradeMetrics trades in
  if (length (closedTrades metrics) =? 0)%nat then None
  else
    let totalTrades := len (closedTrades metrics) in
    let winRate := Qc_of_Z (Z.of_nat (winsCount metrics)) / totalTrades in
    let lossRate := Qc_of_Z (Z.of_nat (lossesCount metrics)) / totalTrades in
    let avgWin := if (0 <? winsCount metrics)%nat
                  then totalWins metrics / Qc_of_Z (Z.of_nat (winsCount metrics)) else 0 in
    let avgLoss := if (0 <? lossesCount metrics)%nat
                   then totalLosses metrics / Qc_of_Z (Z.of_nat (lossesCount metrics)) else 0 in
    Some ((winRate * avgWin) + (lossRate * avgLoss)).

End WithExtractor.
End StatsCalculatorRefactored.

(** ** Counting and summing, as the specification words them *)

Fixpoint countIf {A} (p : A -> bool) (l : list A) : nat :=
  match l with
  | [] => 0
  | x :: r => ((if p x then 1 else 0) + countIf p r)%nat
  end.

Fixpoint sumIf {A} (p : A -> bool) (v : A -> Qc) (l : list A) : Qc :=
  match l with
  | [] => 0
  | x :: r => (if p x then v x else 0) + sumIf p v r
  end.

(** Number of closed/trimmed trades. *)
Definition closedCount (trades : list Trade) : nat :=
  countIf isClosedOrTrimmed trades.

(** Number of closed/trimmed trades with realized P&L > 0. *)
Definition winCount (f : Trade -> Qc) (trades : list Trade) : nat :=
  countIf (fun t => isClosedOrTrimmed t && Qc_gtb (f t) 0) trades.

(** Number of closed/trimmed trades with realized P&L <= 0. *)
Definition nonWinCount (f : Trade -> Qc) (trades : list Trade) : nat :=
  countIf (fun t => isClosedOrTrimmed t && Qc_leb (f t) 0) trades.

(** Number of closed/trimmed trades with realized P&L < 0. *)
Definition lossCount (f : Trade -> Qc) (trades : list Trade) : nat :=
  countIf (fun t => isClosedOrTrimmed t && Qc_ltb (f t) 0) trades.

(** Sum of the realized P&L of the winning closed/trimmed trades. *)
Definition winTotal (f : Trade -> Qc) (trades : list Trade) : Qc :=
  sumIf (fun t => isClosedOrTrimmed t && Qc_gtb (f t) 0) f trades.

(** Sum of the realized P&L of the closed/trimmed trades with P&L < 0. *)
Definition lossTotal (f : Trade -> Qc) (trades : list Trade) : Qc :=
  sumIf (fun t => isClosedOrTrimmed t && Qc_ltb (f t) 0) f trades.

(** Number of closed/trimmed trades with realized P&L exactly 0. *)
Definition breakevenCount (f : Trade -> Qc) (trades : list Trade) : nat :=
  countIf (fun t => isClosedOrTrimmed t && Qc_eqb (f t) 0) trades.

(** [n] as a JavaScript number. *)
Definition num (n : nat) : Qc := Qc_of_Z (Z.of_nat n).

(** Mean of a sum over [n] items; 0 for an empty set, as the code's
    [count > 0 ? total / count : 0]. *)
Definition average (total : Qc) (n : nat) : Qc :=
  if (0 <? n)%nat then total / num n else 0.

(** The win rate in the specification's words: null without closed/trimmed
    trades, else the percentage of them with realized P&L > 0. *)
Definition winRateSpec (f : Trade -> Qc) (trades : list Trade) : option Qc :=
  if (closedCount trades =? 0)%nat then None
  else Some (Qc_of_Z 100 * num (winCount f trades) / num (closedCount trades)).

(** ** Sample journal entries *)

Definition sampleOpen : Trade := mkTrade 1 StOpen 0.
Definition sampleWin : Trade := mkTrade 2 StClosed (Qc_of_Z 100).
Definition sampleLoss : Trade := mkTrade 3 StClosed (Qc_of_Z (-50)).
Definition sampleBreakeven : Trade := mkTrade 4 StTrimmed 0.

(** ** calculateTradeExpectancy over binary64 *)

(** The two versions of calculateTradeExpectancy with JavaScript numbers
    as IEEE binary64 floats, every operation rounding to nearest. *)
Module Binary64.

(** An integer as a JavaScript number. *)
Definition ofZ (z : Z) : PrimFloat.float :=
  match z with
  | Zneg p => PrimFloat.opp (PrimFloat.of_uint63 (Uint63.of_Z (Zpos p)))
  | _ => PrimFloat.of_uint63 (Uint63.of_Z z)
  end.

Definition zero : PrimFloat.float := ofZ 0.

(** [arr.length] and counters. *)
Definition len {A} (l : list A) : PrimFloat.float := ofZ (Z.of_nat (length l)).
Definition num (n : nat) : PrimFloat.float := ofZ (Z.of_nat n).

Module StatsCalculator.
Section WithExtractor.

Variable getTradeRealizedPnL : Trade -> PrimFloat.float.

Definition sumPnL (xs : list Trade) : PrimFloat.float :=
  fold_left (fun sum t => PrimFloat.add sum (getTradeRealizedPnL t)) xs zero.

Definition calculateTradeExpectancy (trades : list Trade) : option PrimFloat.float :=
  let closedTrades := List.filter isClosedOrTrimmed trades in
  if (length closedTrades =? 0)%nat then None
  else
    let wins :=
      List.filter (fun t => PrimFloat.ltb zero (getTradeRealizedPnL t)) closedTrades in
    let losses :=
      List.filter (fun t => PrimFloat.ltb (getTradeRealizedPnL t) zero) closedTrades in
    let totalTrades := len closedTrades in
    let winRate := PrimFloat.div (len wins) totalTrades in
    let lossRate := PrimFloat.div (len losses) totalTrades in
    let totalWins := sumPnL wins in
    let totalLosses := sumPnL losses in
    let avgWin :=
      if (0 <? length wins)%nat then PrimFloat.div totalWins (len wins) else zero in
    let avgLoss :=
      if (0 <? length losses)%nat then PrimFloat.div totalLosses (len losses) else zero in
    Some (PrimFloat.add (PrimFloat.mul winRate avgWin) (PrimFloat.mul lossRate avgLoss)).

End WithExtractor.
End StatsCalculator.

Module StatsCalculatorRefactored.
Section WithExtractor.

Variable getTradeRealizedPnL : Trade -> PrimFloat.float.

(** Loop state of [for (const trade of closedTrades)]:
    (wins.length, losses.length, totalWins, totalLosses). *)
Definition metricsStep (acc : nat * nat * PrimFloat.float * PrimFloat.float)
  (trade : Trade) : nat * nat * PrimFloat.float * PrimFloat.float :=
  let '(ws, ls, tw, tl) := acc in
  let pnl := getTradeRealizedPnL trade in
  if PrimFloat.ltb zero pnl then (S ws, ls, PrimFloat.add tw pnl, tl)
  else (ws, S ls, tw, PrimFloat.add tl pnl).

(** [_getClosedTradeMetrics], the fields calculateTradeExpectancy reads:
    (closedTrades.length, winsCount, lossesCount, totalWins, totalLosses). *)
Definition _getClosedTradeMetrics (trades : list Trade)
  : nat * nat * nat * PrimFloat.float * PrimFloat.float :=
  let closedTrades := List.filter isClosedOrTrimmed trades in
  if (length closedTrades =? 0)%nat then (0%nat, 0%nat, 0%nat, zero, zero)
  else
    let '(ws, ls, tw, tl) :=
      fold_left metricsStep closedTrades (0%nat, 0%nat, zero, zero) in
    (length closedTrades, ws, ls, tw, tl).

Definition calculateTradeExpectancy (trades : list Trade) : option PrimFloat.float :=
  let '(closedLength, winsCount, lossesCount, totalWins, totalLosses) :=
    _getClosedTradeMetrics trades in
  if (closedLength =? 0)%nat then None
  else
    let totalTrades := num closedLength in
    let winRate := PrimFloat.div (num winsCount) totalTrades in
    let lossRate := PrimFloat.div (num lossesCount) totalTrades in
    let avgWin :=
      if (0 <? winsCount)%nat then PrimFloat.div totalWins (num winsCount) else zero in
    let avgLoss :=
      if (0 <? lossesCount)%nat then PrimFloat.div totalLosses (num lossesCount)
      else zero in
    Some (PrimFloat.add (PrimFloat.mul winRate avgWin) (PrimFloat.mul lossRate avgLoss)).

End WithExtractor.
End StatsCalculatorRefactored.

(** The double nearest to the realized P&L a trade record stores. *)
Definition realized64 (t : Trade) : PrimFloat.float :=
  PrimFloat.div (ofZ (Qnum (this (realized t)))) (ofZ (Zpos (Qden (this (realized t))))).

End Binary64.

(** Six closed trades of realized P&L 1, -1, -3, 0, 0 and 0. *)
Definition roundingSample : list Trade :=
  [mkTrade 11 StClosed (Qc_of_Z 1); mkTrade 12 StClosed (Qc_of_Z (-1));
   mkTrade 13 StClosed (Qc_of_Z (-3)); mkTrade 14 StClosed 0;
   mkTrade 15 StClosed 0; mkTrade 16 StClosed 0].

(** ** IncrementalStatsCalculator *)

Module IncrementalStatsCalculator.

(** [String(n)] for a non-negative integer. *)
Definition decimal (n : N) : string := NilEmpty.string_of_uint (N.to_uint n).

(** [t.id || '']: the id 0 is falsy.  The array holds numbers and empty
    strings; [sort()] without a comparator orders the elements by their
    string forms and [join] prints those forms, so the element is kept as
    its string form. *)
Definition idOrEmpty (t : Trade) : string :=
  if (id t =? 0)%N then "" else decimal (id t).

(** [Array.prototype.sort()]: ascending in the code-unit order of the
    string forms. *)
Definition jsSort (l : list string) : list string := merge_sort String.le l.

(** [_calculateTradeChecksum] *)
Definition _calculateTradeChecksum (trades : list Trade) : string :=
  if (length trades =? 0)%nat then "0"
  else
    let idSum := String.concat "," (jsSort (map idOrEmpty trades)) in
    decimal (N.of_nat (length trades)) +:+ ":" +:+ idSum.

(** The nine cached aggregates. *)
Record CachedStats := mkCachedStats {
  cs_winRate : option Qc;
  cs_winsLosses : WinsLosses;
  cs_avgWin : option Qc;
  cs_avgLoss : option Qc;
  cs_profitFactor : option Qc;
  cs_expectancy : option Qc;
  cs_largestWin : option Qc;
  cs_largestLoss : option Qc;
  cs_avgHoldTime : option Qc
}.

(** [this.cache] (the timestamps lastUpdated and cachedAt are left out). *)
Record StatsCache := mkStatsCache {
  tradeCount : nat;
  tradeChecksum : option string;
  stats : CachedStats;
  closedTradeIds : list N
}.

(** [_createEmptyCache] *)
Definition _createEmptyCache : StatsCache :=
  {| tradeCount := 0;
     tradeChecksum := None;
     stats := {| cs_winRate := None;
                 cs_winsLosses := {| wl_wins := 0; wl_losses := 0; wl_total := 0 |};
                 cs_avgWin := None; cs_avgLoss := None; cs_profitFactor := None;
                 cs_expectancy := None; cs_largestWin := None;
                 cs_largestLoss := None; cs_avgHoldTime := None |};
     closedTradeIds := [] |}.

(** [_isCacheValid]; [this.cache] is null until [init] has run. *)
Definition _isCacheValid (cache : option StatsCache) (trades : list Trade) : bool :=
  match cache with
  | None => false
  | Some c =>
      if (tradeCount c =? 0)%nat then false
      else
        let currentChecksum := _calculateTradeChecksum trades in
        match tradeChecksum c with
        | Some stored => String.eqb stored currentChecksum
        | None => false
        end
  end.

(** The parent class, as far as [IncrementalStatsCalculator] calls it
    through [super]: a method the parent class does not define is [None].
    The class is imported from './StatsCalculator.js'. *)
Record Parent := mkParent {
  super_calculateWinRate : option (list Trade -> option Qc);
  super_calculateWinsLosses : option (list Trade -> WinsLosses);
  super_calculateAverageWin : option (list Trade -> option Qc);
  super_calculateAverageLoss : option (list Trade -> option Qc);
  super_calculateProfitFactor : option (list Trade -> option Qc);
  super_calculateExpectancy : option (list Trade -> option Qc);
  super_calculateLargestWin : option (list Trade -> option Qc);
  super_calculateLargestLoss : option (list Trade -> option Qc);
  super_calculateAvgHoldTime : option (list Trade -> option Qc)
}.

(** [super.method(trades)]: [None] is the TypeError of calling a method
    that is undefined. *)
Definition callSuper {X} (method : option (list Trade -> X)) (trades : list Trade)
  : option X :=
  (fun m => m trades) <$> method.

Section WithParent.

Variable parent : Parent.

(** The nine [super.calculate...] calls of [calculateAndCacheStats], in
    the order of the source; the first call of a missing method throws. *)
Definition superStats (trades : list Trade) : option CachedStats :=
  winRate ← callSuper (super_calculateWinRate parent) trades;
  winsLosses ← callSuper (super_calculateWinsLosses parent) trades;
  avgWin ← callSuper (super_calculateAverageWin parent) trades;
  avgLoss ← callSuper (super_calculateAverageLoss parent) trades;
  profitFactor ← callSuper (super_calculateProfitFactor parent) trades;
  expectancy ← callSuper (super_calculateExpectancy parent) trades;
  largestWin ← callSuper (super_calculateLargestWin parent) trades;
  largestLoss ← callSuper (super_calculateLargestLoss parent) trades;
  avgHoldTime ← callSuper (super_calculateAvgHoldTime parent) trades;
  Some {| cs_winRate := winRate; cs_winsLosses := winsLosses;
          cs_avgWin := avgWin; cs_avgLoss := avgLoss;
          cs_profitFactor := profitFactor; cs_expectancy := expectancy;
          cs_largestWin := largestWin; cs_largestLoss := largestLoss;
          cs_avgHoldTime := avgHoldTime |}.

(** [calculateAndCacheStats]: the cache returned, or [None] when the call
    ends in the TypeError of a missing parent method. *)
Definition calculateAndCacheStats (cache : option StatsCache) (trades : list Trade)
  : option StatsCache :=
  if _isCacheValid cache trades then cache
  else
    computed ← superStats trades;
    Some {| tradeCount := length trades;
            tradeChecksum := Some (_calculateTradeChecksum trades);
            stats := computed;
            closedTradeIds := map id (List.filter isClosedOrTrimmed trades) |}.

(** [this.cache] after [calculateAndCacheStats]: the error is thrown
    before the assignment, which leaves the cache as it was. *)
Definition cacheAfter (cache : option StatsCache) (trades : list Trade)
  : option StatsCache :=
  match calculateAndCacheStats cache trades with
  | Some updated => Some updated
  | None => cache
  end.

End WithParent.

(** [invalidateCache] *)
Definition invalidateCache : StatsCache := _createEmptyCache.

(** The two [StatsCalculator] classes of stats.js as parent: both define
    calculateWinRate and calculateWinsLosses, the second also
    calculateProfitFactor; neither defines calculateAverageWin,
    calculateAverageLoss, calculateExpectancy, calculateLargestWin,
    calculateLargestLoss or calculateAvgHoldTime. *)
Definition StatsCalculatorParent (getTradeRealizedPnL : Trade -> Qc) : Parent :=
  {| super_calculateWinRate := Some (StatsCalculator.calculateWinRate getTradeRealizedPnL);
     super_calculateWinsLosses :=
       Some (StatsCalculator.calculateWinsLosses getTradeRealizedPnL);
     super_calculateAverageWin := None;
     super_calculateAverageLoss := None;
     super_calculateProfitFactor := None;
     super_calculateExpectancy := None;
     super_calculateLargestWin := None;
     super_calculateLargestLoss := None;
     super_calculateAvgHoldTime := None |}.

Definition StatsCalculatorRefactoredParent (getTradeRealizedPnL : Trade -> Qc) : Parent :=
  {| super_calculateWinRate :=
       Some (StatsCalculatorRefactored.calculateWinRate getTradeRealizedPnL);
     super_calculateWinsLosses :=
       Some (StatsCalculatorRefactored.calculateWinsLosses getTradeRealizedPnL);
     super_calculateAverageWin := None;
     super_calculateAverageLoss := None;
     super_calculateProfitFactor :=
       Some (StatsCalculatorRefactored.calculateProfitFactor getTradeRealizedPnL);
     super_calculateExpectancy := None;
     super_calculateLargestWin := None;
     super_calculateLargestLoss := None;
     super_calculateAvgHoldTime := None |}.

(** A parent class with all nine methods, for the examples: the three
    that stats.js has, and null for the six it lacks. *)
Definition sampleFullParent : Parent :=
  {| super_calculateWinRate := Some (StatsCalculatorRefactored.calculateWinRate realized);
     super_calculateWinsLosses :=
       Some (StatsCalculatorRefactored.calculateWinsLosses realized);
     super_calculateAverageWin := Some (fun _ => None);
     super_calculateAverageLoss := Some (fun _ => None);
     super_calculateProfitFactor :=
       Some (StatsCalculatorRefactored.calculateProfitFactor realized);
     super_calculateExpectancy := Some (fun _ => None);
     super_calculateLargestWin := Some (fun _ => None);
     super_calculateLargestLoss := Some (fun _ => None);
     super_calculateAvgHoldTime := Some (fun _ => None) |}.

End IncrementalStatsCalculator.

(** No ':' among the characters of a string. *)
Fixpoint noColon (s : string) : bool :=
  match s with
  | EmptyString => true
  | String c r => negb (Ascii.eqb c ":"%char) && noColon r
  end.

(** ** End-of-day snapshot cache *)

(** An EOD snapshot as [Stats.saveEODSnapshot] writes it; the price maps,
    timestamp and source are left out.  On the error path only [balance]
    and [incomplete] are written, so the other numbers are optional. *)
Record EODSnapshot := mkEOD {
  balance : Qc;
  realizedBalance : option Qc;
  unrealizedPnL : option Qc;
  cashFlow : option Qc;
  incomplete : bool;
  missingTickers : list string
}.

Module eodCacheManager.

(** Modelled from the spec: core/eodCacheManager.js is not among the
    sources.  [getEODData(dateStr)] gives the snapshot stored under the
    date string, or null. *)
Definition getEODData (cache : gmap string EODSnapshot) (dateStr : string)
  : option EODSnapshot := cache !! dateStr.

(** Modelled from the spec: [hasEODData(dateStr)] tells whether a snapshot
    is stored under the date string. *)
Definition hasEODData (cache : gmap string EODSnapshot) (dateStr : string) : bool :=
  bool_decide (is_Some (cache !! dateStr)).

(** Modelled from the spec: [saveEODSnapshot(dateStr, snapshot)] is an
    upsert, the last write wins. *)
Definition saveEODSnapshot (cache : gmap string EODSnapshot) (dateStr : string)
  (snapshot : EODSnapshot) : gmap string EODSnapshot := <[dateStr := snapshot]> cache.

End eodCacheManager.

(** *** StatsCalculator.getBalanceForDate *)

Section BalanceForDate.

(** [formatDate(getCurrentWeekday())] and the value of
    [calculateCurrentAccount()], both computed outside the sources. *)
Variable todayStr : string.
Variable currentAccount : Qc.

Definition getBalanceForDate (cache : gmap string EODSnapshot) (dateStr : string)
  : option Qc :=
  if String.eqb dateStr todayStr then Some currentAccount
  else
    match eodCacheManager.getEODData cache dateStr with
    | Some eodData => if incomplete eodData then None else Some (balance eodData)
    | None => None
    end.

End BalanceForDate.

(** *** The refresh cycle of the stats page *)

(** What one refresh cycle reads from the market clock:
    [marketHours.isAfterMarketClose()], [marketHours.getTradingDay()] and
    [marketHours.formatDate(getCurrentWeekday())]. *)
Record MarketClock := mkClock {
  isAfterMarketClose : bool;
  getTradingDay : string;
  currentWeekday : string
}.

(** One run of [refreshPrices]: the number of active trades found, whether
    [priceTracker.refreshAllActivePrices] returned (it throws into the
    catch block otherwise) and the clock. *)
Record RefreshCycle := mkCycle {
  activeTrades : nat;
  pricesFetched : bool;
  clock : MarketClock
}.

Module Stats.
Section WithSnapshot.

(** The snapshot [saveEODSnapshot(dateStr)] builds from the price caches
    and the journal (or its error record); it is written under [dateStr]
    in either branch. *)
Variable snapshotFor : string -> EODSnapshot.

Definition saveEODSnapshot (cache : gmap string EODSnapshot) (dateStr : string)
  : gmap string EODSnapshot :=
  eodCacheManager.saveEODSnapshot cache dateStr (snapshotFor dateStr).

(** The condition under which [checkAndSaveEOD] saves. *)
Definition shouldSaveEOD (c : MarketClock) (cache : gmap string EODSnapshot) : bool :=
  let isAfterClose := isAfterMarketClose c in
  let tradingDay := getTradingDay c in
  let isActualTradingDay := String.eqb tradingDay (currentWeekday c) in
  isAfterClose && negb (eodCacheManager.hasEODData cache tradingDay) && isActualTradingDay.

Definition checkAndSaveEOD (c : MarketClock) (cache : gmap string EODSnapshot)
  : gmap string EODSnapshot :=
  if shouldSaveEOD c cache then saveEODSnapshot cache (getTradingDay c) else cache.

Definition refreshPrices (r : RefreshCycle) (cache : gmap string EODSnapshot)
  : gmap string EODSnapshot :=
  if (activeTrades r =? 0)%nat then cache
  else if pricesFetched r then checkAndSaveEOD (clock r) cache
  else cache.

(** The trading day a cycle commits a snapshot for, if any. *)
Definition committedDay (r : RefreshCycle) (cache : gmap string EODSnapshot)
  : option string :=
  if (activeTrades r =? 0)%nat then None
  else if pricesFetched r then
    if shouldSaveEOD (clock r) cache then Some (getTradingDay (clock r)) else None
  else None.

(** A run of refresh cycles: the days committed, in order, and the cache
    at the end. *)
Fixpoint runCycles (rs : list RefreshCycle) (cache : gmap string EODSnapshot)
  : list string * gmap string EODSnapshot :=
  match rs with
  | [] => ([], cache)
  | r :: rest =>
      let '(log, final) := runCycles rest (refreshPrices r cache) in
      (match committedDay r cache with Some d => d :: log | None => log end, final)
  end.

End WithSnapshot.
End Stats.

(** ** Sample snapshots and refresh cycles *)

Definition sampleSnapshot : EODSnapshot :=
  mkEOD (Qc_of_Z 10700) (Some (Qc_of_Z 10700)) (Some 0) (Some 0) false [].

Definition sampleIncomplete : EODSnapshot :=
  mkEOD (Qc_of_Z 9999) None None None true ["AAPL"].

(** A cycle after the close of Friday 2025-03-07, with one active trade. *)
Definition fridayClose : RefreshCycle :=
  mkCycle 1 true (mkClock true "2025-03-07" "2025-03-07").

(** ** AppState (core/state.js) *)

Module AppState.

Inductive TxType := Deposit | Withdrawal.

(** [{ id, type, amount, timestamp }] *)
Record Transaction := mkTx {
  tx_id : N;
  tx_type : TxType;
  tx_amount : Qc;
  tx_timestamp : string
}.

(** [state.cashFlow] *)
Record CashFlow := mkCashFlow {
  transactions : list Transaction;
  totalDeposits : Qc;
  totalWithdrawals : Qc
}.

(** [_accountCache.dependencies]; the three entries are null at first. *)
Record Dependencies := mkDeps {
  tradesHash : option Qc;
  cashFlowHash : option Qc;
  startingBalance : option Qc
}.

(** [_accountCache] ([lastInvalidated] is never read and is left out). *)
Record AccountCache := mkCache {
  cachedRealizedPnL : option Qc;
  cachedCurrentSize : option Qc;
  dependencies : Dependencies;
  _tempHashes : option Dependencies
}.

(** The part of the application state the account getters read. *)
Record State := mkState {
  startingAccountSize : Qc;
  entries : list Trade;
  cashFlowOf : CashFlow;
  _accountCache : AccountCache
}.

(** The state the constructor builds. *)
Definition initial : State :=
  {| startingAccountSize := Qc_of_Z 10000;
     entries := [];
     cashFlowOf := {| transactions := []; totalDeposits := 0; totalWithdrawals := 0 |};
     _accountCache := {| cachedRealizedPnL := None; cachedCurrentSize := None;
                         dependencies := mkDeps None None None;
                         _tempHashes := None |} |}.

Definition withCache (st : State) (c : AccountCache) : State :=
  {| startingAccountSize := startingAccountSize st; entries := entries st;
     cashFlowOf := cashFlowOf st; _accountCache := c |}.

Section WithExtractor.

Variable getTradeRealizedPnL : Trade -> Qc.

(** Modelled from the spec: calculateRealizedPnL comes from
    core/utils/tradeCalculations.js, which is not among the sources;
    realizedPnLBatch is the sum of the realized P&L over the closed and
    trimmed trades, open trades contributing 0. *)
Definition calculateRealizedPnL (trades : list Trade) : Qc :=
  fold_left (fun sum t => sum + getTradeRealizedPnL t)
            (List.filter isClosedOrTrimmed trades) 0.

(** [_hashTrades] *)
Definition _hashTrades (st : State) : Qc :=
  len (entries st) +
  fold_left (fun sum t => sum + Qc_of_Z (Z.of_N (id t)) + getTradeRealizedPnL t)
            (entries st) 0.

(** [_hashCashFlow] *)
Definition _hashCashFlow (st : State) : Qc :=
  len (transactions (cashFlowOf st)) + totalDeposits (cashFlowOf st)
  + totalWithdrawals (cashFlowOf st).

Definition currentHashes (st : State) : Dependencies :=
  {| tradesHash := Some (_hashTrades st);
     cashFlowHash := Some (_hashCashFlow st);
     startingBalance := Some (startingAccountSize st) |}.

(** [a !== b] on a number or null. *)
Definition strictNe (a b : option Qc) : bool := negb (bool_decide (a = b)).

(** [_needsRecalculation]: the answer and the state, where the hashes just
    computed are kept in [_tempHashes] when something changed. *)
Definition _needsRecalculation (st : State) : bool * State :=
  let h := currentHashes st in
  let deps := dependencies (_accountCache st) in
  let changed :=
    strictNe (tradesHash h) (tradesHash deps) ||
    strictNe (cashFlowHash h) (cashFlowHash deps) ||
    strictNe (startingBalance h) (startingBalance deps) in
  if changed then
    let c := _accountCache st in
    (true, withCache st {| cachedRealizedPnL := cachedRealizedPnL c;
                           cachedCurrentSize := cachedCurrentSize c;
                           dependencies := dependencies c;
                           _tempHashes := Some h |})
  else (false, st).

(** [_updateCacheDependencies] *)
Definition _updateCacheDependencies (st : State) : State :=
  let c := _accountCache st in
  match _tempHashes c with
  | Some h =>
      withCache st {| cachedRealizedPnL := cachedRealizedPnL c;
                      cachedCurrentSize := cachedCurrentSize c;
                      dependencies := h; _tempHashes := None |}
  | None =>
      withCache st {| cachedRealizedPnL := cachedRealizedPnL c;
                      cachedCurrentSize := cachedCurrentSize c;
                      dependencies := currentHashes st; _tempHashes := None |}
  end.

(** [_invalidateAccountCache] *)
Definition _invalidateAccountCache (st : State) : State :=
  let c := _accountCache st in
  withCache st {| cachedRealizedPnL := None; cachedCurrentSize := None;
                  dependencies := dependencies c; _tempHashes := _tempHashes c |}.

(** The recalculation branch of [get realizedPnL]. *)
Definition recalcRealizedPnL (st : State) : Qc * State :=
  let pnl := calculateRealizedPnL (entries st) in
  let c := _accountCache st in
  let st1 := withCache st {| cachedRealizedPnL := Some pnl;
                             cachedCurrentSize := cachedCurrentSize c;
                             dependencies := dependencies c;
                             _tempHashes := _tempHashes c |} in
  (pnl, _updateCacheDependencies st1).

(** [get realizedPnL]: the value and the state after the call. *)
Definition realizedPnL (st : State) : Qc * State :=
  match cachedRealizedPnL (_accountCache st) with
  | Some cached =>
      let '(changed, st1) := _needsRecalculation st in
      if changed then recalcRealizedPnL st1 else (cached, st1)
  | None => recalcRealizedPnL st
  end.

(** [getCashFlowNet] *)
Definition getCashFlowNet (st : State) : Qc :=
  totalDeposits (cashFlowOf st) - totalWithdrawals (cashFlowOf st).

(** The recalculation branch of [get currentSize]. *)
Definition recalcCurrentSize (st : State) : Qc * State :=
  let netCashFlow := getCashFlowNet st in
  let '(pnl, st1) := realizedPnL st in
  let size := startingAccountSize st + pnl + netCashFlow in
  let c := _accountCache st1 in
  (size, withCache st1 {| cachedRealizedPnL := cachedRealizedPnL c;
                          cachedCurrentSize := Some size;
                          dependencies := dependencies c;
                          _tempHashes := _tempHashes c |}).

(** [get currentSize]: the value and the state after the call. *)
Definition currentSize (st : State) : Qc * State :=
  match cachedCurrentSize (_accountCache st) with
  | Some cached =>
      let '(changed, st1) := _needsRecalculation st in
      if changed then recalcCurrentSize st1 else (cached, st1)
  | None => recalcCurrentSize st
  end.

(** [updateSettings({ startingAccountSize })] *)
Definition updateSettings (newStartingAccountSize : Qc) (st : State) : State :=
  {| startingAccountSize := newStartingAccountSize; entries := entries st;
     cashFlowOf := cashFlowOf st; _accountCache := _accountCache st |}.

(** [addCashFlowTransaction(type, amount, timestamp)]; [now] is
    [Date.now()].  The method ends by emitting [this.currentSize]. *)
Definition addCashFlowTransaction (now : N) (type : TxType) (amount : Qc)
  (timestamp : string) (st : State) : State :=
  let cf := cashFlowOf st in
  let transaction := mkTx now type amount timestamp in
  let cf' :=
    {| transactions := transaction :: transactions cf;
       totalDeposits := match type with
                        | Deposit => totalDeposits cf + amount
                        | Withdrawal => totalDeposits cf
                        end;
       totalWithdrawals := match type with
                           | Deposit => totalWithdrawals cf
                           | Withdrawal => totalWithdrawals cf + amount
                           end |} in
  let st1 := _invalidateAccountCache
               {| startingAccountSize := startingAccountSize st; entries := entries st;
                  cashFlowOf := cf'; _accountCache := _accountCache st |} in
  (currentSize st1).2.

(** [addJournalEntry(entry)]: the entry goes to the front. *)
Definition addJournalEntry (newEntry : Trade) (st : State) : State :=
  _invalidateAccountCache
    {| startingAccountSize := startingAccountSize st;
       entries := newEntry :: entries st;
       cashFlowOf := cashFlowOf st; _accountCache := _accountCache st |}.

(** The documented formula of the realized balance:
    starting + realized P&L + net cash flow. *)
Definition realizedBalanceFormula (st : State) : Qc :=
  startingAccountSize st + calculateRealizedPnL (entries st) + getCashFlowNet st.

End WithExtractor.

(** Net cash flow of a transaction list: deposits minus withdrawals. *)
Definition netOfTransactions (txs : list Transaction) : Qc :=
  fold_right (fun tx acc =>
                match tx_type tx with
                | Deposit => tx_amount tx + acc
                | Withdrawal => acc - tx_amount tx
                end) 0 txs.

End AppState.

(** A run of the account getters: read currentSize, change the starting
    balance to 20000 in the settings, read realizedPnL, read currentSize
    again.  [staleRunState] is the state before the last read. *)
Definition staleRunState : AppState.State :=
  let st1 := (AppState.currentSize realized AppState.initial).2 in
  let st2 := AppState.updateSettings (Qc_of_Z 20000) st1 in
  (AppState.realizedPnL realized st2).2.

Definition staleRun : Qc := (AppState.currentSize realized staleRunState).1.

(** ** Calendar dates (the JavaScript Date objects of the calendar) *)

Module JsDate.

(** A local calendar day: full year, month index 0-11, day of month. *)
Record Date := mkDateRec {
  getFullYear : Z;
  getMonth : Z;
  getDate : Z
}.

Definition isLeapYear (y : Z) : bool :=
  ((y mod 4 =? 0) && (negb (y mod 100 =? 0) || (y mod 400 =? 0)))%Z.

Definition daysInMonth (y m : Z) : Z :=
  if (m =? 1)%Z then (if isLeapYear y then 29 else 28)%Z
  else if ((m =? 3) || (m =? 5) || (m =? 8) || (m =? 10))%Z then 30%Z
  else 31%Z.

(** Months are counted from year 0: month [k] is month [k mod 12] of year
    [k / 12]. *)
Definition monthLength (k : Z) : Z := daysInMonth (k / 12) (k mod 12).

(** Days from 0000-01-01 to the first of January of year [y]. *)
Definition daysBeforeYear (y : Z) : Z :=
  (365 * y + (y + 3) / 4 - (y + 99) / 100 + (y + 399) / 400)%Z.

(** Days from the first of January to the first of month [m]. *)
Fixpoint daysBeforeMonthN (y : Z) (m : nat) : Z :=
  match m with
  | O => 0%Z
  | S m' => (daysBeforeMonthN y m' + daysInMonth y (Z.of_nat m'))%Z
  end.

Definition monthStart (k : Z) : Z :=
  (daysBeforeYear (k / 12) + daysBeforeMonthN (k / 12) (Z.to_nat (k mod 12)))%Z.

(** The day number of a date (days from 0000-01-01). *)
Definition toDays (dt : Date) : Z :=
  (monthStart (12 * getFullYear dt + getMonth dt) + getDate dt - 1)%Z.

(** Day overflow and underflow of the Date constructor: carry whole months
    until the day lies in its month. *)
Fixpoint carryDays (fuel : nat) (k d : Z) : Z * Z :=
  match fuel with
  | O => (k, d)
  | S fuel' =>
      if (d <? 1)%Z then carryDays fuel' (k - 1) (d + monthLength (k - 1))
      else if (monthLength k <? d)%Z then carryDays fuel' (k + 1) (d - monthLength k)
      else (k, d)
  end.

(** [new Date(year, month, day)] *)
Definition mkDate (year month day : Z) : Date :=
  let '(k, d) := carryDays (S (Z.to_nat (Z.abs day))) (12 * year + month) day in
  {| getFullYear := k / 12; getMonth := k mod 12; getDate := d |}.

(** [date.setDate(n)] on a copy of the date. *)
Definition setDate (dt : Date) (n : Z) : Date :=
  mkDate (getFullYear dt) (getMonth dt) n.

(** [date.getDay()]: 0 is Sunday, 6 is Saturday; 1970-01-01, day number
    719528, was a Thursday. *)
Definition getDay (dt : Date) : Z := ((toDays dt - 719528 + 4) mod 7)%Z.

(** Two decimal digits. *)
Definition pad2 (n : Z) : string :=
  (if (n <? 10)%Z then "0" else "") +:+ IncrementalStatsCalculator.decimal (Z.to_N n).

(** Four decimal digits. *)
Definition pad4 (n : Z) : string :=
  (if (n <? 10)%Z then "000" else if (n <? 100)%Z then "00"
   else if (n <? 1000)%Z then "0" else "")
  +:+ IncrementalStatsCalculator.decimal (Z.to_N n).

(** Modelled from the spec: marketHours.formatDate is not among the
    sources; date strings are 'YYYY-MM-DD'. *)
Definition formatDate (dt : Date) : string :=
  pad4 (getFullYear dt) +:+ "-" +:+ pad2 (getMonth dt + 1) +:+ "-" +:+ pad2 (getDate dt).

End JsDate.

(** ** PnLCalendar *)

Module PnLCalendar.
Import JsDate.

(** A cell of the calendar grid. *)
Record Day := mkDay {
  date : Date;
  isCurrentMonth : bool;
  isWeekend : bool
}.

(** An entry of [monthData]. *)
Record DayData := mkDayData {
  pnl : Qc;
  dayBalance : Qc;
  dayCashFlow : Qc
}.

Definition weekendOf (d : Date) : bool := ((getDay d =? 0) || (getDay d =? 6))%Z.

(** [_getDaysInMonth], first loop: the leading days of the previous
    month, [i] running from [firstDayOfWeek - 1] down to 0. *)
Definition leadingDays (currentYear currentMonth : Z) : list Day :=
  let firstDay := mkDate currentYear currentMonth 1 in
  let firstDayOfWeek := getDay firstDay in
  if (0 <? firstDayOfWeek)%Z then
    let prevMonthLastDay := mkDate currentYear currentMonth 0 in
    let prevMonthDays := getDate prevMonthLastDay in
    map (fun i =>
           let d := mkDate currentYear (currentMonth - 1) (prevMonthDays - i) in
           mkDay d false (weekendOf d))
        (reverse (seqZ 0 firstDayOfWeek))
  else [].

(** [_getDaysInMonth], second loop: the days of the month itself. *)
Definition currentDays (currentYear currentMonth : Z) : list Day :=
  let lastDay := mkDate currentYear (currentMonth + 1) 0 in
  map (fun day =>
         let d := mkDate currentYear currentMonth day in
         mkDay d true (weekendOf d))
      (seqZ 1 (getDate lastDay)).

(** [_getDaysInMonth], third loop: the trailing days of the next month
    that complete the last week. *)
Definition trailingDays (currentYear currentMonth : Z) : list Day :=
  let lastDay := mkDate currentYear (currentMonth + 1) 0 in
  let lastDayOfWeek := getDay lastDay in
  if (lastDayOfWeek <? 6)%Z then
    map (fun i =>
           let d := mkDate currentYear (currentMonth + 1) i in
           mkDay d false (weekendOf d))
        (seqZ 1 (6 - lastDayOfWeek))
  else [].

(** [_getDaysInMonth]: the grid of [currentYear], [currentMonth]. *)
Definition _getDaysInMonth (currentYear currentMonth : Z) : list Day :=
  leadingDays currentYear currentMonth ++ currentDays currentYear currentMonth
  ++ trailingDays currentYear currentMonth.

(** The loop of [_getPreviousBusinessDay]: step back while the day is a
    weekend day. *)
Fixpoint skipWeekend (fuel : nat) (prevDate : Date) : Date :=
  match fuel with
  | O => prevDate
  | S fuel' =>
      if weekendOf prevDate
      then skipWeekend fuel' (setDate prevDate (getDate prevDate - 1))
      else prevDate
  end.

(** [_getPreviousBusinessDay]; two steps of the loop are the most it can
    take, the fuel is not reached. *)
Definition _getPreviousBusinessDay (d : Date) : Date :=
  skipWeekend 7 (setDate d (getDate d - 1)).

(** [_getWeekRange]: [(from, to)] *)
Definition _getWeekRange (saturdayDate : Date) : string * string :=
  let monday := setDate saturdayDate (getDate saturdayDate - 5) in
  let friday := setDate saturdayDate (getDate saturdayDate - 1) in
  (formatDate monday, formatDate friday).

Section WithCache.

(** [state.settings?.startingAccountSize || 0] and the EOD cache. *)
Variable startingAccountSize : Qc.
Variable eod : gmap string EODSnapshot.

(** The body of the loop of [calculateMonthData] for one grid cell.
    [_getPreviousBusinessDay] always returns a date, so [prevDateStr] is
    never null and the branch for it is not taken. *)
Definition monthDataStep (monthData : gmap string DayData) (day : Day)
  : gmap string DayData :=
  if negb (isCurrentMonth day) then monthData
  else
    let dateStr := formatDate (date day) in
    let prevDate := _getPreviousBusinessDay (date day) in
    let prevDateStr := formatDate prevDate in
    match eodCacheManager.getEODData eod dateStr with
    | None => monthData
    | Some eodData =>
        if incomplete eodData then monthData
        else
          let balanceToday := balance eodData in
          let cashFlowToday := default 0 (cashFlow eodData) in
          let prevBalance :=
            match eodCacheManager.getEODData eod prevDateStr with
            | Some prevEodData =>
                if incomplete prevEodData then startingAccountSize
                else balance prevEodData
            | None => startingAccountSize
            end in
          let dailyPnL := balanceToday - prevBalance - cashFlowToday in
          <[dateStr := mkDayData dailyPnL balanceToday cashFlowToday]> monthData
    end.

(** [calculateMonthData]: the new [monthData]; a call made while another
    one is calculating returns at once. *)
Definition calculateMonthData (isCalculating : bool) (currentYear currentMonth : Z)
  (monthData : gmap string DayData) : gmap string DayData :=
  if isCalculating then monthData
  else fold_left monthDataStep (_getDaysInMonth currentYear currentMonth) ∅.

End WithCache.

(** One round of the loop of [_calculateWeeklyPnL]; the state is
    [(weeklyTotal, hasData)], and [None] is the TypeError of reading
    [.date] of an undefined [days[dayIndex]]. *)
Definition weeklyStep (monthData : gmap string DayData) (saturdayIndex : nat)
  (days : list Day) (acc : option (Qc * bool)) (i : nat) : option (Qc * bool) :=
  match acc with
  | None => None
  | Some (weeklyTotal, hasData) =>
      if (saturdayIndex <? i)%nat then Some (weeklyTotal, hasData)
      else
        match days !! (saturdayIndex - i)%nat with
        | None => None
        | Some day =>
            match monthData !! formatDate (date day) with
            | Some dayData => Some (weeklyTotal + pnl dayData, true)
            | None => Some (weeklyTotal, hasData)
            end
        end
  end.

(** [_calculateWeeklyPnL]: [Some None] is the null result. *)
Definition _calculateWeeklyPnL (monthData : gmap string DayData)
  (saturdayIndex : nat) (days : list Day) : option (option Qc) :=
  match fold_left (weeklyStep monthData saturdayIndex days) [1; 2; 3; 4; 5]%nat
                  (Some (0, false)) with
  | None => None
  | Some (weeklyTotal, hasData) => Some (if hasData then Some weeklyTotal else None)
  end.

(** The P&L a cell shows, as [_buildDayCells] picks it. *)
Definition cellPnL (monthData : gmap string DayData) (index : nat) (days : list Day)
  (day : Day) : option (option Qc) :=
  if (getDay (date day) =? 6)%Z then _calculateWeeklyPnL monthData index days
  else Some (pnl <$> monthData !! formatDate (date day)).

End PnLCalendar.

(** The daily P&L of the specification: balance(date) minus
    balance(previous business day) minus cashFlow(date), no data when
    either snapshot is missing or incomplete. *)
Definition dailyPnLSpec (eod : gmap string EODSnapshot) (d : JsDate.Date) : option Qc :=
  match eod !! JsDate.formatDate d,
        eod !! JsDate.formatDate (PnLCalendar._getPreviousBusinessDay d) with
  | Some today, Some prev =>
      if incomplete today || incomplete prev then None
      else Some (balance today - balance prev - default 0 (cashFlow today))
  | _, _ => None
  end.

(** Sum of the values present; null when none is. *)
Definition sumAvailable (xs : list (option Qc)) : option Qc :=
  fold_left (fun acc x =>
               match x with
               | Some v => Some (default 0 acc + v)
               | None => acc
               end) xs None.

(** A date as the Date constructor leaves it: the month index within 0-11
    and the day within the month. *)
Definition validDate (dt : JsDate.Date) : Prop :=
  (0 <= JsDate.getMonth dt < 12)%Z /\
  (1 <= JsDate.getDate dt
     <= JsDate.monthLength (12 * JsDate.getFullYear dt + JsDate.getMonth dt))%Z.

(** ** A sample week: Monday 2025-03-03 to Friday 2025-03-07 *)

Definition sampleDay (pnlOfDay : Z) : PnLCalendar.DayData :=
  PnLCalendar.mkDayData (Qc_of_Z pnlOfDay) (Qc_of_Z 10000) 0.

Definition sampleWeek : gmap string PnLCalendar.DayData :=
  {[ "2025-03-03" := sampleDay 100; "2025-03-04" := sampleDay (-50);
     "2025-03-05" := sampleDay 25; "2025-03-06" := sampleDay 0;
     "2025-03-07" := sampleDay 75 ]}.

(** Saturday 2025-03-08 is cell 13 of the grid of March 2025. *)
Definition sampleSaturday : PnLCalendar.Day :=
  PnLCalendar.mkDay (JsDate.mkDate 2025 2 8) true true.

(** ** The daily P&L the calendar stores *)

(** The balance the calendar takes for the previous business day: the
    balance of its complete snapshot, else the starting account size. *)
Definition prevBalanceOf (startingAccountSize : Qc) (eod : gmap string EODSnapshot)
  (d : JsDate.Date) : Qc :=
  match eod !! JsDate.formatDate (PnLCalendar._getPreviousBusinessDay d) with
  | Some prev => if incomplete prev then startingAccountSize else balance prev
  | None => startingAccountSize
  end.

(** The entry of a day of the displayed month: none when its own snapshot
    is missing or incomplete. *)
Definition dayEntry (startingAccountSize : Qc) (eod : gmap string EODSnapshot)
  (d : JsDate.Date) : option PnLCalendar.DayData :=
  match eod !! JsDate.formatDate d with
  | Some today =>
      if incomplete today then None
      else Some (PnLCalendar.mkDayData
                   (balance today - prevBalanceOf startingAccountSize eod d
                    - default 0 (cashFlow today))
                   (balance today) (default 0 (cashFlow today)))
  | None => None
  end.

(** Reads a decimal string back. *)
Definition unpad (s : string) : Z :=
  match NilEmpty.uint_of_string s with
  | Some u => Z.of_N (N.of_uint u)
  | None => 0%Z
  end.

(** A complete snapshot with the given balance and no cash flow. *)
Definition completeSnapshot (b : Z) : EODSnapshot :=
  mkEOD (Qc_of_Z b) (Some (Qc_of_Z b)) (Some 0) (Some 0) false [].

(** An EOD cache with complete snapshots for Friday 2025-02-21 and for
    each day of the week from Monday 2025-02-24 to Friday 2025-02-28. *)
Definition lastWeekOfFebruary : gmap string EODSnapshot :=
  {[ "2025-02-21" := completeSnapshot 10000; "2025-02-24" := completeSnapshot 10100;
     "2025-02-25" := completeSnapshot 10050; "2025-02-26" := completeSnapshot 10075;
     "2025-02-27" := completeSnapshot 10075; "2025-02-28" := completeSnapshot 10150 ]}.

(** Saturday 2025-03-01 as a cell of the grid of March 2025 (cell 6) and
    as the trailing cell of the grid of February 2025 (cell 34). *)
Definition marchFirst : PnLCalendar.Day :=
  PnLCalendar.mkDay (JsDate.mkDate 2025 2 1) true true.

Definition marchFirstTrailing : PnLCalendar.Day :=
  PnLCalendar.mkDay (JsDate.mkDate 2025 2 1) false true.

(** No '-' in the string. *)
Fixpoint noDash (s : string) : bool :=
  match s with
  | EmptyString => true
  | String c r => negb (Ascii.eqb c "-"%char) && noDash r
  end.

(** An EOD cache with the complete snapshot of Friday 2025-03-07 only. *)
Definition fridayOnly : gmap string EODSnapshot := {[ "2025-03-07" := sampleSnapshot ]}.

(** An EOD cache around a market holiday: complete snapshots for Wednesday
    2025-11-26 (balance 9900) and Friday 2025-11-28 (balance 10000), none
    for Thursday 2025-11-27. *)
Definition holidayGap : gmap string EODSnapshot :=
  {[ "2025-11-26" := completeSnapshot 9900; "2025-11-28" := completeSnapshot 10000 ]}.

Definition sampleFriday : PnLCalendar.Day :=
  PnLCalendar.mkDay (JsDate.mkDate 2025 2 7) true false.

(** ** Timestamps and cash-flow utilities (utils/timestampUtils.js,
    utils/cashFlowUtils.js) *)

Module cashFlowUtils.
Import AppState.

(** [\d] *)
Definition isDigit (c : ascii) : bool :=
  let n := nat_of_ascii c in ((48 <=? n) && (n <=? 57))%nat.

(** [timestamp.match(/^\d{4}-\d{2}-\d{2}/)]: the string starts with four
    digits, '-', two digits, '-', two digits. *)
Definition matchesYMD (s : string) : bool :=
  match s with
  | String y1 (String y2 (String y3 (String y4 (String d1
      (String m1 (String m2 (String d2 (String a1 (String a2 _))))))))) =>
      isDigit y1 && isDigit y2 && isDigit y3 && isDigit y4 &&
      Ascii.eqb d1 "-"%char && isDigit m1 && isDigit m2 &&
      Ascii.eqb d2 "-"%char && isDigit a1 && isDigit a2
  | _ => false
  end.

Section WithDateParser.

(** [formatDate(new Date(timestamp))] for a timestamp that is not a string
    of the form above: the Date parser is built in and
    marketHours.formatDate is not among the sources. *)
Variable formattedDateOf : string -> string.

(** [getDateStringFromTimestamp(obj, field)] on the value of the field; a
    missing or empty timestamp gives null. *)
Definition getDateStringFromTimestamp (timestamp : string) : option string :=
  if String.eqb timestamp "" then None
  else if matchesYMD timestamp then Some (String.substring 0 10 timestamp)
  else Some (formattedDateOf timestamp).

(** [getTransactionDateString] *)
Definition getTransactionDateString (txn : Transaction) : option string :=
  getDateStringFromTimestamp (tx_timestamp txn).

(** [txn.type === 'deposit' ? txn.amount : -txn.amount] *)
Definition signedAmount (txn : Transaction) : Qc :=
  match tx_type txn with
  | Deposit => tx_amount txn
  | Withdrawal => - tx_amount txn
  end.

(** [getNetCashFlow] *)
Definition getNetCashFlow (transactions : list Transaction) : Qc :=
  if (length transactions =? 0)%nat then 0
  else fold_left (fun sum txn => sum + signedAmount txn) transactions 0.

(** A date string that is not null and not empty. *)
Definition truthy (s : option string) : bool :=
  match s with
  | Some d => negb (String.eqb d "")
  | None => false
  end.

(** [txnDateStr && txnDateStr <= dateStr] *)
Definition upToDate (dateStr : string) (txn : Transaction) : bool :=
  match getTransactionDateString txn with
  | Some d => negb (String.eqb d "") && String.leb d dateStr
  | None => false
  end.

(** [txnDateStr === dateStr] *)
Definition onDate (dateStr : string) (txn : Transaction) : bool :=
  match getTransactionDateString txn with
  | Some d => String.eqb d dateStr
  | None => false
  end.

(** [txnDateStr && txnDateStr >= startDate && txnDateStr <= endDate] *)
Definition inRange (startDate endDate : string) (txn : Transaction) : bool :=
  match getTransactionDateString txn with
  | Some d => negb (String.eqb d "") && String.leb startDate d && String.leb d endDate
  | None => false
  end.

(** [getCashFlowUpToDate] *)
Definition getCashFlowUpToDate (transactions : list Transaction) (dateStr : string) : Qc :=
  if (length transactions =? 0)%nat then 0
  else fold_left (fun sum txn => sum + signedAmount txn)
                 (List.filter (upToDate dateStr) transactions) 0.

(** [getCashFlowOnDate] *)
Definition getCashFlowOnDate (transactions : list Transaction) (dateStr : string) : Qc :=
  if (length transactions =? 0)%nat then 0
  else fold_left (fun sum txn => sum + signedAmount txn)
                 (List.filter (onDate dateStr) transactions) 0.

(** [getCashFlowInRange] *)
Definition getCashFlowInRange (transactions : list Transaction)
  (startDate endDate : string) : Qc :=
  if (length transactions =? 0)%nat then 0
  else fold_left (fun sum txn => sum + signedAmount txn)
                 (List.filter (inRange startDate endDate) transactions) 0.

(** [getTransactionsOnDate] *)
Definition getTransactionsOnDate (transactions : list Transaction) (dateStr : string)
  : list Transaction :=
  if (length transactions =? 0)%nat then []
  else List.filter (onDate dateStr) transactions.

(** [getTransactionsUpToDate] *)
Definition getTransactionsUpToDate (transactions : list Transaction) (dateStr : string)
  : list Transaction :=
  if (length transactions =? 0)%nat then []
  else List.filter (upToDate dateStr) transactions.

End WithDateParser.
End cashFlowUtils.

(** ** AppState: the other cash-flow and journal methods *)

Module AppStateOps.
Import AppState.

(** [arr.findIndex(p)]: the first index whose element satisfies [p]. *)
Fixpoint findIndex {A} (p : A -> bool) (l : list A) : option nat :=
  match l with
  | [] => None
  | x :: r => if p x then Some 0%nat else S <$> findIndex p r
  end.

(** [arr.splice(index, 1)]: the list without the element at [index]. *)
Definition spliceOne {A} (index : nat) (l : list A) : list A :=
  take index l ++ drop (S index) l.

(** The fields [Object.assign(entry, updates)] may overwrite. *)
Record TradeUpdate := mkUpdate {
  u_id : option N;
  u_status : option Status;
  u_realized : option Qc
}.

(** [Object.assign(entry, updates)] *)
Definition assign (entry : Trade) (updates : TradeUpdate) : Trade :=
  {| id := default (id entry) (u_id updates);
     status := default (status entry) (u_status updates);
     realized := default (realized entry) (u_realized updates) |}.

(** The argument of [getFilteredEntries]: 'all', a status, or any other
    string. *)
Inductive JournalFilter := FilterAll | FilterStatus (s : Status) | FilterOther.

Definition withEntries (st : State) (es : list Trade) : State :=
  {| startingAccountSize := startingAccountSize st; entries := es;
     cashFlowOf := cashFlowOf st; _accountCache := _accountCache st |}.

Definition withCashFlow (st : State) (cf : CashFlow) : State :=
  {| startingAccountSize := startingAccountSize st; entries := entries st;
     cashFlowOf := cf; _accountCache := _accountCache st |}.

Section WithExtractor.

Variable getTradeRealizedPnL : Trade -> Qc.

(** [deleteCashFlowTransaction(id)]: the transaction returned (null when
    the id is not found) and the state after the call, which ends by
    emitting [this.currentSize]. *)
Definition deleteCashFlowTransaction (txId : N) (st : State)
  : option Transaction * State :=
  let cf := cashFlowOf st in
  match findIndex (fun tx => (tx_id tx =? txId)%N) (transactions cf) with
  | None => (None, st)
  | Some index =>
      match transactions cf !! index with
      | None => (None, st)
      | Some deleted =>
          let cf' :=
            {| transactions := spliceOne index (transactions cf);
               totalDeposits := match tx_type deleted with
                                | Deposit => totalDeposits cf - tx_amount deleted
                                | Withdrawal => totalDeposits cf
                                end;
               totalWithdrawals := match tx_type deleted with
                                   | Deposit => totalWithdrawals cf
                                   | Withdrawal => totalWithdrawals cf - tx_amount deleted
                                   end |} in
          let st1 := _invalidateAccountCache (withCashFlow st cf') in
          (Some deleted, (currentSize getTradeRealizedPnL st1).2)
      end
  end.

(** [updateJournalEntry(id, updates)]: the first entry with the id is
    changed in place; the entry returned is undefined when none has it. *)
Definition updateJournalEntry (entryId : N) (updates : TradeUpdate) (st : State)
  : option Trade * State :=
  match findIndex (fun e => (id e =? entryId)%N) (entries st) with
  | None => (None, st)
  | Some index =>
      match entries st !! index with
      | None => (None, st)
      | Some entry =>
          let entry' := assign entry updates in
          (Some entry',
           _invalidateAccountCache (withEntries st (<[index := entry']> (entries st))))
      end
  end.

(** [deleteJournalEntry(id)] *)
Definition deleteJournalEntry (entryId : N) (st : State) : option Trade * State :=
  match findIndex (fun e => (id e =? entryId)%N) (entries st) with
  | None => (None, st)
  | Some index =>
      match entries st !! index with
      | None => (None, st)
      | Some deleted =>
          (Some deleted,
           _invalidateAccountCache (withEntries st (spliceOne index (entries st))))
      end
  end.

(** [getOpenTrades] *)
Definition getOpenTrades (st : State) : list Trade :=
  List.filter (fun e => bool_decide (status e = StOpen)) (entries st).

(** [getFilteredEntries(filter)] *)
Definition getFilteredEntries (filter : JournalFilter) (st : State) : list Trade :=
  match filter with
  | FilterAll => entries st
  | FilterStatus s => List.filter (fun e => bool_decide (status e = s)) (entries st)
  | FilterOther => List.filter (fun _ => false) (entries st)
  end.

(** A call on the state object: a mutator that invalidates the account
    cache, or a read of one of the two computed getters. *)
Inductive Call :=
| CallAddCashFlow (now : N) (type : TxType) (amount : Qc) (timestamp : string)
| CallDeleteCashFlow (txId : N)
| CallAddEntry (newEntry : Trade)
| CallUpdateEntry (entryId : N) (updates : TradeUpdate)
| CallDeleteEntry (entryId : N)
| CallReadRealizedPnL
| CallReadCurrentSize.

Definition call (c : Call) (st : State) : State :=
  match c with
  | CallAddCashFlow now type amount timestamp =>
      addCashFlowTransaction getTradeRealizedPnL now type amount timestamp st
  | CallDeleteCashFlow txId => (deleteCashFlowTransaction txId st).2
  | CallAddEntry newEntry => addJournalEntry newEntry st
  | CallUpdateEntry entryId updates => (updateJournalEntry entryId updates st).2
  | CallDeleteEntry entryId => (deleteJournalEntry entryId st).2
  | CallReadRealizedPnL => (realizedPnL getTradeRealizedPnL st).2
  | CallReadCurrentSize => (currentSize getTradeRealizedPnL st).2
  end.

(** The calls of a list, first to last. *)
Definition calls (cs : list Call) (st : State) : State :=
  fold_left (fun s c => call c s) cs st.

End WithExtractor.

(** The cached values, when present, are the values of the current
    journal, cash flow and settings. *)
Definition cacheCoherent (f : Trade -> Qc) (st : State) : Prop :=
  (forall v, cachedRealizedPnL (_accountCache st) = Some v ->
             v = calculateRealizedPnL f (entries st)) /\
  (forall v, cachedCurrentSize (_accountCache st) = Some v ->
             v = realizedBalanceFormula f st).

(** [tx.type === 'deposit'], [tx.type === 'withdrawal'] *)
Definition isDeposit (tx : Transaction) : bool :=
  match tx_type tx with Deposit => true | Withdrawal => false end.

Definition isWithdrawal (tx : Transaction) : bool :=
  match tx_type tx with Deposit => false | Withdrawal => true end.

End AppStateOps.

(** ** StatsCalculator: net cash flow of a date range *)

(** [!dateFrom], [!dateTo] negated: a bound that is null, undefined or the
    empty string is not given. *)
Definition given (d : option string) : bool :=
  match d with
  | Some s => negb (String.eqb s "")
  | None => false
  end.

(** The first of the two StatsCalculator classes of stats.js. *)
Module StatsCalculatorCashFlow.
Import AppState.

Section WithLocalDate.

(** [formatDate(txDate)] for [txDate = new Date(tx.timestamp)] moved to
    local midnight: the Date parser is built in and marketHours.formatDate
    is not among the sources. *)
Variable txDateStr : Transaction -> string.

(** The filter of [calculateNetCashFlow]. *)
Definition inRange (dateFrom dateTo : option string) (tx : Transaction) : bool :=
  let inRange := true in
  let inRange :=
    if given dateFrom then inRange && String.leb (default "" dateFrom) (txDateStr tx)
    else inRange in
  let inRange :=
    if given dateTo then inRange && String.leb (txDateStr tx) (default "" dateTo)
    else inRange in
  inRange.

(** [calculateNetCashFlow(dateFrom, dateTo)] *)
Definition calculateNetCashFlow (st : State) (dateFrom dateTo : option string) : Qc :=
  let cashFlowTransactions := transactions (cashFlowOf st) in
  if negb (given dateFrom) && negb (given dateTo) then getCashFlowNet st
  else
    fold_left (fun sum tx => sum + match tx_type tx with
                                   | Deposit => tx_amount tx
                                   | Withdrawal => - tx_amount tx
                                   end)
              (List.filter (inRange dateFrom dateTo) cashFlowTransactions) 0.

End WithLocalDate.
End StatsCalculatorCashFlow.

(** The second StatsCalculator class of stats.js. *)
Module StatsCalculatorRefactoredCashFlow.
Import AppState.

(** [{ net, deposits, withdrawals }] *)
Record Breakdown := mkBreakdown {
  net : Qc;
  deposits : Qc;
  withdrawals : Qc
}.

Section WithLocalDate.

Variable txDateStr : Transaction -> string.

(** The flag [inRange] of the loop of [calculateCashFlowBreakdown]. *)
Definition inRange (dateFrom dateTo : option string) (tx : Transaction) : bool :=
  let inRange := true in
  let inRange :=
    if given dateFrom && String.ltb (txDateStr tx) (default "" dateFrom) then false
    else inRange in
  let inRange :=
    if given dateTo && String.ltb (default "" dateTo) (txDateStr tx) then false
    else inRange in
  inRange.

(** One round of the loop of [calculateCashFlowBreakdown]; the state is
    [(deposits, withdrawals)]. *)
Definition breakdownStep (dateFrom dateTo : option string) (acc : Qc * Qc)
  (tx : Transaction) : Qc * Qc :=
  if inRange dateFrom dateTo tx then
    match tx_type tx with
    | Deposit => (acc.1 + tx_amount tx, acc.2)
    | Withdrawal => (acc.1, acc.2 + tx_amount tx)
    end
  else acc.

(** [calculateCashFlowBreakdown(dateFrom, dateTo)] *)
Definition calculateCashFlowBreakdown (st : State) (dateFrom dateTo : option string)
  : Breakdown :=
  let cashFlowTransactions := transactions (cashFlowOf st) in
  if negb (given dateFrom) && negb (given dateTo) then
    {| net := getCashFlowNet st;
       deposits :=
         fold_left (fun sum tx => sum + tx_amount tx)
           (List.filter (fun tx => match tx_type tx with Deposit => true | _ => false end)
                        cashFlowTransactions) 0;
       withdrawals :=
         fold_left (fun sum tx => sum + tx_amount tx)
           (List.filter (fun tx => match tx_type tx with Withdrawal => true | _ => false end)
                        cashFlowTransactions) 0 |}
  else
    let '(deposits, withdrawals) :=
      fold_left (breakdownStep dateFrom dateTo) cashFlowTransactions (0, 0) in
    {| net := deposits - withdrawals; deposits := deposits; withdrawals := withdrawals |}.

(** [calculateNetCashFlow(dateFrom, dateTo)] *)
Definition calculateNetCashFlow (st : State) (dateFrom dateTo : option string) : Qc :=
  net (calculateCashFlowBreakdown st dateFrom dateTo).

End WithLocalDate.
End StatsCalculatorRefactoredCashFlow.

(** ** IncrementalStatsCalculator: reads of the cache *)

Module IncrementalStatsAccessors.
Import IncrementalStatsCalculator.

(** [getCachedStats] *)
Definition getCachedStats (cache : option StatsCache) : option StatsCache :=
  match cache with
  | Some c => if (0 <? tradeCount c)%nat then Some c else None
  | None => None
  end.

(** The pattern of the nine overriding methods: the cached field when the
    cache is valid for the trades, else the call of the parent's method,
    a TypeError ([None]) when the parent does not define it. *)
Definition cachedOr {X} (field : CachedStats -> X) (method : option (list Trade -> X))
  (cache : option StatsCache) (trades : list Trade) : option X :=
  match cache with
  | Some c =>
      if _isCacheValid cache trades then Some (field (stats c))
      else callSuper method trades
  | None => callSuper method trades
  end.

Section WithParent.

Variable parent : Parent.

Definition calculateWinRate := cachedOr cs_winRate (super_calculateWinRate parent).
Definition calculateWinsLosses :=
  cachedOr cs_winsLosses (super_calculateWinsLosses parent).
Definition calculateAverageWin := cachedOr cs_avgWin (super_calculateAverageWin parent).
Definition calculateAverageLoss :=
  cachedOr cs_avgLoss (super_calculateAverageLoss parent).
Definition calculateProfitFactor :=
  cachedOr cs_profitFactor (super_calculateProfitFactor parent).
Definition calculateExpectancy :=
  cachedOr cs_expectancy (super_calculateExpectancy parent).
Definition calculateLargestWin :=
  cachedOr cs_largestWin (super_calculateLargestWin parent).
Definition calculateLargestLoss :=
  cachedOr cs_largestLoss (super_calculateLargestLoss parent).
Definition calculateAvgHoldTime :=
  cachedOr cs_avgHoldTime (super_calculateAvgHoldTime parent).

End WithParent.
End IncrementalStatsAccessors.

(** ** PnLCalendar: month navigation *)

Module PnLCalendarNav.

(** [this.currentYear], [this.currentMonth] *)
Record View := mkView {
  currentYear : Z;
  currentMonth : Z
}.

(** [handlePrevMonth] *)
Definition handlePrevMonth (v : View) : View :=
  if (currentMonth v =? 0)%Z
  then {| currentYear := currentYear v - 1; currentMonth := 11 |}
  else {| currentYear := currentYear v; currentMonth := currentMonth v - 1 |}.

(** [handleNextMonth] *)
Definition handleNextMonth (v : View) : View :=
  if (currentMonth v =? 11)%Z
  then {| currentYear := currentYear v + 1; currentMonth := 0 |}
  else {| currentYear := currentYear v; currentMonth := currentMonth v + 1 |}.

(** The grid [render] draws after a navigation step. *)
Definition grid (v : View) : list PnLCalendar.Day :=
  PnLCalendar._getDaysInMonth (currentYear v) (currentMonth v).

End PnLCalendarNav.

(** ** tradeUtils *)

Module tradeUtils.

(** The fields of a trade the date functions read. *)
Record DatedTrade := mkDatedTrade {
  timestamp : string;
  exitDate : option string;
  ticker : string
}.

Section WithDateParser.

Variable formattedDateOf : string -> string.

(** [getTradeEntryDateString] *)
Definition getTradeEntryDateString (trade : DatedTrade) : option string :=
  cashFlowUtils.getDateStringFromTimestamp formattedDateOf (timestamp trade).

(** [isTradeOpenOnDate] *)
Definition isTradeOpenOnDate (trade : DatedTrade) (dateStr : string) : bool :=
  match getTradeEntryDateString trade with
  | None => false
  | Some entryDate =>
      if String.eqb entryDate "" then false
      else
        let enteredBefore := String.leb entryDate dateStr in
        let notClosedYet :=
          match exitDate trade with
          | None => true
          | Some e => String.eqb e "" || String.ltb dateStr e
          end in
        enteredBefore && notClosedYet
  end.

(** [getTradesOpenOnDate] *)
Definition getTradesOpenOnDate (trades : list DatedTrade) (dateStr : string)
  : list DatedTrade :=
  List.filter (fun trade => isTradeOpenOnDate trade dateStr) trades.

(** The reducer of [getEarliestTradeDate]. *)
Definition earliestStep (earliest : option string) (trade : DatedTrade) : option string :=
  match getTradeEntryDateString trade with
  | None => earliest
  | Some entryDateStr =>
      if String.eqb entryDateStr "" then earliest
      else
        match earliest with
        | None => Some entryDateStr
        | Some e =>
            if String.eqb e "" || String.ltb entryDateStr e then Some entryDateStr
            else earliest
        end
  end.

(** [getEarliestTradeDate] *)
Definition getEarliestTradeDate (trades : list DatedTrade) : option string :=
  if (length trades =? 0)%nat then None
  else fold_left earliestStep trades None.

(** [[...new Set(tickers)]]: each value once, in the order of first
    occurrence. *)
Fixpoint uniqueFirst (seen : list string) (l : list string) : list string :=
  match l with
  | [] => []
  | x :: r =>
      if existsb (String.eqb x) seen then uniqueFirst seen r
      else x :: uniqueFirst (x :: seen) r
  end.

(** [getTickersOpenOnDate] *)
Definition getTickersOpenOnDate (trades : list DatedTrade) (dateStr : string)
  : list string :=
  let openTrades := getTradesOpenOnDate trades dateStr in
  let tickers := map ticker openTrades in
  uniqueFirst [] tickers.

End WithDateParser.
End tradeUtils.

(** The reduce of the dated sums of cashFlowUtils over the transactions a
    test keeps. *)
Definition sumKept (p : AppState.Transaction -> bool)
  (txs : list AppState.Transaction) : Qc :=
  fold_left (fun sum txn => sum + cashFlowUtils.signedAmount txn) (List.filter p txs) 0.

(** No ',' among the characters of a string. *)
Fixpoint noComma (s : string) : bool :=
  match s with
  | EmptyString => true
  | String c r => negb (Ascii.eqb c ","%char) && noComma r
  end.


(** ** priceTracker: unrealized P&L at the cached prices *)

Module priceTracker.

(** [toUpperCase] on the ASCII letters; tickers are ASCII strings. *)
Definition upperChar (c : ascii) : ascii :=
  let n := nat_of_ascii c in
  if ((97 <=? n) && (n <=? 122))%nat then ascii_of_nat (n - 32) else c.

Fixpoint toUpperCase (s : string) : string :=
  match s with
  | EmptyString => EmptyString
  | String c r => String (upperChar c) (toUpperCase r)
  end.

(** A cached quote; only [price] is read here. *)
Record PriceData := mkPriceData {
  price : Qc
}.

(** The fields of a trade [calculateUnrealizedPnL] reads. *)
Record PositionTrade := mkPositionTrade {
  ticker : string;
  remainingShares : option Qc;
  shares : Qc;
  entry : Qc
}.

(** The result of [calculateUnrealizedPnL].  [unrealizedPercent] divides
    by the entry price without a guard and is left out. *)
Record UnrealizedPnL := mkUnrealized {
  currentPrice : Qc;
  unrealizedPnL : Qc;
  u_shares : Qc;
  u_entry : Qc
}.

(** [getPrice(ticker)]; [this.cache] is a Map from ticker to quote. *)
Definition getPrice (cache : gmap string PriceData) (ticker : string)
  : option PriceData :=
  if String.eqb ticker "" then None else cache !! toUpperCase ticker.

(** [trade.remainingShares || trade.shares]: 0 is falsy. *)
Definition sharesOf (trade : PositionTrade) : Qc :=
  match remainingShares trade with
  | Some r => if Qc_eqb r 0 then shares trade else r
  | None => shares trade
  end.

(** [calculateUnrealizedPnL(trade)] *)
Definition calculateUnrealizedPnL (cache : gmap string PriceData)
  (trade : PositionTrade) : option UnrealizedPnL :=
  match getPrice cache (ticker trade) with
  | None => None
  | Some priceData =>
      let currentPrice := price priceData in
      let shares := sharesOf trade in
      let entry := entry trade in
      Some {| currentPrice := currentPrice;
              unrealizedPnL := (currentPrice - entry) * shares;
              u_shares := shares; u_entry := entry |}
  end.

(** [calculateTotalUnrealizedPnL(activeTrades)] for a given list of
    trades: [(totalPnL, tradeCount)].  [percentOfAccount] divides by the
    account size without a guard and is left out. *)
Definition calculateTotalUnrealizedPnL (cache : gmap string PriceData)
  (activeTrades : list PositionTrade) : Qc * nat :=
  fold_left (fun acc trade =>
               match calculateUnrealizedPnL cache trade with
               | Some pnl => (acc.1 + unrealizedPnL pnl, S acc.2)
               | None => acc
               end)
            activeTrades (0, 0%nat).

End priceTracker.

(** ** journalTableRenderer: the figures of a journal row *)

Module journalTableRenderer.

(** The fields of a trade the row figures read; [isOptions] is
    [trade.assetType === 'options']. *)
Record RowTrade := mkRowTrade {
  r_status : Status;
  riskDollars : option Qc;
  isOptions : bool;
  r_entry : Qc;
  r_shares : Qc;
  originalShares : option Qc;
  r_remainingShares : option Qc
}.

Inductive RowClass := ClosedWinner | ClosedLoser | NoClass.

Section WithState.

(** [getTradeRealizedPnL(trade)] and [state.account.currentSize]. *)
Variable getTradeRealizedPnL : RowTrade -> Qc.
Variable accountSize : Qc.

Definition hasPnL (trade : RowTrade) : bool :=
  match r_status trade with StClosed | StTrimmed => true | StOpen => false end.

Definition multiplier (trade : RowTrade) : Qc :=
  if isOptions trade then Qc_of_Z 100 else 1.

(** [rMultiple] *)
Definition rMultiple (trade : RowTrade) : option Qc :=
  let pnl := getTradeRealizedPnL trade in
  match riskDollars trade with
  | Some risk =>
      if hasPnL trade && Qc_gtb risk 0 then
        let actualRiskDollars := risk * multiplier trade in
        Some (pnl / actualRiskDollars)
      else None
  | None => None
  end.

(** [trade.originalShares || trade.shares] *)
Definition totalShares (trade : RowTrade) : Qc :=
  match originalShares trade with
  | Some o => if Qc_eqb o 0 then r_shares trade else o
  | None => r_shares trade
  end.

(** [pnlPercent] *)
Definition pnlPercent (trade : RowTrade) : option Qc :=
  let pnl := getTradeRealizedPnL trade in
  if hasPnL trade then
    let positionCost := r_entry trade * totalShares trade * multiplier trade in
    if Qc_gtb positionCost 0 then Some ((pnl / positionCost) * Qc_of_Z 100) else None
  else None.

(** [positionPercent]; [shares] is [trade.remainingShares ?? trade.shares]. *)
Definition positionPercent (trade : RowTrade) : option Qc :=
  let shares := default (r_shares trade) (r_remainingShares trade) in
  match r_status trade with
  | StOpen | StTrimmed =>
      let positionValue := shares * r_entry trade in
      if Qc_gtb accountSize 0 then Some ((positionValue / accountSize) * Qc_of_Z 100)
      else None
  | StClosed => None
  end.

(** [rowBgClass] *)
Definition rowBgClass (trade : RowTrade) : RowClass :=
  let pnl := getTradeRealizedPnL trade in
  match r_status trade with
  | StClosed =>
      if Qc_gtb pnl 0 then ClosedWinner
      else if Qc_ltb pnl 0 then ClosedLoser
      else NoClass
  | _ => NoClass
  end.

End WithState.
End journalTableRenderer.

(** ** HistoricalPrices: the cache of daily bars *)

Module HistoricalPrices.
Import JsDate.

(** [{ open, high, low, close }] *)
Record Bar := mkBar {
  open : Qc;
  high : Qc;
  low : Qc;
  close : Qc
}.

(** [formatDate(date)] for a Date: the year is not padded. *)
Definition formatDate (d : Date) : string :=
  IncrementalStatsCalculator.decimal (Z.to_N (getFullYear d)) +:+ "-" +:+
  pad2 (getMonth d + 1) +:+ "-" +:+ pad2 (getDate d).

(** [getPrice(ticker, date)] for a Date; an empty ticker gives null. *)
Definition getPrice (cache : gmap string (gmap string Bar)) (ticker : string)
  (date : Date) : option Qc :=
  if String.eqb ticker "" then None
  else
    match cache !! ticker with
    | Some prices => close <$> prices !! formatDate date
    | None => None
    end.

(** The cache update of [fetchHistoricalPrices]:
    [Object.assign(this.cache[ticker], prices)]. *)
Definition mergePrices (cache : gmap string (gmap string Bar)) (ticker : string)
  (prices : gmap string Bar) : gmap string (gmap string Bar) :=
  <[ticker := prices ∪ default ∅ (cache !! ticker)]> cache.

Section WithParser.

(** [new Date(dateStr)] for a date string: the local calendar day of the
    instant the built-in parser gives. *)
Variable parseDate : string -> Date.

(** The loop of [getPriceOnDate], from [i] on, [n] rounds. *)
Fixpoint lookBack (prices : gmap string Bar) (targetDate : Date) (i : Z) (n : nat)
  : option Qc :=
  match n with
  | O => None
  | S n' =>
      let prevDate := setDate targetDate (getDate targetDate - i) in
      match prices !! formatDate prevDate with
      | Some bar => Some (close bar)
      | None => lookBack prices targetDate (i + 1) n'
      end
  end.

(** [getPriceOnDate(ticker, date)] *)
Definition getPriceOnDate (cache : gmap string (gmap string Bar)) (ticker : string)
  (date : Date) : option Qc :=
  match cache !! ticker with
  | None => None
  | Some prices =>
      let dateStr := formatDate date in
      match prices !! dateStr with
      | Some bar => Some (close bar)
      | None =>
          let targetDate := parseDate dateStr in
          lookBack prices targetDate 1 7
      end
  end.

(** The fields of a trade [calculateUnrealizedPnL] reads. *)
Record HeldTrade := mkHeldTrade {
  h_ticker : string;
  h_shares : option Qc;
  h_entry : option Qc
}.

(** [calculateUnrealizedPnL(trade, date)]: a missing price and the price
    0 both give 0. *)
Definition calculateUnrealizedPnL (cache : gmap string (gmap string Bar))
  (trade : HeldTrade) (date : Date) : Qc :=
  match getPriceOnDate cache (h_ticker trade) date with
  | None => 0
  | Some price =>
      if Qc_eqb price 0 then 0
      else
        let shares := default 0 (h_shares trade) in
        let entry := default 0 (h_entry trade) in
        (price - entry) * shares
  end.

End WithParser.

(** [clearCache(ticker)]: null and the empty string clear everything. *)
Definition clearCache (cache : gmap string (gmap string Bar)) (ticker : option string)
  : gmap string (gmap string Bar) :=
  match ticker with
  | Some t => if String.eqb t "" then ∅ else delete t cache
  | None => ∅
  end.

(** [getCacheStats()]: [(tickers, totalDataPoints)]. *)
Definition getCacheStats (cache : gmap string (gmap string Bar)) : nat * nat :=
  (size cache, map_fold (fun _ prices sum => (sum + size prices)%nat) 0%nat cache).

End HistoricalPrices.


(* ================================================================== *)
(** * Properties *)
(* ================================================================== *)

(** ** Arithmetic helpers *)

Lemma len_nonzero {A} (l : list A) : length l ≠ 0%nat -> len l ≠ 0.
Proof.
  unfold len. intros H E. rewrite <- Z2Qc_inj_0 in E.
  apply Z2Qc_inj in E. lia.
Qed.

Lemma len_nil {A} : len (@nil A) = 0.
Proof. unfold len. simpl. apply Z2Qc_inj_0. Qed.

Lemma Qc_leb_negb_gtb x : Qc_leb x 0 = negb (Qc_gtb x 0).
Proof.
  unfold Qc_leb, Qc_gtb.
  destruct (decide (0 < x)) as [H|H].
  - rewrite (bool_decide_eq_true_2 _ H). simpl.
    apply bool_decide_eq_false_2. by apply Qclt_not_le.
  - rewrite (bool_decide_eq_false_2 _ H). simpl.
    apply bool_decide_eq_true_2. by apply Qcnot_lt_le.
Qed.

Lemma Qc_ltb_gtb_false x : Qc_ltb x 0 = true -> Qc_gtb x 0 = false.
Proof.
  unfold Qc_ltb, Qc_gtb. intros H%bool_decide_eq_true.
  apply bool_decide_eq_false_2. intros H'.
  apply (Qclt_not_le _ _ H'). by apply Qclt_le_weak.
Qed.

Lemma Qc_leb_cases x :
  Qc_leb x 0 = true -> Qc_ltb x 0 = true \/ x = 0.
Proof.
  unfold Qc_leb, Qc_ltb. intros H%bool_decide_eq_true.
  destruct (decide (x < 0)) as [Hlt|Hn].
  - left. by apply bool_decide_eq_true_2.
  - right. apply Qcle_antisym; [done|]. by apply Qcnot_lt_le.
Qed.

Lemma Qc_ltb_leb x : Qc_ltb x 0 = true -> Qc_leb x 0 = true.
Proof.
  unfold Qc_leb, Qc_ltb. intros H%bool_decide_eq_true.
  apply bool_decide_eq_true_2. by apply Qclt_le_weak.
Qed.

Lemma Qc_ltb_zero : Qc_ltb 0 0 = false.
Proof. apply bool_decide_eq_false_2. apply Qcle_not_lt, Qcle_refl. Qed.

Lemma Qc_gtb_zero : Qc_gtb 0 0 = false.
Proof. apply bool_decide_eq_false_2. apply Qcle_not_lt, Qcle_refl. Qed.

(** ** The realized-P&L sums of the calculators *)

Section StatsTheory.

Variable f : Trade -> Qc.

Local Abbreviation sumPnL := (StatsCalculator.sumPnL f).
Local Abbreviation isWin := (fun t => Qc_gtb (f t) 0).
Local Abbreviation isLoss := (fun t => Qc_ltb (f t) 0).
Local Abbreviation isNonWin := (fun t => Qc_leb (f t) 0).

Lemma fold_sum_shift (xs : list Trade) (a : Qc) :
  fold_left (fun sum t => sum + f t) xs a = a + sumPnL xs.
Proof.
  unfold StatsCalculator.sumPnL. revert a.
  induction xs as [|t xs IH]; intros a; simpl.
  - ring.
  - rewrite (IH (a + f t)), (IH (0 + f t)). ring.
Qed.

Lemma sumPnL_nil : sumPnL [] = 0.
Proof. reflexivity. Qed.

Lemma sumPnL_cons t xs : sumPnL (t :: xs) = f t + sumPnL xs.
Proof.
  unfold StatsCalculator.sumPnL at 1. simpl.
  rewrite fold_sum_shift. ring.
Qed.

Lemma sumPnL_app xs ys : sumPnL (xs ++ ys) = sumPnL xs + sumPnL ys.
Proof.
  induction xs as [|t xs IH]; simpl.
  - rewrite sumPnL_nil. ring.
  - rewrite !sumPnL_cons, IH. ring.
Qed.

(** Breakeven trades add nothing: the sum over P&L <= 0 is the sum over
    P&L < 0. *)
Lemma sumPnL_nonwin_loss xs :
  sumPnL (List.filter isNonWin xs) = sumPnL (List.filter isLoss xs).
Proof.
  induction xs as [|t xs IH]; simpl; [done|].
  destruct (Qc_leb (f t) 0) eqn:Hle.
  - destruct (Qc_leb_cases _ Hle) as [Hlt|Hz].
    + rewrite Hlt, !sumPnL_cons, IH. done.
    + rewrite Hz, Qc_ltb_zero, sumPnL_cons, Hz, IH. ring.
  - destruct (Qc_ltb (f t) 0) eqn:Hlt; [|done].
    apply Qc_ltb_leb in Hlt. congruence.
Qed.

Lemma filter_nonwin_negb xs :
  List.filter isNonWin xs = List.filter (fun t => negb (Qc_gtb (f t) 0)) xs.
Proof. apply List.filter_ext. intros t. apply Qc_leb_negb_gtb. Qed.

Lemma length_win_nonwin xs :
  (length (List.filter isWin xs) + length (List.filter isNonWin xs))%nat = length xs.
Proof.
  rewrite filter_nonwin_negb.
  induction xs as [|t xs IH]; simpl; [done|].
  destruct (Qc_gtb (f t) 0); simpl; lia.
Qed.

(** The single pass of [_getClosedTradeMetrics] computes the two filters
    and their sums. *)
Lemma metrics_fold xs ws ls tw tl :
  fold_left (StatsCalculatorRefactored.metricsStep f) xs (ws, ls, tw, tl) =
  (ws ++ List.filter isWin xs, ls ++ List.filter isNonWin xs,
   tw + sumPnL (List.filter isWin xs), tl + sumPnL (List.filter isNonWin xs)).
Proof.
  revert ws ls tw tl.
  induction xs as [|t xs IH]; intros ws ls tw tl; simpl.
  - rewrite !app_nil_r, sumPnL_nil.
    by rewrite (Qcplus_0_r tw), (Qcplus_0_r tl).
  - rewrite (Qc_leb_negb_gtb (f t)).
    destruct (Qc_gtb (f t) 0) eqn:Hgt; simpl; rewrite IH, sumPnL_cons.
    + rewrite <- app_assoc. simpl. by rewrite (Qcplus_assoc tw).
    + rewrite <- app_assoc. simpl. by rewrite (Qcplus_assoc tl).
Qed.

End StatsTheory.

(** ** Filters against counts *)

Lemma countIf_filter {A} (p : A -> bool) (l : list A) :
  countIf p l = length (List.filter p l).
Proof.
  induction l as [|x l IH]; simpl; [done|].
  destruct (p x); simpl; lia.
Qed.

Lemma filter_filter_andb {A} (p q : A -> bool) (l : list A) :
  List.filter q (List.filter p l) = List.filter (fun x => p x && q x) l.
Proof.
  induction l as [|x l IH]; simpl; [done|].
  destruct (p x); simpl; [destruct (q x)|]; by rewrite IH.
Qed.

Lemma countIf_app {A} (p : A -> bool) (l1 l2 : list A) :
  countIf p (l1 ++ l2) = (countIf p l1 + countIf p l2)%nat.
Proof. induction l1 as [|x l1 IH]; simpl; [done|]. rewrite IH. lia. Qed.

Lemma closedCount_length trades :
  length (List.filter isClosedOrTrimmed trades) = closedCount trades.
Proof. unfold closedCount. by rewrite countIf_filter. Qed.

Lemma only_open_closedCount trades :
  Forall (fun t => status t = StOpen) trades -> closedCount trades = 0%nat.
Proof.
  unfold closedCount. induction 1 as [|t l Ht _ IH]; simpl; [done|].
  unfold isClosedOrTrimmed at 1. by rewrite Ht, IH.
Qed.

Section CountTheory.

Variable f : Trade -> Qc.

Local Abbreviation sumPnL := (StatsCalculator.sumPnL f).

Lemma winCount_length trades :
  length (List.filter (fun t => Qc_gtb (f t) 0) (List.filter isClosedOrTrimmed trades))
  = winCount f trades.
Proof. unfold winCount. by rewrite filter_filter_andb, countIf_filter. Qed.

Lemma nonWinCount_length trades :
  length (List.filter (fun t => Qc_leb (f t) 0) (List.filter isClosedOrTrimmed trades))
  = nonWinCount f trades.
Proof. unfold nonWinCount. by rewrite filter_filter_andb, countIf_filter. Qed.

Lemma lossCount_length trades :
  length (List.filter (fun t => Qc_ltb (f t) 0) (List.filter isClosedOrTrimmed trades))
  = lossCount f trades.
Proof. unfold lossCount. by rewrite filter_filter_andb, countIf_filter. Qed.

Lemma win_nonwin_total trades :
  (winCount f trades + nonWinCount f trades)%nat = closedCount trades.
Proof.
  rewrite <- winCount_length, <- nonWinCount_length, <- closedCount_length.
  apply length_win_nonwin.
Qed.

Lemma sumIf_filter (p : Trade -> bool) trades :
  sumPnL (List.filter p trades) = sumIf p f trades.
Proof.
  induction trades as [|t l IH]; simpl; [done|].
  destruct (p t).
  - by rewrite sumPnL_cons, IH.
  - rewrite IH. by rewrite Qcplus_0_l.
Qed.

Lemma winTotal_sum trades :
  sumPnL (List.filter (fun t => Qc_gtb (f t) 0) (List.filter isClosedOrTrimmed trades))
  = winTotal f trades.
Proof. unfold winTotal. by rewrite filter_filter_andb, sumIf_filter. Qed.

Lemma lossTotal_sum trades :
  sumPnL (List.filter (fun t => Qc_ltb (f t) 0) (List.filter isClosedOrTrimmed trades))
  = lossTotal f trades.
Proof. unfold lossTotal. by rewrite filter_filter_andb, sumIf_filter. Qed.

Lemma nonWinTotal_sum trades :
  sumPnL (List.filter (fun t => Qc_leb (f t) 0) (List.filter isClosedOrTrimmed trades))
  = lossTotal f trades.
Proof. rewrite sumPnL_nonwin_loss. apply lossTotal_sum. Qed.

(** What [_getClosedTradeMetrics] returns, field by field. *)
Lemma metrics_fields trades :
  let m := StatsCalculatorRefactored._getClosedTradeMetrics f trades in
  StatsCalculatorRefactored.closedTrades m = List.filter isClosedOrTrimmed trades /\
  StatsCalculatorRefactored.wins m =
    List.filter (fun t => Qc_gtb (f t) 0) (List.filter isClosedOrTrimmed trades) /\
  StatsCalculatorRefactored.losses m =
    List.filter (fun t => Qc_leb (f t) 0) (List.filter isClosedOrTrimmed trades) /\
  StatsCalculatorRefactored.totalWins m = winTotal f trades /\
  StatsCalculatorRefactored.totalLosses m = lossTotal f trades /\
  StatsCalculatorRefactored.winsCount m = winCount f trades /\
  StatsCalculatorRefactored.lossesCount m = nonWinCount f trades.
Proof.
  unfold StatsCalculatorRefactored._getClosedTradeMetrics.
  rewrite <- winTotal_sum, <- nonWinTotal_sum, <- winCount_length, <- nonWinCount_length.
  destruct (List.filter isClosedOrTrimmed trades) as [|t l] eqn:Hc.
  - simpl. repeat split.
  - change (length (t :: l) =? 0)%nat with false. cbv iota.
    rewrite metrics_fold. cbn [fst snd app].
    rewrite !Qcplus_0_l. simpl. repeat split.
Qed.

End CountTheory.

(** ** Win rate *)

Lemma winRate_straight f trades :
  StatsCalculator.calculateWinRate f trades = winRateSpec f trades.
Proof.
  unfold StatsCalculator.calculateWinRate, winRateSpec.
  rewrite closedCount_length.
  destruct (closedCount trades =? 0)%nat; [done|].
  unfold len. rewrite winCount_length, closedCount_length.
  f_equal. unfold num, Qcdiv. ring.
Qed.

Lemma winRate_refactored f trades :
  StatsCalculatorRefactored.calculateWinRate f trades = winRateSpec f trades.
Proof.
  rewrite <- winRate_straight.
  unfold StatsCalculatorRefactored.calculateWinRate,
    StatsCalculatorRefactored._getClosedTradeMetrics,
    StatsCalculator.calculateWinRate.
  destruct (List.filter isClosedOrTrimmed trades) as [|t l] eqn:Hc; [done|].
  change (length (t :: l) =? 0)%nat with false. cbv iota.
  rewrite metrics_fold. by cbn [fst snd app StatsCalculatorRefactored.winRate].
Qed.

Lemma winCount_breakeven f t trades :
  f t = 0 -> winCount f (t :: trades) = winCount f trades.
Proof.
  intros Hz. unfold winCount. simpl.
  by rewrite Hz, Qc_gtb_zero, andb_false_r.
Qed.

(** C5: winRate is null when there is no closed/trimmed trade (so for the
    empty list and for a list of open trades only); otherwise it is 100
    times the number of closed/trimmed trades with realized P&L > 0 over
    the number of closed/trimmed trades, in both versions of the
    calculator; a trade with realized P&L exactly 0 is not counted among
    the wins. *)
Theorem winRate_null_or_percentage (f : Trade -> Qc) (trades : list Trade) :
  StatsCalculator.calculateWinRate f trades =
    (if (closedCount trades =? 0)%nat then None
     else Some (Qc_of_Z 100 * num (winCount f trades) / num (closedCount trades))) /\
  StatsCalculatorRefactored.calculateWinRate f trades =
    StatsCalculator.calculateWinRate f trades /\
  StatsCalculator.calculateWinRate f [] = None /\
  (Forall (fun t => status t = StOpen) trades ->
     StatsCalculator.calculateWinRate f trades = None) /\
  (forall t, f t = 0 -> winCount f (t :: trades) = winCount f trades).
Proof.
  split; [apply winRate_straight|].
  split; [by rewrite winRate_refactored, winRate_straight|].
  split; [done|].
  split.
  - intros Ho. rewrite winRate_straight. unfold winRateSpec.
    by rewrite (only_open_closedCount _ Ho).
  - intros t. apply winCount_breakeven.
Qed.

(** ** Wins, losses and the profit factor *)

Section BreakevenTheory.

Variable f : Trade -> Qc.

Lemma num_nonzero n : n ≠ 0%nat -> num n ≠ 0.
Proof.
  unfold num. intros H E. rewrite <- Z2Qc_inj_0 in E.
  apply Z2Qc_inj in E. lia.
Qed.

Lemma sumIf_app (p : Trade -> bool) l1 l2 :
  sumIf p f (l1 ++ l2) = sumIf p f l1 + sumIf p f l2.
Proof.
  induction l1 as [|x l1 IH]; simpl.
  - by rewrite Qcplus_0_l.
  - rewrite IH. ring.
Qed.

Lemma winsLosses_straight trades :
  StatsCalculator.calculateWinsLosses f trades =
  {| wl_wins := winCount f trades; wl_losses := nonWinCount f trades;
     wl_total := closedCount trades |}.
Proof.
  unfold StatsCalculator.calculateWinsLosses.
  by rewrite winCount_length, nonWinCount_length, closedCount_length.
Qed.

Lemma winsLosses_refactored trades :
  StatsCalculatorRefactored.calculateWinsLosses f trades =
  {| wl_wins := winCount f trades; wl_losses := nonWinCount f trades;
     wl_total := closedCount trades |}.
Proof.
  unfold StatsCalculatorRefactored.calculateWinsLosses.
  destruct (metrics_fields f trades) as (Hc & _ & _ & _ & _ & Hw & Hl).
  by rewrite Hc, Hw, Hl, closedCount_length.
Qed.

Lemma nonWin_none_lossTotal trades :
  nonWinCount f trades = 0%nat -> lossTotal f trades = 0.
Proof.
  unfold nonWinCount, lossTotal.
  induction trades as [|t l IH]; simpl; [done|].
  destruct (isClosedOrTrimmed t); simpl.
  - destruct (Qc_ltb (f t) 0) eqn:Hlt.
    + rewrite (Qc_ltb_leb _ Hlt). discriminate.
    + destruct (Qc_leb (f t) 0); [discriminate|].
      simpl. intros H. rewrite (IH H). ring.
  - intros H. rewrite (IH H). ring.
Qed.

Lemma profitFactor_formula trades :
  StatsCalculatorRefactored.calculateProfitFactor f trades =
  if ((winCount f trades =? 0) || (nonWinCount f trades =? 0))%nat then None
  else if Qc_eqb (Qc_abs (lossTotal f trades)) 0 then None
       else Some (winTotal f trades / Qc_abs (lossTotal f trades)).
Proof.
  unfold StatsCalculatorRefactored.calculateProfitFactor.
  destruct (metrics_fields f trades) as (_ & Hw & Hl & Htw & Htl & _ & _).
  by rewrite Hw, Hl, Htw, Htl, winCount_length, nonWinCount_length.
Qed.

Section Breakeven.

Variables (t : Trade) (l1 l2 : list Trade).
Hypothesis Hclosed : isClosedOrTrimmed t = true.
Hypothesis Hzero : f t = 0.

Lemma breakeven_winCount : winCount f (l1 ++ t :: l2) = winCount f (l1 ++ l2).
Proof.
  unfold winCount. rewrite !countIf_app. simpl.
  by rewrite Hzero, Qc_gtb_zero, andb_false_r.
Qed.

Lemma breakeven_nonWinCount :
  nonWinCount f (l1 ++ t :: l2) = S (nonWinCount f (l1 ++ l2)).
Proof.
  unfold nonWinCount. rewrite !countIf_app. simpl.
  rewrite Hzero, Hclosed. simpl.
  replace (Qc_leb 0 0) with true; [lia|].
  symmetry. apply bool_decide_eq_true_2, Qcle_refl.
Qed.

Lemma breakeven_winTotal : winTotal f (l1 ++ t :: l2) = winTotal f (l1 ++ l2).
Proof.
  unfold winTotal. rewrite !sumIf_app. simpl.
  rewrite Hzero, Qc_gtb_zero, andb_false_r. ring.
Qed.

Lemma breakeven_lossTotal : lossTotal f (l1 ++ t :: l2) = lossTotal f (l1 ++ l2).
Proof.
  unfold lossTotal. rewrite !sumIf_app. simpl.
  rewrite Hzero, Qc_ltb_zero, andb_false_r. ring.
Qed.

Lemma breakeven_profitFactor :
  StatsCalculatorRefactored.calculateProfitFactor f (l1 ++ t :: l2) =
  StatsCalculatorRefactored.calculateProfitFactor f (l1 ++ l2).
Proof.
  rewrite !profitFactor_formula.
  rewrite breakeven_winCount, breakeven_nonWinCount, breakeven_winTotal,
    breakeven_lossTotal.
  destruct (winCount f (l1 ++ l2) =? 0)%nat; [done|]. simpl.
  destruct (nonWinCount f (l1 ++ l2) =? 0)%nat eqn:Hn; [|done].
  apply Nat.eqb_eq in Hn. rewrite (nonWin_none_lossTotal _ Hn).
  replace (Qc_eqb (Qc_abs 0) 0) with true; [done|].
  symmetry. unfold Qc_abs. rewrite Qc_ltb_zero. by apply bool_decide_eq_true_2.
Qed.

End Breakeven.
End BreakevenTheory.

(** C6: winsLosses counts the closed/trimmed trades with realized P&L > 0
    as wins and those with realized P&L <= 0 as losses, the two counts
    adding up to the total, in both versions of the calculator; a
    closed/trimmed trade with realized P&L exactly 0, wherever it stands
    in the list, goes to the losses and leaves the win count, the sum of
    wins (the profit factor's numerator) and the profit factor itself
    unchanged. *)
Theorem winsLosses_partition (f : Trade -> Qc) (trades : list Trade) :
  StatsCalculator.calculateWinsLosses f trades =
    {| wl_wins := winCount f trades; wl_losses := nonWinCount f trades;
       wl_total := closedCount trades |} /\
  StatsCalculatorRefactored.calculateWinsLosses f trades =
    StatsCalculator.calculateWinsLosses f trades /\
  (winCount f trades + nonWinCount f trades)%nat = closedCount trades /\
  StatsCalculatorRefactored.totalWins
    (StatsCalculatorRefactored._getClosedTradeMetrics f trades) = winTotal f trades /\
  (forall t l1 l2,
     trades = l1 ++ t :: l2 -> isClosedOrTrimmed t = true -> f t = 0 ->
     wl_wins (StatsCalculator.calculateWinsLosses f trades) =
       wl_wins (StatsCalculator.calculateWinsLosses f (l1 ++ l2)) /\
     wl_losses (StatsCalculator.calculateWinsLosses f trades) =
       S (wl_losses (StatsCalculator.calculateWinsLosses f (l1 ++ l2))) /\
     winTotal f trades = winTotal f (l1 ++ l2) /\
     StatsCalculatorRefactored.calculateProfitFactor f trades =
       StatsCalculatorRefactored.calculateProfitFactor f (l1 ++ l2)).
Proof.
  split; [apply winsLosses_straight|].
  split; [by rewrite winsLosses_refactored, winsLosses_straight|].
  split; [apply win_nonwin_total|].
  split; [apply (metrics_fields f trades)|].
  intros t l1 l2 -> Hc Hz. rewrite !winsLosses_straight. simpl.
  split; [by apply breakeven_winCount|].
  split; [by apply breakeven_nonWinCount|].
  split; [by apply breakeven_winTotal|].
  by apply breakeven_profitFactor.
Qed.

Lemma winsLosses_partition_witness :
  wl_losses (StatsCalculator.calculateWinsLosses realized
               [sampleWin; sampleBreakeven; sampleLoss]) =
  S (wl_losses (StatsCalculator.calculateWinsLosses realized [sampleWin; sampleLoss])) /\
  StatsCalculatorRefactored.calculateProfitFactor realized
    [sampleWin; sampleBreakeven; sampleLoss] =
  StatsCalculatorRefactored.calculateProfitFactor realized [sampleWin; sampleLoss].
Proof.
  destruct (winsLosses_partition realized [sampleWin; sampleBreakeven; sampleLoss])
    as (_ & _ & _ & _ & H).
  destruct (H sampleBreakeven [sampleWin] [sampleLoss]) as (_ & Hl & _ & Hp).
  - reflexivity.
  - reflexivity.
  - reflexivity.
  - split; [exact Hl | exact Hp].
Defined.

Lemma winRate_null_or_percentage_witness :
  StatsCalculator.calculateWinRate realized [sampleOpen] = None /\
  winCount realized [sampleBreakeven; sampleOpen] = winCount realized [sampleOpen].
Proof.
  destruct (winRate_null_or_percentage realized [sampleOpen]) as (_ & _ & _ & Ho & Hb).
  split.
  - apply Ho. repeat constructor.
  - apply (Hb sampleBreakeven). reflexivity.
Defined.

(** ** Trade expectancy and the average win/loss ratio *)

Section ExpectancyTheory.

Variable f : Trade -> Qc.

Lemma lossCount_none_lossTotal trades :
  lossCount f trades = 0%nat -> lossTotal f trades = 0.
Proof.
  unfold lossCount, lossTotal.
  induction trades as [|t l IH]; simpl; [done|].
  destruct (isClosedOrTrimmed t && Qc_ltb (f t) 0); [discriminate|].
  simpl. intros H. rewrite (IH H). ring.
Qed.

Lemma expectancy_straight trades :
  StatsCalculator.calculateTradeExpectancy f trades =
  if (closedCount trades =? 0)%nat then None
  else Some (num (winCount f trades) / num (closedCount trades)
               * average (winTotal f trades) (winCount f trades)
             + num (lossCount f trades) / num (closedCount trades)
               * average (lossTotal f trades) (lossCount f trades)).
Proof.
  unfold StatsCalculator.calculateTradeExpectancy.
  rewrite closedCount_length.
  destruct (closedCount trades =? 0)%nat; [done|].
  unfold len, average, num.
  by rewrite winCount_length, lossCount_length, closedCount_length,
    winTotal_sum, lossTotal_sum.
Qed.

Lemma expectancy_refactored trades :
  StatsCalculatorRefactored.calculateTradeExpectancy f trades =
  if (closedCount trades =? 0)%nat then None
  else Some (num (winCount f trades) / num (closedCount trades)
               * average (winTotal f trades) (winCount f trades)
             + num (nonWinCount f trades) / num (closedCount trades)
               * average (lossTotal f trades) (nonWinCount f trades)).
Proof.
  unfold StatsCalculatorRefactored.calculateTradeExpectancy.
  destruct (metrics_fields f trades) as (Hc & _ & _ & Htw & Htl & Hw & Hl).
  rewrite Hc, Htw, Htl, Hw, Hl, closedCount_length.
  destruct (closedCount trades =? 0)%nat; [done|].
  unfold len, average, num. by rewrite closedCount_length.
Qed.

Lemma lossTotal_nonpos trades : lossTotal f trades ≤ 0.
Proof.
  unfold lossTotal. induction trades as [|t l IH]; simpl.
  - apply Qcle_refl.
  - destruct (isClosedOrTrimmed t && Qc_ltb (f t) 0) eqn:E.
    + apply andb_true_iff in E as [_ Hlt].
      apply bool_decide_eq_true in Hlt. apply Qclt_le_weak in Hlt.
      replace 0 with (0 + 0) by ring. by apply Qcplus_le_compat.
    + by rewrite Qcplus_0_l.
Qed.

Lemma average_nonpos total k : total ≤ 0 -> average total k ≤ 0.
Proof.
  intros Ht. unfold average. destruct k as [|k]; simpl; [apply Qcle_refl|].
  assert (Hpos : Qc_of_Z 0 < Qc_of_Z (Z.of_nat (S k))).
  { apply (proj1 (Z2Qc_inj_lt 0 (Z.of_nat (S k)))). lia. }
  rewrite Z2Qc_inj_0 in Hpos. fold (num (S k)) in Hpos.
  apply (Qcmult_lt_0_le_reg_r _ _ _ Hpos).
  rewrite Qcmult_0_l.
  replace (total / num (S k) * num (S k)) with total; [done|].
  field. intros E. rewrite E in Hpos. by apply (Qclt_not_le _ _ Hpos), Qcle_refl.
Qed.

(** Both versions of calculateAvgWinLossRatio, in counts and totals. *)
Lemma ratio_straight trades :
  StatsCalculator.calculateAvgWinLossRatio f trades =
  if (closedCount trades =? 0)%nat then None
  else if ((winCount f trades =? 0) || (lossCount f trades =? 0))%nat then None
  else if Qc_eqb (Qc_abs (lossTotal f trades / num (lossCount f trades))) 0 then None
  else Some (winTotal f trades / num (winCount f trades)
             / Qc_abs (lossTotal f trades / num (lossCount f trades))).
Proof.
  unfold StatsCalculator.calculateAvgWinLossRatio.
  unfold len, num.
  by rewrite winCount_length, lossCount_length, closedCount_length,
    winTotal_sum, lossTotal_sum.
Qed.

Lemma ratio_refactored trades :
  StatsCalculatorRefactored.calculateAvgWinLossRatio f trades =
  if ((winCount f trades =? 0) || (nonWinCount f trades =? 0))%nat then None
  else if Qc_eqb (Qc_abs (lossTotal f trades / num (nonWinCount f trades))) 0 then None
  else Some (winTotal f trades / num (winCount f trades)
             / Qc_abs (lossTotal f trades / num (nonWinCount f trades))).
Proof.
  unfold StatsCalculatorRefactored.calculateAvgWinLossRatio.
  destruct (metrics_fields f trades) as (_ & Hw & Hl & Htw & Htl & _ & _).
  rewrite Hw, Hl, Htw, Htl. unfold len, num.
  by rewrite winCount_length, nonWinCount_length.
Qed.

Lemma winCount_le_closed trades : (winCount f trades <= closedCount trades)%nat.
Proof. pose proof (win_nonwin_total f trades). lia. Qed.

(** The trades that are no wins are the strict losses and the breakeven
    trades. *)
Lemma nonWin_loss_breakeven trades :
  nonWinCount f trades = (lossCount f trades + breakevenCount f trades)%nat.
Proof.
  unfold nonWinCount, lossCount, breakevenCount.
  induction trades as [|t l IH]; simpl; [done|]. rewrite IH.
  destruct (isClosedOrTrimmed t); simpl; [|done].
  unfold Qc_leb, Qc_ltb, Qc_eqb.
  destruct (decide (f t < 0)) as [Hlt|Hn].
  - rewrite (bool_decide_eq_true_2 _ Hlt).
    rewrite (bool_decide_eq_true_2 (f t ≤ 0)) by (by apply Qclt_le_weak).
    rewrite (bool_decide_eq_false_2 (f t = 0)); [lia|].
    intros E. rewrite E in Hlt. by apply (Qclt_not_le _ _ Hlt), Qcle_refl.
  - rewrite (bool_decide_eq_false_2 _ Hn).
    destruct (decide (f t = 0)) as [E|Hne].
    + rewrite (bool_decide_eq_true_2 _ E).
      rewrite (bool_decide_eq_true_2 (f t ≤ 0)) by (rewrite E; apply Qcle_refl).
      lia.
    + rewrite (bool_decide_eq_false_2 _ Hne).
      rewrite (bool_decide_eq_false_2 (f t ≤ 0)); [lia|].
      intros Hle. apply Hne. apply Qcle_antisym; [done|]. by apply Qcnot_lt_le.
Qed.

Lemma abs_zero_quotient (x : Qc) : Qc_eqb (Qc_abs (0 / x)) 0 = true.
Proof.
  unfold Qcdiv. rewrite Qcmult_0_l. unfold Qc_abs. rewrite Qc_ltb_zero.
  by apply bool_decide_eq_true_2.
Qed.

(** Without a strict loss both versions add 0 for the losses: the
    straight-line one as 0/total * 0, the refactored one as
    breakeven/total * (0/breakeven). *)
Lemma loss_term_zero (k n : nat) : num k / num n * average 0 k = 0.
Proof.
  unfold average. destruct (0 <? k)%nat.
  - unfold Qcdiv. rewrite (Qcmult_0_l (/ num k)). apply Qcmult_0_r.
  - apply Qcmult_0_r.
Qed.

(** The two versions of calculateTradeExpectancy run the same operations
    on the same numbers when the closed/trimmed trades hold no strict
    loss or no breakeven trade. *)
Lemma expectancy_agree trades :
  lossCount f trades = 0%nat \/ breakevenCount f trades = 0%nat ->
  StatsCalculator.calculateTradeExpectancy f trades =
  StatsCalculatorRefactored.calculateTradeExpectancy f trades.
Proof.
  intros H. rewrite expectancy_straight, expectancy_refactored.
  destruct (closedCount trades =? 0)%nat; [done|]. f_equal. f_equal.
  destruct H as [H|H].
  - rewrite (lossCount_none_lossTotal _ H). by rewrite !loss_term_zero.
  - by rewrite nonWin_loss_breakeven, H, Nat.add_0_r.
Qed.

(** The two versions of calculateAvgWinLossRatio return the same unless
    the closed/trimmed trades hold a win, a strict loss and a breakeven
    trade together: without a win both are null, without a strict loss
    the straight-line one is null at once and the refactored one finds
    an average loss of 0, without a breakeven trade both run the same
    operations. *)
Lemma ratio_agree trades :
  winCount f trades = 0%nat \/ lossCount f trades = 0%nat \/
  breakevenCount f trades = 0%nat ->
  StatsCalculator.calculateAvgWinLossRatio f trades =
  StatsCalculatorRefactored.calculateAvgWinLossRatio f trades.
Proof.
  intros H. rewrite ratio_straight, ratio_refactored.
  pose proof (winCount_le_closed trades) as Hle.
  pose proof (win_nonwin_total f trades) as Htot.
  destruct H as [H|[H|H]].
  - rewrite H. simpl. by destruct (closedCount trades =? 0)%nat.
  - rewrite H, (lossCount_none_lossTotal _ H), Nat.eqb_refl, orb_true_r.
    rewrite (abs_zero_quotient (num (nonWinCount f trades))).
    by destruct (closedCount trades =? 0)%nat, (_ || _).
  - rewrite nonWin_loss_breakeven, H, Nat.add_0_r.
    destruct (closedCount trades =? 0)%nat eqn:E; [|done].
    apply Nat.eqb_eq in E.
    by replace (winCount f trades) with 0%nat by lia.
Qed.

End ExpectancyTheory.

(** C7: tradeExpectancy is null when there is no closed/trimmed trade and
    otherwise the win-rate fraction times the average winning P&L plus the
    loss-rate fraction times the average losing P&L, wins being the
    closed/trimmed trades with realized P&L > 0.  The straight-line
    version takes the losses as P&L < 0, the refactored one as P&L <= 0;
    the average loss is never positive. *)
Theorem tradeExpectancy_formula (f : Trade -> Qc) (trades : list Trade) :
  StatsCalculator.calculateTradeExpectancy f trades =
    (if (closedCount trades =? 0)%nat then None
     else Some (num (winCount f trades) / num (closedCount trades)
                  * average (winTotal f trades) (winCount f trades)
                + num (lossCount f trades) / num (closedCount trades)
                  * average (lossTotal f trades) (lossCount f trades))) /\
  StatsCalculatorRefactored.calculateTradeExpectancy f trades =
    (if (closedCount trades =? 0)%nat then None
     else Some (num (winCount f trades) / num (closedCount trades)
                  * average (winTotal f trades) (winCount f trades)
                + num (nonWinCount f trades) / num (closedCount trades)
                  * average (lossTotal f trades) (nonWinCount f trades))) /\
  average (lossTotal f trades) (lossCount f trades) ≤ 0 /\
  average (lossTotal f trades) (nonWinCount f trades) ≤ 0.
Proof.
  split; [apply expectancy_straight|].
  split; [apply expectancy_refactored|].
  split; apply average_nonpos, lossTotal_nonpos.
Qed.

(** C10 as claimed fails: with a win of 100, a loss of -50 and a breakeven
    trade the straight-line avgWinLossRatio is 2 and the refactored one 4. *)
Lemma avgWinLossRatio_versions_differ :
  ~ (forall (f : Trade -> Qc) (trades : list Trade),
       StatsCalculator.calculateAvgWinLossRatio f trades =
       StatsCalculatorRefactored.calculateAvgWinLossRatio f trades).
Proof.
  intros H.
  specialize (H realized [sampleWin; sampleLoss; sampleBreakeven]).
  assert (E1 : StatsCalculator.calculateAvgWinLossRatio realized
                 [sampleWin; sampleLoss; sampleBreakeven] = Some (Qc_of_Z 2)).
  { vm_compute. f_equal. by apply Qc_is_canon. }
  assert (E2 : StatsCalculatorRefactored.calculateAvgWinLossRatio realized
                 [sampleWin; sampleLoss; sampleBreakeven] = Some (Qc_of_Z 4)).
  { vm_compute. f_equal. by apply Qc_is_canon. }
  rewrite E1, E2 in H.
  assert (E : Qc_of_Z 2 = Qc_of_Z 4) by congruence.
  apply Z2Qc_inj in E. discriminate E.
Qed.

(** C10, amended: the two versions of the calculator return the same
    winRate and winsLosses on every trade list; the same tradeExpectancy
    on every list whose closed/trimmed trades hold no trade of realized
    P&L < 0 or none of realized P&L exactly 0; and the same
    avgWinLossRatio on every list whose closed/trimmed trades do not hold
    a trade of P&L > 0, one of P&L < 0 and one of P&L exactly 0
    together. *)
Theorem calculators_agree (f : Trade -> Qc) (trades : list Trade) :
  StatsCalculator.calculateWinRate f trades =
    StatsCalculatorRefactored.calculateWinRate f trades /\
  StatsCalculator.calculateWinsLosses f trades =
    StatsCalculatorRefactored.calculateWinsLosses f trades /\
  (lossCount f trades = 0%nat \/ breakevenCount f trades = 0%nat ->
   StatsCalculator.calculateTradeExpectancy f trades =
     StatsCalculatorRefactored.calculateTradeExpectancy f trades) /\
  (winCount f trades = 0%nat \/ lossCount f trades = 0%nat \/
   breakevenCount f trades = 0%nat ->
   StatsCalculator.calculateAvgWinLossRatio f trades =
     StatsCalculatorRefactored.calculateAvgWinLossRatio f trades).
Proof.
  split; [by rewrite winRate_refactored, winRate_straight|].
  split; [by rewrite winsLosses_refactored, winsLosses_straight|].
  split; [apply expectancy_agree | apply ratio_agree].
Qed.

(** Where a strict loss and a breakeven trade meet, the two versions of
    calculateTradeExpectancy divide the same loss total by different
    counts, and binary64 rounding can separate them: on closed trades of
    realized P&L 1, -1, -3, 0, 0 and 0 the straight-line version returns
    -0.5 (1/6 * 1 + 2/6 * -2) and the refactored one the next double
    below, -0.5000000000000001 (1/6 * 1 + 5/6 * -0.8). *)
Lemma tradeExpectancy_binary64_last_bit :
  let minusHalf := PrimFloat.div (Binary64.ofZ (-1)) (Binary64.ofZ 2) in
  lossCount realized roundingSample = 2%nat /\
  breakevenCount realized roundingSample = 3%nat /\
  Binary64.StatsCalculator.calculateTradeExpectancy Binary64.realized64 roundingSample
    = Some minusHalf /\
  Binary64.StatsCalculatorRefactored.calculateTradeExpectancy Binary64.realized64
    roundingSample = Some (PrimFloat.next_down minusHalf) /\
  PrimFloat.next_down minusHalf ≠ minusHalf.
Proof.
  cbv zeta. split; [reflexivity|]. split; [reflexivity|].
  split; [vm_compute; reflexivity|]. split; [vm_compute; reflexivity|].
  vm_compute. discriminate.
Qed.

Lemma calculators_agree_witness :
  StatsCalculator.calculateTradeExpectancy realized [sampleWin; sampleBreakeven] =
    StatsCalculatorRefactored.calculateTradeExpectancy realized
      [sampleWin; sampleBreakeven] /\
  StatsCalculator.calculateAvgWinLossRatio realized [sampleWin; sampleLoss] =
    StatsCalculatorRefactored.calculateAvgWinLossRatio realized [sampleWin; sampleLoss].
Proof.
  split.
  - apply (calculators_agree realized [sampleWin; sampleBreakeven]).
    left. reflexivity.
  - apply (calculators_agree realized [sampleWin; sampleLoss]).
    right. right. reflexivity.
Defined.

(** ** The stats-cache checksum *)

Module ChecksumTheory.
Import IncrementalStatsCalculator.

Lemma noColon_uint d : noColon (NilEmpty.string_of_uint d) = true.
Proof. induction d; simpl; auto. Qed.

Lemma noColon_decimal n : noColon (decimal n) = true.
Proof. apply noColon_uint. Qed.

Lemma decimal_inj n m : decimal n = decimal m -> n = m.
Proof.
  unfold decimal. intros E.
  assert (Some (N.to_uint n) = Some (N.to_uint m)) as [= E'].
  { by rewrite <- !NilEmpty.usu, E. }
  by rewrite <- (DecimalN.Unsigned.of_to n), <- (DecimalN.Unsigned.of_to m), E'.
Qed.

(** Two strings that start with colon-free prefixes followed by ':' have
    the same prefix. *)
Lemma colon_split a b x y :
  noColon a = true -> noColon b = true ->
  a +:+ ":" +:+ x = b +:+ ":" +:+ y -> a = b.
Proof.
  revert b. induction a as [|c a IH]; intros [|d b]; simpl; intros Ha Hb E.
  - done.
  - injection E as <- _. by rewrite Ascii.eqb_refl in Hb.
  - injection E as -> _. by rewrite Ascii.eqb_refl in Ha.
  - injection E as -> E. f_equal.
    apply andb_true_iff in Ha as [_ Ha]. apply andb_true_iff in Hb as [_ Hb].
    by apply IH.
Qed.

Lemma checksum_nonempty t l :
  _calculateTradeChecksum (t :: l) =
  decimal (N.of_nat (length (t :: l))) +:+ ":" +:+
  String.concat "," (jsSort (map idOrEmpty (t :: l))).
Proof. reflexivity. Qed.

Lemma checksum_has_colon a x : noColon (a +:+ ":" +:+ x) = false.
Proof.
  induction a as [|c a IH]; simpl; [done|].
  rewrite IH. apply andb_false_r.
Qed.

(** Lists of different lengths have different checksums. *)
Lemma checksum_length l1 l2 :
  _calculateTradeChecksum l1 = _calculateTradeChecksum l2 -> length l1 = length l2.
Proof.
  destruct l1 as [|t1 l1], l2 as [|t2 l2]; [done| | |].
  - rewrite checksum_nonempty. intros E.
    assert (H : noColon (_calculateTradeChecksum []) = true) by reflexivity.
    rewrite E, checksum_has_colon in H. discriminate.
  - rewrite checksum_nonempty. intros E.
    assert (H : noColon (_calculateTradeChecksum []) = true) by reflexivity.
    rewrite <- E, checksum_has_colon in H. discriminate.
  - rewrite !checksum_nonempty. intros E.
    apply colon_split in E; auto using noColon_decimal.
    apply decimal_inj in E. lia.
Qed.

(** The checksum is a function of the multiset of ids. *)
Lemma checksum_ids_permutation l1 l2 :
  map id l1 ≡ₚ map id l2 ->
  _calculateTradeChecksum l1 = _calculateTradeChecksum l2.
Proof.
  intros Hp.
  assert (Hlen : length l1 = length l2).
  { apply Permutation_length in Hp. by rewrite !length_map in Hp. }
  assert (Hkeys : map idOrEmpty l1 ≡ₚ map idOrEmpty l2).
  { assert (Hk : forall l, map idOrEmpty l =
        map (fun i => if (i =? 0)%N then "" else decimal i) (map id l)).
    { intros l. by rewrite map_map. }
    rewrite !Hk. by apply Permutation_map. }
  assert (Hsort : jsSort (map idOrEmpty l1) = jsSort (map idOrEmpty l2)).
  { unfold jsSort. apply (Sorted_unique String.le).
    - apply Sorted_merge_sort; apply _.
    - apply Sorted_merge_sort; apply _.
    - by rewrite !merge_sort_Permutation. }
  unfold _calculateTradeChecksum. by rewrite Hlen, Hsort.
Qed.

Lemma checksum_permutation l1 l2 :
  l1 ≡ₚ l2 -> _calculateTradeChecksum l1 = _calculateTradeChecksum l2.
Proof. intros Hp. apply checksum_ids_permutation. by apply Permutation_map. Qed.

Section Cached.

Variable parent : Parent.
Variable cache0 : option StatsCache.
Variable trades : list Trade.
Variable c : StatsCache.

(** The call returned: the stats of [trades] are cached in [c]. *)
Hypothesis Hcached : calculateAndCacheStats parent cache0 trades = Some c.

Lemma cached_checksum : tradeChecksum c = Some (_calculateTradeChecksum trades).
Proof.
  unfold calculateAndCacheStats in Hcached.
  destruct (_isCacheValid cache0 trades) eqn:Hv.
  - subst cache0. simpl in Hv. destruct (tradeCount c =? 0)%nat; [done|].
    destruct (tradeChecksum c) as [s|]; [|done].
    by apply String.eqb_eq in Hv as ->.
  - destruct (superStats parent trades); [|done]. simpl in Hcached.
    by injection Hcached as <-.
Qed.

Lemma cached_count_nonzero : trades ≠ [] -> tradeCount c ≠ 0%nat.
Proof.
  intros Hne. unfold calculateAndCacheStats in Hcached.
  assert (length trades ≠ 0%nat) by (by destruct trades).
  destruct (_isCacheValid cache0 trades) eqn:Hv.
  - subst cache0. simpl in Hv. destruct (tradeCount c =? 0)%nat eqn:E; [done|].
    by apply Nat.eqb_neq in E.
  - destruct (superStats parent trades); [|done]. simpl in Hcached.
    by injection Hcached as <-.
Qed.

Lemma cached_valid_same : trades ≠ [] -> _isCacheValid (Some c) trades = true.
Proof.
  intros Hne. unfold _isCacheValid.
  pose proof (cached_count_nonzero Hne) as Hc. apply Nat.eqb_neq in Hc.
  rewrite Hc, cached_checksum. apply String.eqb_refl.
Qed.

Lemma cached_invalid_other_length trades' :
  length trades' ≠ length trades -> _isCacheValid (Some c) trades' = false.
Proof.
  intros Hlen. unfold _isCacheValid.
  destruct (tradeCount _ =? 0)%nat; [done|].
  rewrite cached_checksum. apply String.eqb_neq.
  intros E. apply Hlen. symmetry. by apply checksum_length.
Qed.

End Cached.
End ChecksumTheory.

(** C4: the checksum is the same for two trade lists with the same
    multiset of ids (so for any reordering of a list); once the stats of
    a list have been cached, that is once calculateAndCacheStats has
    returned for it, the cache is invalid for every list obtained by
    adding or removing a trade (more generally, for every list of another
    length) and valid for the same list when it is not empty. *)
Theorem checksum_invalidation
  (parent : IncrementalStatsCalculator.Parent)
  (cache0 : option IncrementalStatsCalculator.StatsCache)
  (trades : list Trade) (c : IncrementalStatsCalculator.StatsCache) :
  IncrementalStatsCalculator.calculateAndCacheStats parent cache0 trades = Some c ->
  let cached := IncrementalStatsCalculator.cacheAfter parent cache0 trades in
  cached = Some c /\
  (forall trades', map id trades ≡ₚ map id trades' ->
     IncrementalStatsCalculator._calculateTradeChecksum trades =
     IncrementalStatsCalculator._calculateTradeChecksum trades') /\
  (forall trades', trades ≡ₚ trades' ->
     IncrementalStatsCalculator._calculateTradeChecksum trades =
     IncrementalStatsCalculator._calculateTradeChecksum trades') /\
  (forall t l1 l2, trades = l1 ++ l2 ->
     IncrementalStatsCalculator._isCacheValid cached (l1 ++ t :: l2) = false) /\
  (forall t l1 l2, trades = l1 ++ t :: l2 ->
     IncrementalStatsCalculator._isCacheValid cached (l1 ++ l2) = false) /\
  (forall trades', length trades' ≠ length trades ->
     IncrementalStatsCalculator._isCacheValid cached trades' = false) /\
  (trades ≠ [] -> IncrementalStatsCalculator._isCacheValid cached trades = true).
Proof.
  intros Hc cached.
  assert (cached = Some c) as ->.
  { subst cached. unfold IncrementalStatsCalculator.cacheAfter. by rewrite Hc. }
  split; [done|].
  split; [intros l2; apply ChecksumTheory.checksum_ids_permutation|].
  split; [intros l2; apply ChecksumTheory.checksum_permutation|].
  split.
  { intros t l1 l2 E.
    apply (ChecksumTheory.cached_invalid_other_length parent cache0 trades c Hc).
    rewrite E, !length_app. simpl. lia. }
  split.
  { intros t l1 l2 E.
    apply (ChecksumTheory.cached_invalid_other_length parent cache0 trades c Hc).
    rewrite E, !length_app. simpl. lia. }
  split; [intros l2; by apply (ChecksumTheory.cached_invalid_other_length parent cache0)|].
  by apply (ChecksumTheory.cached_valid_same parent cache0).
Qed.

Lemma checksum_invalidation_witness :
  let stored :=
    IncrementalStatsCalculator.mkStatsCache 2 (Some "2:2,3"%string)
      (IncrementalStatsCalculator.stats IncrementalStatsCalculator._createEmptyCache)
      [2%N; 3%N] in
  let cached :=
    IncrementalStatsCalculator.cacheAfter
      (IncrementalStatsCalculator.StatsCalculatorParent realized) (Some stored)
      [sampleWin; sampleLoss] in
  let computed :=
    IncrementalStatsCalculator.cacheAfter IncrementalStatsCalculator.sampleFullParent
      (Some IncrementalStatsCalculator._createEmptyCache) [sampleWin; sampleLoss] in
  (IncrementalStatsCalculator._calculateTradeChecksum [sampleWin; sampleLoss] =
     IncrementalStatsCalculator._calculateTradeChecksum [sampleLoss; sampleWin] /\
   IncrementalStatsCalculator._isCacheValid cached [sampleWin; sampleOpen; sampleLoss]
     = false /\
   IncrementalStatsCalculator._isCacheValid cached [sampleLoss] = false /\
   IncrementalStatsCalculator._isCacheValid cached [sampleWin; sampleLoss] = true) /\
  (IncrementalStatsCalculator._isCacheValid computed [sampleWin; sampleOpen; sampleLoss]
     = false /\
   IncrementalStatsCalculator._isCacheValid computed [sampleLoss] = false /\
   IncrementalStatsCalculator._isCacheValid computed [sampleWin; sampleLoss] = true).
Proof.
  intros stored cached computed. split.
  - destruct (checksum_invalidation
                (IncrementalStatsCalculator.StatsCalculatorParent realized) (Some stored)
                [sampleWin; sampleLoss] stored)
      as (_ & Hperm & Hperm' & Hadd & Hdel & _ & Hsame).
    + reflexivity.
    + split; [apply Hperm'; apply perm_swap|].
      split; [apply (Hadd sampleOpen [sampleWin] [sampleLoss]); reflexivity|].
      split; [apply (Hdel sampleWin [] [sampleLoss]); reflexivity|].
      apply Hsame. discriminate.
  - destruct (checksum_invalidation IncrementalStatsCalculator.sampleFullParent
                (Some IncrementalStatsCalculator._createEmptyCache)
                [sampleWin; sampleLoss]
                (IncrementalStatsCalculator.mkStatsCache 2 (Some "2:2,3"%string)
                   (IncrementalStatsCalculator.mkCachedStats
                      (StatsCalculatorRefactored.calculateWinRate realized
                         [sampleWin; sampleLoss])
                      (StatsCalculatorRefactored.calculateWinsLosses realized
                         [sampleWin; sampleLoss])
                      None None
                      (StatsCalculatorRefactored.calculateProfitFactor realized
                         [sampleWin; sampleLoss])
                      None None None None)
                   [2%N; 3%N]))
      as (_ & _ & _ & Hadd & Hdel & _ & Hsame).
    + reflexivity.
    + split; [apply (Hadd sampleOpen [sampleWin] [sampleLoss]); reflexivity|].
      split; [apply (Hdel sampleWin [] [sampleLoss]); reflexivity|].
      apply Hsame. discriminate.
Defined.

(** ** End-of-day snapshots *)

(** C2: for a historical date (not today) whose cached snapshot is marked
    incomplete, getBalanceForDate returns null, whatever balance the
    snapshot stores. *)
Theorem incomplete_snapshot_never_returned
  (todayStr : string) (currentAccount : Qc)
  (cache : gmap string EODSnapshot) (dateStr : string) (snap : EODSnapshot) :
  dateStr ≠ todayStr ->
  eodCacheManager.getEODData cache dateStr = Some snap ->
  incomplete snap = true ->
  getBalanceForDate todayStr currentAccount cache dateStr = None.
Proof.
  intros Hne Hget Hinc. unfold getBalanceForDate.
  apply String.eqb_neq in Hne. by rewrite Hne, Hget, Hinc.
Qed.

Lemma incomplete_snapshot_never_returned_witness :
  getBalanceForDate "2025-03-07" (Qc_of_Z 10500)
    {[ "2025-03-06" := sampleIncomplete ]}
    "2025-03-06" = None.
Proof.
  apply (incomplete_snapshot_never_returned "2025-03-07" (Qc_of_Z 10500) _ "2025-03-06"
           sampleIncomplete).
  - discriminate.
  - reflexivity.
  - reflexivity.
Defined.

Section RefreshTheory.

Variable snapshotFor : string -> EODSnapshot.

Local Abbreviation refreshPrices := (Stats.refreshPrices snapshotFor).
Local Abbreviation runCycles := (Stats.runCycles snapshotFor).

Lemma committed_conditions r cache d :
  Stats.committedDay r cache = Some d ->
  d = getTradingDay (clock r) /\
  isAfterMarketClose (clock r) = true /\
  eodCacheManager.hasEODData cache d = false /\
  getTradingDay (clock r) = currentWeekday (clock r) /\
  refreshPrices r cache = <[d := snapshotFor d]> cache.
Proof.
  unfold Stats.committedDay, Stats.refreshPrices, Stats.checkAndSaveEOD.
  destruct (activeTrades r =? 0)%nat; [done|].
  destruct (pricesFetched r); [|done].
  destruct (Stats.shouldSaveEOD (clock r) cache) eqn:Hs; [|done].
  intros [= <-]. unfold Stats.shouldSaveEOD in Hs.
  apply andb_true_iff in Hs as [Hs Hday]. apply andb_true_iff in Hs as [Hclose Hhas].
  apply negb_true_iff in Hhas. apply String.eqb_eq in Hday.
  by repeat split.
Qed.

Lemma not_committed_unchanged r cache :
  Stats.committedDay r cache = None -> refreshPrices r cache = cache.
Proof.
  unfold Stats.committedDay, Stats.refreshPrices, Stats.checkAndSaveEOD.
  destruct (activeTrades r =? 0)%nat; [done|].
  destruct (pricesFetched r); [|done].
  by destruct (Stats.shouldSaveEOD (clock r) cache).
Qed.

Lemma refresh_keeps_snapshots r cache d :
  eodCacheManager.hasEODData cache d = true ->
  eodCacheManager.hasEODData (refreshPrices r cache) d = true.
Proof.
  destruct (Stats.committedDay r cache) as [d'|] eqn:Hc.
  - destruct (committed_conditions _ _ _ Hc) as (_ & _ & _ & _ & ->).
    unfold eodCacheManager.hasEODData.
    intros H%bool_decide_eq_true. apply bool_decide_eq_true.
    destruct (decide (d' = d)) as [->|Hne].
    + rewrite lookup_insert_eq. eauto.
    + by rewrite lookup_insert_ne.
  - by rewrite (not_committed_unchanged _ _ Hc).
Qed.

Lemma logged_days_were_missing rs : forall cache d,
  d ∈ (runCycles rs cache).1 -> eodCacheManager.hasEODData cache d = false.
Proof.
  induction rs as [|r rs IH]; intros cache d; simpl.
  - by intros ?%elem_of_nil.
  - destruct (Stats.runCycles snapshotFor rs (refreshPrices r cache)) as [log final] eqn:Hrun.
    simpl. intros Hd.
    assert (Hrest : d ∈ log -> eodCacheManager.hasEODData cache d = false).
    { intros Hin. specialize (IH (refreshPrices r cache) d).
      rewrite Hrun in IH. specialize (IH Hin).
      destruct (eodCacheManager.hasEODData cache d) eqn:E; [|done].
      by rewrite (refresh_keeps_snapshots r _ _ E) in IH. }
    destruct (Stats.committedDay r cache) as [d'|] eqn:Hc; [|auto].
    apply elem_of_cons in Hd as [->|Hd]; [|auto].
    by destruct (committed_conditions _ _ _ Hc) as (_ & _ & ? & _).
Qed.

Lemma committed_days_distinct rs : forall cache, NoDup (runCycles rs cache).1.
Proof.
  induction rs as [|r rs IH]; intros cache; simpl; [constructor|].
  specialize (IH (refreshPrices r cache)).
  pose proof (logged_days_were_missing rs (refreshPrices r cache)) as Hmiss.
  destruct (Stats.runCycles snapshotFor rs (refreshPrices r cache)) as [log final].
  simpl in *.
  destruct (Stats.committedDay r cache) as [d|] eqn:Hc; [|done].
  constructor; [|done].
  intros Hin. specialize (Hmiss d Hin).
  destruct (committed_conditions _ _ _ Hc) as (_ & _ & _ & _ & E).
  rewrite E in Hmiss. unfold eodCacheManager.hasEODData in Hmiss.
  apply bool_decide_eq_false in Hmiss. apply Hmiss.
  rewrite lookup_insert_eq. eauto.
Qed.

End RefreshTheory.



(** ** The realized balance of AppState *)

Section AccountTheory.

Variable f : Trade -> Qc.

(** With an invalidated cache the getter computes the documented formula. *)
Lemma currentSize_after_invalidation st :
  (AppState.currentSize f (AppState._invalidateAccountCache st)).1 =
  AppState.realizedBalanceFormula f st.
Proof. reflexivity. Qed.

(** The two cached values are filled by the recalculation. *)
Lemma currentSize_fills_cache st :
  AppState.cachedCurrentSize
    (AppState._accountCache
       (AppState.currentSize f (AppState._invalidateAccountCache st)).2) =
  Some (AppState.realizedBalanceFormula f st).
Proof. reflexivity. Qed.

(** After a journal entry has been added the getter computes the formula
    on the new journal. *)
Lemma currentSize_after_addJournalEntry newEntry st :
  (AppState.currentSize f (AppState.addJournalEntry newEntry st)).1 =
  AppState.startingAccountSize st
  + AppState.calculateRealizedPnL f (newEntry :: AppState.entries st)
  + AppState.getCashFlowNet st.
Proof. reflexivity. Qed.

(** Open trades add nothing to the realized P&L. *)
Lemma calculateRealizedPnL_open t trades :
  status t = StOpen ->
  AppState.calculateRealizedPnL f (t :: trades) = AppState.calculateRealizedPnL f trades.
Proof.
  intros Ho. unfold AppState.calculateRealizedPnL. simpl.
  unfold isClosedOrTrimmed at 1. by rewrite Ho.
Qed.

(** The getters only touch the cache. *)
Lemma needsRecalculation_data st :
  AppState.cashFlowOf (AppState._needsRecalculation f st).2 = AppState.cashFlowOf st /\
  AppState.entries (AppState._needsRecalculation f st).2 = AppState.entries st /\
  AppState.startingAccountSize (AppState._needsRecalculation f st).2 =
    AppState.startingAccountSize st.
Proof.
  unfold AppState._needsRecalculation.
  by destruct (_ || _).
Qed.

Lemma recalcRealizedPnL_data st :
  AppState.cashFlowOf (AppState.recalcRealizedPnL f st).2 = AppState.cashFlowOf st /\
  AppState.entries (AppState.recalcRealizedPnL f st).2 = AppState.entries st /\
  AppState.startingAccountSize (AppState.recalcRealizedPnL f st).2 =
    AppState.startingAccountSize st.
Proof.
  unfold AppState.recalcRealizedPnL, AppState._updateCacheDependencies. simpl.
  by destruct (AppState._tempHashes (AppState._accountCache st)).
Qed.

Lemma realizedPnL_data st :
  AppState.cashFlowOf (AppState.realizedPnL f st).2 = AppState.cashFlowOf st /\
  AppState.entries (AppState.realizedPnL f st).2 = AppState.entries st /\
  AppState.startingAccountSize (AppState.realizedPnL f st).2 =
    AppState.startingAccountSize st.
Proof.
  unfold AppState.realizedPnL.
  destruct (AppState.cachedRealizedPnL (AppState._accountCache st));
    [|apply recalcRealizedPnL_data].
  pose proof (needsRecalculation_data st) as (H1 & H2 & H3).
  destruct (AppState._needsRecalculation f st) as [[] st1]; cbn [fst snd] in *.
  - destruct (recalcRealizedPnL_data st1) as (-> & -> & ->). done.
  - done.
Qed.

Lemma recalcCurrentSize_data st :
  AppState.cashFlowOf (AppState.recalcCurrentSize f st).2 = AppState.cashFlowOf st /\
  AppState.entries (AppState.recalcCurrentSize f st).2 = AppState.entries st /\
  AppState.startingAccountSize (AppState.recalcCurrentSize f st).2 =
    AppState.startingAccountSize st.
Proof.
  unfold AppState.recalcCurrentSize.
  pose proof (realizedPnL_data st) as H.
  by destruct (AppState.realizedPnL f st) as [pnl st1].
Qed.

Lemma currentSize_data st :
  AppState.cashFlowOf (AppState.currentSize f st).2 = AppState.cashFlowOf st /\
  AppState.entries (AppState.currentSize f st).2 = AppState.entries st /\
  AppState.startingAccountSize (AppState.currentSize f st).2 =
    AppState.startingAccountSize st.
Proof.
  unfold AppState.currentSize.
  destruct (AppState.cachedCurrentSize (AppState._accountCache st));
    [|apply recalcCurrentSize_data].
  pose proof (needsRecalculation_data st) as (H1 & H2 & H3).
  destruct (AppState._needsRecalculation f st) as [[] st1]; cbn [fst snd] in *.
  - destruct (recalcCurrentSize_data st1) as (-> & -> & ->). done.
  - done.
Qed.

(** [addCashFlowTransaction] keeps the stored totals in step with the
    transaction list. *)
Lemma addCashFlowTransaction_net now type amount timestamp st :
  AppState.getCashFlowNet st =
    AppState.netOfTransactions (AppState.transactions (AppState.cashFlowOf st)) ->
  AppState.getCashFlowNet (AppState.addCashFlowTransaction f now type amount timestamp st) =
    AppState.netOfTransactions
      (AppState.transactions
         (AppState.cashFlowOf (AppState.addCashFlowTransaction f now type amount timestamp st))).
Proof.
  unfold AppState.getCashFlowNet, AppState.addCashFlowTransaction. intros H.
  destruct (currentSize_data
    (AppState._invalidateAccountCache
       {| AppState.startingAccountSize := AppState.startingAccountSize st;
          AppState.entries := AppState.entries st;
          AppState.cashFlowOf :=
            {| AppState.transactions :=
                 AppState.mkTx now type amount timestamp
                 :: AppState.transactions (AppState.cashFlowOf st);
               AppState.totalDeposits :=
                 match type with
                 | AppState.Deposit => AppState.totalDeposits (AppState.cashFlowOf st) + amount
                 | AppState.Withdrawal => AppState.totalDeposits (AppState.cashFlowOf st)
                 end;
               AppState.totalWithdrawals :=
                 match type with
                 | AppState.Deposit => AppState.totalWithdrawals (AppState.cashFlowOf st)
                 | AppState.Withdrawal =>
                     AppState.totalWithdrawals (AppState.cashFlowOf st) + amount
                 end |};
          AppState._accountCache := AppState._accountCache st |})) as (-> & _ & _).
  destruct type; simpl; rewrite <- H; ring.
Qed.

End AccountTheory.

(** Read right after the change of the starting balance, currentSize is
    recomputed: the stale value needs the realizedPnL read in between. *)
Example currentSize_recomputed_when_read_first :
  (AppState.currentSize realized
     (AppState.updateSettings (Qc_of_Z 20000)
        (AppState.currentSize realized AppState.initial).2)).1 = Qc_of_Z 20000.
Proof. vm_compute. by apply Qc_is_canon. Qed.

(** C1, at the failing run: on a fresh state currentSize is 10000; after
    the starting balance has changed to 20000 and realizedPnL has been
    read, currentSize still returns the cached 10000 although starting
    balance + realized P&L + net cash flow is 20000. *)
Theorem currentSize_stale_after_realizedPnL_read :
  (AppState.currentSize realized AppState.initial).1 = Qc_of_Z 10000 /\
  staleRun = Qc_of_Z 10000 /\
  AppState.realizedBalanceFormula realized staleRunState = Qc_of_Z 20000 /\
  staleRun ≠ AppState.realizedBalanceFormula realized staleRunState.
Proof.
  assert (E0 : (AppState.currentSize realized AppState.initial).1 = Qc_of_Z 10000).
  { vm_compute. by apply Qc_is_canon. }
  assert (E1 : staleRun = Qc_of_Z 10000).
  { vm_compute. by apply Qc_is_canon. }
  assert (E2 : AppState.realizedBalanceFormula realized staleRunState = Qc_of_Z 20000).
  { vm_compute. by apply Qc_is_canon. }
  split; [done|]. split; [done|]. split; [done|].
  rewrite E1, E2. intros E. apply Z2Qc_inj in E. discriminate E.
Qed.

(** ** Calendar arithmetic *)

Module CalendarTheory.
Import JsDate.
Local Open Scope Z_scope.

Ltac zdiv := Z.div_mod_to_equations; lia.

Lemma daysBeforeYear_succ y :
  daysBeforeYear (y + 1) = daysBeforeYear y + (if isLeapYear y then 366 else 365).
Proof.
  unfold daysBeforeYear, isLeapYear.
  destruct (y mod 4 =? 0) eqn:E4; destruct (y mod 100 =? 0) eqn:E100;
    destruct (y mod 400 =? 0) eqn:E400; simpl;
    rewrite ?Z.eqb_eq, ?Z.eqb_neq in *; zdiv.
Qed.

Lemma yearLength y :
  daysBeforeMonthN y 11 + 31 = if isLeapYear y then 366 else 365.
Proof. unfold daysBeforeMonthN, daysInMonth. simpl. by destruct (isLeapYear y). Qed.

Lemma monthLength_bounds k : 28 <= monthLength k <= 31.
Proof.
  unfold monthLength, daysInMonth.
  repeat match goal with |- context [if ?b then _ else _] => destruct b end; lia.
Qed.

Lemma monthStart_december y :
  daysBeforeYear (y + 1) + daysBeforeMonthN (y + 1) 0 =
  daysBeforeYear y + daysBeforeMonthN y 11 + daysInMonth y 11.
Proof.
  rewrite daysBeforeYear_succ. pose proof (yearLength y) as H.
  replace (daysInMonth y 11) with 31 by reflexivity.
  replace (daysBeforeMonthN (y + 1) 0) with 0 by reflexivity. lia.
Qed.

Lemma monthStart_within y (m : nat) :
  daysBeforeYear y + daysBeforeMonthN y (S m) =
  daysBeforeYear y + daysBeforeMonthN y m + daysInMonth y (Z.of_nat m).
Proof. simpl daysBeforeMonthN. lia. Qed.

(** A month starts where the month before it ends. *)
Lemma monthStart_succ k : monthStart (k + 1) = monthStart k + monthLength k.
Proof.
  unfold monthStart, monthLength.
  destruct (decide (k mod 12 = 11)) as [E|E].
  - assert (Hq : (k + 1) / 12 = k / 12 + 1) by zdiv.
    assert (Hr : (k + 1) mod 12 = 0) by zdiv.
    rewrite Hq, Hr, E. apply monthStart_december.
  - assert (Hq : (k + 1) / 12 = k / 12) by zdiv.
    assert (Hr : (k + 1) mod 12 = k mod 12 + 1) by zdiv.
    assert (Hnn : 0 <= k mod 12) by zdiv.
    rewrite Hq, Hr.
    replace (Z.to_nat (k mod 12 + 1)) with (S (Z.to_nat (k mod 12))) by lia.
    rewrite monthStart_within. by rewrite Z2Nat.id by lia.
Qed.

Lemma monthStart_pred k : monthStart (k - 1) = monthStart k - monthLength (k - 1).
Proof.
  pose proof (monthStart_succ (k - 1)) as H.
  replace (k - 1 + 1) with k in H by lia. lia.
Qed.

(** Carrying months keeps the day number. *)
Lemma carryDays_toDays fuel : forall k d,
  monthStart (carryDays fuel k d).1 + (carryDays fuel k d).2 = monthStart k + d.
Proof.
  induction fuel as [|fuel IH]; intros k d; simpl; [done|].
  destruct (d <? 1).
  - rewrite IH, monthStart_pred. lia.
  - destruct (monthLength k <? d); [|done].
    rewrite IH, monthStart_succ. lia.
Qed.

Lemma month_index_split k : 12 * (k / 12) + k mod 12 = k.
Proof. zdiv. Qed.

(** The day number of [new Date(year, month, day)]. *)
Lemma toDays_mkDate year month day :
  toDays (mkDate year month day) = monthStart (12 * year + month) + day - 1.
Proof.
  unfold toDays, mkDate.
  pose proof (carryDays_toDays (S (Z.to_nat (Z.abs day))) (12 * year + month) day) as H.
  destruct (carryDays _ _ _) as [k d]. simpl in *.
  rewrite month_index_split. lia.
Qed.

Lemma mkDate_in_range year month day :
  1 <= day <= monthLength (12 * year + month) ->
  mkDate year month day =
  {| getFullYear := (12 * year + month) / 12;
     getMonth := (12 * year + month) mod 12;
     getDate := day |}.
Proof.
  intros H. unfold mkDate. simpl.
  assert ((day <? 1) = false) as -> by lia.
  by assert ((monthLength (12 * year + month) <? day) = false) as -> by lia.
Qed.

(** [new Date(year, month, 0)] is the last day of the month before. *)
Lemma mkDate_zero year month :
  mkDate year month 0 =
  {| getFullYear := (12 * year + month - 1) / 12;
     getMonth := (12 * year + month - 1) mod 12;
     getDate := monthLength (12 * year + month - 1) |}.
Proof. unfold mkDate. simpl. by rewrite Z.add_0_l. Qed.

(** [setDate(getDate() + n)] moves the date by [n] days. *)
Lemma toDays_setDate dt n :
  toDays (setDate dt (getDate dt + n)) = toDays dt + n.
Proof. unfold setDate. rewrite toDays_mkDate. unfold toDays. lia. Qed.

Lemma getDay_range dt : 0 <= getDay dt < 7.
Proof. unfold getDay. zdiv. Qed.

Lemma getDay_shift d1 d2 n :
  toDays d2 = toDays d1 + n -> getDay d2 = (getDay d1 + n) mod 7.
Proof. unfold getDay. intros ->. zdiv. Qed.

(** *** Valid dates are determined by their day number *)

Lemma monthStart_mono_step (n : nat) k :
  monthStart k + monthLength k <= monthStart (k + 1 + Z.of_nat n).
Proof.
  induction n as [|n IH].
  - replace (k + 1 + Z.of_nat 0) with (k + 1) by lia. rewrite monthStart_succ. lia.
  - replace (k + 1 + Z.of_nat (S n)) with (k + 1 + Z.of_nat n + 1) by lia.
    rewrite monthStart_succ. pose proof (monthLength_bounds (k + 1 + Z.of_nat n)). lia.
Qed.

Lemma monthStart_mono k1 k2 :
  k1 < k2 -> monthStart k1 + monthLength k1 <= monthStart k2.
Proof.
  intros H. replace k2 with (k1 + 1 + Z.of_nat (Z.to_nat (k2 - k1 - 1))) by lia.
  apply monthStart_mono_step.
Qed.

Lemma toDays_inj d1 d2 :
  validDate d1 -> validDate d2 -> toDays d1 = toDays d2 -> d1 = d2.
Proof.
  destruct d1 as [y1 m1 a1], d2 as [y2 m2 a2].
  unfold validDate, toDays. simpl. intros [Hm1 Ha1] [Hm2 Ha2] E.
  assert (Hk : 12 * y1 + m1 = 12 * y2 + m2).
  { destruct (Z.lt_trichotomy (12 * y1 + m1) (12 * y2 + m2)) as [H|[H|H]]; [|done|].
    - pose proof (monthStart_mono _ _ H). lia.
    - pose proof (monthStart_mono _ _ H). lia. }
  rewrite Hk in E. assert (y1 = y2) by lia. assert (m1 = m2) by lia.
  assert (a1 = a2) by lia. by subst.
Qed.

Lemma mkDate_valid year month day :
  1 <= day <= monthLength (12 * year + month) -> validDate (mkDate year month day).
Proof.
  intros H. rewrite mkDate_in_range by done. unfold validDate. simpl.
  rewrite month_index_split. split; [zdiv|done].
Qed.

(** Stepping back by less than a month stays a valid date. *)
Lemma setDate_back_valid dt n :
  validDate dt -> 0 <= n <= 27 -> validDate (setDate dt (getDate dt - n)).
Proof.
  destruct dt as [y m a]. unfold validDate, setDate. simpl. intros [Hm Ha] Hn.
  destruct (decide (1 <= a - n)) as [Hge|Hlt].
  { apply mkDate_valid. lia. }
  unfold mkDate.
  pose proof (monthLength_bounds (12 * y + m - 1)) as Hb.
  assert (Hfuel : exists f, S (Z.to_nat (Z.abs (a - n))) = S f) by eauto.
  destruct Hfuel as [f Hf]. rewrite Hf. simpl.
  assert ((a - n <? 1) = true) as -> by lia.
  assert (Hres : carryDays f (12 * y + m - 1) (a - n + monthLength (12 * y + m - 1)) =
                 (12 * y + m - 1, a - n + monthLength (12 * y + m - 1))).
  { destruct f as [|f]; [done|]. simpl.
    assert ((a - n + monthLength (12 * y + m - 1) <? 1) = false) as -> by lia.
    by assert ((monthLength (12 * y + m - 1) <? a - n + monthLength (12 * y + m - 1))
               = false) as -> by lia. }
  rewrite Hres. simpl. rewrite month_index_split. split; [zdiv|lia].
Qed.

End CalendarTheory.

(** ** The calendar grid *)

Module GridTheory.
Import JsDate PnLCalendar CalendarTheory.
Local Open Scope Z_scope.

Local Strategy opaque [mkDate monthStart monthLength toDays getDay carryDays].

Section Grid.

Variables currentYear currentMonth : Z.

Local Abbreviation K := (12 * currentYear + currentMonth).
Local Abbreviation firstDay := (mkDate currentYear currentMonth 1).
Local Abbreviation days := (_getDaysInMonth currentYear currentMonth).

Lemma lastDay_getDate :
  getDate (mkDate currentYear (currentMonth + 1) 0) = monthLength K.
Proof.
  rewrite mkDate_zero. simpl. f_equal. lia.
Qed.

Lemma prevMonthDays_length :
  getDate (mkDate currentYear currentMonth 0) = monthLength (K - 1).
Proof. by rewrite mkDate_zero. Qed.

Lemma toDays_firstDay : toDays firstDay = monthStart K.
Proof. rewrite toDays_mkDate. lia. Qed.

Local Abbreviation leadingDays := (PnLCalendar.leadingDays currentYear currentMonth).
Local Abbreviation currentDays := (PnLCalendar.currentDays currentYear currentMonth).
Local Abbreviation trailingDays := (PnLCalendar.trailingDays currentYear currentMonth).

Lemma length_leadingDays : Z.of_nat (length leadingDays) = getDay firstDay.
Proof.
  unfold PnLCalendar.leadingDays. pose proof (getDay_range firstDay).
  destruct (0 <? getDay firstDay) eqn:E.
  - rewrite length_map, length_reverse, length_seqZ. lia.
  - simpl. lia.
Qed.

Lemma length_currentDays : Z.of_nat (length currentDays) = monthLength K.
Proof.
  unfold PnLCalendar.currentDays. rewrite length_map, length_seqZ, lastDay_getDate.
  pose proof (monthLength_bounds K). lia.
Qed.

Lemma leadingDays_lookup (j : nat) day :
  leadingDays !! j = Some day ->
  toDays (date day) = toDays firstDay - getDay firstDay + Z.of_nat j /\
  isCurrentMonth day = false.
Proof.
  unfold PnLCalendar.leadingDays.
  destruct (0 <? getDay firstDay) eqn:E; [|done].
  rewrite list_lookup_fmap. intros H.
  apply fmap_Some in H as (i & Hi & ->).
  apply reverse_lookup_Some in Hi as [Hi Hj].
  rewrite length_seqZ in Hi, Hj.
  apply lookup_seqZ in Hi as [-> _].
  cbn [date isCurrentMonth]. split; [|done].
  rewrite toDays_mkDate, prevMonthDays_length, toDays_firstDay.
  replace (12 * currentYear + (currentMonth - 1)) with (K - 1) by lia.
  rewrite (monthStart_pred K). lia.
Qed.

Lemma currentDays_lookup (j : nat) day :
  currentDays !! j = Some day ->
  date day = mkDate currentYear currentMonth (Z.of_nat j + 1) /\
  1 <= Z.of_nat j + 1 <= monthLength K /\
  isCurrentMonth day = true.
Proof.
  unfold PnLCalendar.currentDays. rewrite list_lookup_fmap. intros H.
  apply fmap_Some in H as (i & Hi & ->).
  apply lookup_seqZ in Hi as [-> Hlt]. rewrite lastDay_getDate in Hlt.
  cbn [date isCurrentMonth]. split; [f_equal; lia|]. split; [lia|done].
Qed.

Lemma trailingDays_lookup (j : nat) day :
  trailingDays !! j = Some day ->
  toDays (date day) = toDays firstDay + monthLength K + Z.of_nat j /\
  isCurrentMonth day = false.
Proof.
  unfold PnLCalendar.trailingDays.
  destruct (getDay (mkDate currentYear (currentMonth + 1) 0) <? 6); [|done].
  rewrite list_lookup_fmap. intros H.
  apply fmap_Some in H as (i & Hi & ->).
  apply lookup_seqZ in Hi as [-> _].
  cbn [date isCurrentMonth]. split; [|done].
  rewrite toDays_mkDate, toDays_firstDay.
  replace (12 * currentYear + (currentMonth + 1)) with (K + 1) by lia.
  rewrite monthStart_succ. lia.
Qed.

(** The grid is a run of consecutive days that starts on the Sunday on or
    before the first of the month. *)
Lemma days_consecutive (j : nat) day :
  days !! j = Some day ->
  toDays (date day) = toDays firstDay - getDay firstDay + Z.of_nat j.
Proof.
  unfold _getDaysInMonth. intros H.
  pose proof length_leadingDays as Hl. pose proof length_currentDays as Hc.
  apply lookup_app_Some in H as [H|[Hge H]].
  { by apply leadingDays_lookup in H as [? _]. }
  apply lookup_app_Some in H as [H|[Hge' H]].
  - apply currentDays_lookup in H as (-> & _ & _).
    rewrite !toDays_mkDate. lia.
  - apply trailingDays_lookup in H as [-> _]. lia.
Qed.

Lemma days_getDay (j : nat) day :
  days !! j = Some day -> getDay (date day) = Z.of_nat j mod 7.
Proof.
  intros H. apply days_consecutive in H.
  rewrite (getDay_shift firstDay (date day) (Z.of_nat j - getDay firstDay)) by lia.
  pose proof (getDay_range firstDay) as Hr.
  revert Hr. generalize (getDay firstDay). intros w Hr. zdiv.
Qed.

Lemma leadingDays_valid (j : nat) day :
  leadingDays !! j = Some day -> validDate (date day).
Proof.
  unfold PnLCalendar.leadingDays. pose proof (getDay_range firstDay) as Hr.
  destruct (0 <? getDay firstDay) eqn:E; [|done].
  rewrite list_lookup_fmap. intros H.
  apply fmap_Some in H as (i & Hi & ->).
  apply reverse_lookup_Some in Hi as [Hi Hj].
  apply lookup_seqZ in Hi as [-> Hlt].
  cbn [date]. apply mkDate_valid. rewrite prevMonthDays_length.
  replace (12 * currentYear + (currentMonth - 1)) with (K - 1) by lia.
  pose proof (monthLength_bounds (K - 1)). lia.
Qed.

Lemma trailingDays_valid (j : nat) day :
  trailingDays !! j = Some day -> validDate (date day).
Proof.
  unfold PnLCalendar.trailingDays.
  pose proof (getDay_range (mkDate currentYear (currentMonth + 1) 0)) as Hr.
  destruct (getDay (mkDate currentYear (currentMonth + 1) 0) <? 6); [|done].
  rewrite list_lookup_fmap. intros H.
  apply fmap_Some in H as (i & Hi & ->).
  apply lookup_seqZ in Hi as [-> Hlt].
  cbn [date]. apply mkDate_valid.
  pose proof (monthLength_bounds (12 * currentYear + (currentMonth + 1))). lia.
Qed.

Lemma days_valid (j : nat) day : days !! j = Some day -> validDate (date day).
Proof.
  unfold _getDaysInMonth. intros H.
  apply lookup_app_Some in H as [H|[_ H]]; [by eapply leadingDays_valid|].
  apply lookup_app_Some in H as [H|[_ H]]; [|by eapply trailingDays_valid].
  apply currentDays_lookup in H as (-> & Hr & _). by apply mkDate_valid.
Qed.

(** A Saturday cell has the five cells before it in the grid: the five
    days before it, Monday to Friday. *)
Lemma saturday_week (k : nat) sat (i : nat) :
  days !! k = Some sat -> getDay (date sat) = 6 -> (1 <= i <= 5)%nat ->
  (i <= k)%nat /\
  exists day, days !! (k - i)%nat = Some day /\
    toDays (date day) = toDays (date sat) - Z.of_nat i /\
    getDay (date day) = 6 - Z.of_nat i /\
    date day = setDate (date sat) (getDate (date sat) - Z.of_nat i).
Proof.
  intros Hk Hsat Hi.
  pose proof (days_getDay _ _ Hk) as Hmod. rewrite Hsat in Hmod.
  assert (Hge : (6 <= k)%nat) by zdiv.
  split; [lia|].
  assert (Hlen : (k - i < length days)%nat).
  { apply lookup_lt_Some in Hk. lia. }
  destruct (lookup_lt_is_Some_2 _ _ Hlen) as [day Hday].
  exists day. split; [done|].
  pose proof (days_consecutive _ _ Hk) as Hs.
  pose proof (days_consecutive _ _ Hday) as Hd.
  assert (Hto : toDays (date day) = toDays (date sat) - Z.of_nat i) by lia.
  split; [done|]. split.
  - rewrite (days_getDay _ _ Hday). zdiv.
  - apply toDays_inj.
    + by eapply days_valid.
    + apply setDate_back_valid; [by eapply days_valid | lia].
    + rewrite Hto.
      replace (getDate (date sat) - Z.of_nat i) with (getDate (date sat) + - Z.of_nat i)
        by lia.
      rewrite toDays_setDate. lia.
Qed.

End Grid.

Lemma weeklyStep_cell (monthData : gmap string DayData) (k : nat) (days : list Day)
  total hasData (i : nat) d :
  (i <= k)%nat -> days !! (k - i)%nat = Some d ->
  weeklyStep monthData k days (Some (total, hasData)) i =
  Some (match monthData !! formatDate (date d) with
        | Some dayData => (total + pnl dayData, true)%Qc
        | None => (total, hasData)
        end).
Proof.
  intros Hi Hd. unfold weeklyStep.
  assert ((k <? i)%nat = false) as -> by (apply Nat.ltb_ge; lia).
  rewrite Hd. by destruct (monthData !! formatDate (date d)).
Qed.

(** The loop of [_calculateWeeklyPnL] over five defined cells. *)
Lemma weekly_of_cells (monthData : gmap string DayData) (k : nat) (days : list Day)
  d1 d2 d3 d4 d5 :
  (5 <= k)%nat ->
  days !! (k - 1)%nat = Some d1 -> days !! (k - 2)%nat = Some d2 ->
  days !! (k - 3)%nat = Some d3 -> days !! (k - 4)%nat = Some d4 ->
  days !! (k - 5)%nat = Some d5 ->
  _calculateWeeklyPnL monthData k days =
  Some (sumAvailable [pnl <$> monthData !! formatDate (date d1);
                      pnl <$> monthData !! formatDate (date d2);
                      pnl <$> monthData !! formatDate (date d3);
                      pnl <$> monthData !! formatDate (date d4);
                      pnl <$> monthData !! formatDate (date d5)]).
Proof.
  intros Hk H1 H2 H3 H4 H5.
  unfold _calculateWeeklyPnL, sumAvailable. cbn [fold_left].
  rewrite (weeklyStep_cell _ _ _ _ _ 1%nat d1) by (done || lia).
  destruct (monthData !! formatDate (date d1));
    rewrite (weeklyStep_cell _ _ _ _ _ 2%nat d2) by (done || lia);
    destruct (monthData !! formatDate (date d2));
    rewrite (weeklyStep_cell _ _ _ _ _ 3%nat d3) by (done || lia);
    destruct (monthData !! formatDate (date d3));
    rewrite (weeklyStep_cell _ _ _ _ _ 4%nat d4) by (done || lia);
    destruct (monthData !! formatDate (date d4));
    rewrite (weeklyStep_cell _ _ _ _ _ 5%nat d5) by (done || lia);
    destruct (monthData !! formatDate (date d5));
    reflexivity.
Qed.

Lemma sumAvailable_five_none (a b c d e : option Qc) :
  sumAvailable [a; b; c; d; e] = None <->
  a = None /\ b = None /\ c = None /\ d = None /\ e = None.
Proof.
  unfold sumAvailable. destruct a, b, c, d, e; simpl; split;
    try discriminate; try done; intros (? & ? & ? & ? & ?); discriminate.
Qed.

End GridTheory.

(** ** Weekly P&L *)

(** For every Saturday cell of the grid of any month, the five cells
    before it exist and hold the five days before that Saturday, Monday to
    Friday (Monday and Friday being the ends of _getWeekRange); what
    _calculateWeeklyPnL returns is the sum of the entries that monthData,
    whatever it holds, has for these five days, the days without an entry
    being skipped, and it is null exactly when none of the five has an
    entry.  The entries of monthData are those of the displayed month
    only: a day of the week that lies in another month has none, whatever
    its snapshots are. *)
Theorem weeklyPnL_preceding_week
  (currentYear currentMonth : Z) (monthData : gmap string PnLCalendar.DayData)
  (k : nat) (sat : PnLCalendar.Day) :
  PnLCalendar._getDaysInMonth currentYear currentMonth !! k = Some sat ->
  JsDate.getDay (PnLCalendar.date sat) = 6%Z ->
  exists mon tue wed thu fri : JsDate.Date,
    let back n :=
      JsDate.setDate (PnLCalendar.date sat) (JsDate.getDate (PnLCalendar.date sat) - n) in
    let daily d := PnLCalendar.pnl <$> monthData !! JsDate.formatDate d in
    (mon = back 5 /\ tue = back 4 /\ wed = back 3 /\ thu = back 2 /\ fri = back 1)%Z /\
    (JsDate.toDays mon = JsDate.toDays (PnLCalendar.date sat) - 5 /\
     JsDate.toDays tue = JsDate.toDays (PnLCalendar.date sat) - 4 /\
     JsDate.toDays wed = JsDate.toDays (PnLCalendar.date sat) - 3 /\
     JsDate.toDays thu = JsDate.toDays (PnLCalendar.date sat) - 2 /\
     JsDate.toDays fri = JsDate.toDays (PnLCalendar.date sat) - 1)%Z /\
    (JsDate.getDay mon = 1 /\ JsDate.getDay tue = 2 /\ JsDate.getDay wed = 3 /\
     JsDate.getDay thu = 4 /\ JsDate.getDay fri = 5)%Z /\
    PnLCalendar._getWeekRange (PnLCalendar.date sat) =
      (JsDate.formatDate mon, JsDate.formatDate fri) /\
    PnLCalendar._calculateWeeklyPnL monthData k
      (PnLCalendar._getDaysInMonth currentYear currentMonth) =
      Some (sumAvailable [daily fri; daily thu; daily wed; daily tue; daily mon]) /\
    PnLCalendar.cellPnL monthData k
      (PnLCalendar._getDaysInMonth currentYear currentMonth) sat =
      Some (sumAvailable [daily fri; daily thu; daily wed; daily tue; daily mon]) /\
    (sumAvailable [daily fri; daily thu; daily wed; daily tue; daily mon] = None <->
     daily fri = None /\ daily thu = None /\ daily wed = None /\
     daily tue = None /\ daily mon = None).
Proof.
  intros Hk Hsat.
  destruct (GridTheory.saturday_week _ _ k sat 1 Hk Hsat) as (_ & d1 & H1 & T1 & G1 & E1);
    [lia|].
  destruct (GridTheory.saturday_week _ _ k sat 2 Hk Hsat) as (_ & d2 & H2 & T2 & G2 & E2);
    [lia|].
  destruct (GridTheory.saturday_week _ _ k sat 3 Hk Hsat) as (_ & d3 & H3 & T3 & G3 & E3);
    [lia|].
  destruct (GridTheory.saturday_week _ _ k sat 4 Hk Hsat) as (_ & d4 & H4 & T4 & G4 & E4);
    [lia|].
  destruct (GridTheory.saturday_week _ _ k sat 5 Hk Hsat) as (H5k & d5 & H5 & T5 & G5 & E5);
    [lia|].
  change (Z.of_nat 1) with 1%Z in *. change (Z.of_nat 2) with 2%Z in *.
  change (Z.of_nat 3) with 3%Z in *. change (Z.of_nat 4) with 4%Z in *.
  change (Z.of_nat 5) with 5%Z in *.
  change (6 - 1)%Z with 5%Z in *. change (6 - 2)%Z with 4%Z in *.
  change (6 - 3)%Z with 3%Z in *. change (6 - 4)%Z with 2%Z in *.
  change (6 - 5)%Z with 1%Z in *.
  exists (PnLCalendar.date d5), (PnLCalendar.date d4), (PnLCalendar.date d3),
    (PnLCalendar.date d2), (PnLCalendar.date d1).
  cbv zeta.
  assert (Hweek : PnLCalendar._calculateWeeklyPnL monthData k
            (PnLCalendar._getDaysInMonth currentYear currentMonth) =
          Some (sumAvailable
            [PnLCalendar.pnl <$> monthData !! JsDate.formatDate (PnLCalendar.date d1);
             PnLCalendar.pnl <$> monthData !! JsDate.formatDate (PnLCalendar.date d2);
             PnLCalendar.pnl <$> monthData !! JsDate.formatDate (PnLCalendar.date d3);
             PnLCalendar.pnl <$> monthData !! JsDate.formatDate (PnLCalendar.date d4);
             PnLCalendar.pnl <$> monthData !! JsDate.formatDate (PnLCalendar.date d5)])).
  { by apply GridTheory.weekly_of_cells. }
  split; [done|]. split; [done|]. split; [done|].
  split; [unfold PnLCalendar._getWeekRange; by rewrite <- E5, <- E1|].
  split; [done|].
  split; [unfold PnLCalendar.cellPnL; by rewrite Hsat|].
  apply GridTheory.sumAvailable_five_none.
Qed.

Lemma weeklyPnL_preceding_week_witness :
  PnLCalendar._getWeekRange (PnLCalendar.date sampleSaturday) =
    ("2025-03-03", "2025-03-07") /\
  PnLCalendar._calculateWeeklyPnL sampleWeek 13 (PnLCalendar._getDaysInMonth 2025 2) =
    Some (Some (Qc_of_Z 150)).
Proof.
  destruct (weeklyPnL_preceding_week 2025 2 sampleWeek 13 sampleSaturday)
    as (mon & tue & wed & thu & fri & (-> & -> & -> & -> & ->) & _ & _ & Hrange & Hweek & _).
  - vm_compute. reflexivity.
  - vm_compute. reflexivity.
  - split.
    + rewrite Hrange. vm_compute. reflexivity.
    + rewrite Hweek. vm_compute. do 2 f_equal. by apply Qc_is_canon.
Defined.

(** The week of the sample with Wednesday's entry missing: the other four
    days are still summed. *)
Example weeklyPnL_partial_week :
  PnLCalendar._calculateWeeklyPnL (delete "2025-03-05" sampleWeek) 13
    (PnLCalendar._getDaysInMonth 2025 2) = Some (Some (Qc_of_Z 125)).
Proof. vm_compute. do 2 f_equal. by apply Qc_is_canon. Qed.

(** Seen from the grid of March 2025, the Saturday 2025-04-05 sums the one
    day of its week that lies in March: the cells of the other months have
    no entry in monthData. *)
Example weeklyPnL_month_boundary :
  PnLCalendar._calculateWeeklyPnL {[ "2025-03-31" := sampleDay 40 ]} 41
    (PnLCalendar._getDaysInMonth 2025 2) = Some (Some (Qc_of_Z 40)).
Proof. vm_compute. do 2 f_equal. by apply Qc_is_canon. Qed.

Ltac qc_entries :=
  repeat match goal with
         | |- @eq (list _) (_ :: _) (_ :: _) => f_equal
         | |- @eq (option (option _)) (Some _) (Some _) => f_equal
         | |- @eq (option _) (Some _) (Some _) => f_equal
         | |- @eq Qc _ _ => by apply Qc_is_canon
         end.

(** C9: the weekly P&L of a Saturday cell is not the sum of the daily P&L
    of the five days before it when the week crosses the start of the
    displayed month.  With complete snapshots for every day from Monday
    2025-02-24 to Friday 2025-02-28 (and for the Friday before), the grid
    of March 2025 has Saturday 2025-03-01 at cell 6 with these five days
    in the cells before it; each of them has a daily P&L (100, -50, 25, 0
    and 75, as calculateMonthData stores them for February and as the
    specification's formula gives them), but the entries of March hold
    none of them and the cell shows null.  The same Saturday, as the
    trailing cell of the grid of February, shows their sum, 150. *)
Theorem weeklyPnL_null_across_month_boundary :
  let start := Qc_of_Z 10000 in
  let days := PnLCalendar._getDaysInMonth 2025 2 in
  let march :=
    PnLCalendar.calculateMonthData start lastWeekOfFebruary false 2025 2 ∅ in
  let february :=
    PnLCalendar.calculateMonthData start lastWeekOfFebruary false 2025 1 ∅ in
  let week := ["2025-02-28"; "2025-02-27"; "2025-02-26"; "2025-02-25"; "2025-02-24"]%string in
  days !! 6%nat = Some marchFirst /\
  JsDate.getDay (PnLCalendar.date marchFirst) = 6%Z /\
  PnLCalendar._getWeekRange (PnLCalendar.date marchFirst) =
    ("2025-02-24", "2025-02-28")%string /\
  map (fun i => (fun day => JsDate.formatDate (PnLCalendar.date day)) <$> days !! (6 - i)%nat)
      [1; 2; 3; 4; 5]%nat = map Some week /\
  map (fun i => (fun day => dailyPnLSpec lastWeekOfFebruary (PnLCalendar.date day))
                  <$> days !! (6 - i)%nat) [1; 2; 3; 4; 5]%nat =
    [Some (Some (Qc_of_Z 75)); Some (Some (Qc_of_Z 0)); Some (Some (Qc_of_Z 25));
     Some (Some (Qc_of_Z (-50))); Some (Some (Qc_of_Z 100))] /\
  map (fun key => PnLCalendar.pnl <$> february !! key) week =
    [Some (Qc_of_Z 75); Some (Qc_of_Z 0); Some (Qc_of_Z 25);
     Some (Qc_of_Z (-50)); Some (Qc_of_Z 100)] /\
  map (fun key => PnLCalendar.pnl <$> march !! key) week = [None; None; None; None; None] /\
  PnLCalendar.cellPnL march 6 days marchFirst = Some None /\
  PnLCalendar._getDaysInMonth 2025 1 !! 34%nat = Some marchFirstTrailing /\
  PnLCalendar.cellPnL february 34 (PnLCalendar._getDaysInMonth 2025 1) marchFirstTrailing =
    Some (Some (Qc_of_Z 150)).
Proof.
  cbv zeta.
  split; [vm_compute; reflexivity|]. split; [vm_compute; reflexivity|].
  split; [vm_compute; reflexivity|]. split; [vm_compute; reflexivity|].
  split; [vm_compute; qc_entries|]. split; [vm_compute; qc_entries|].
  split; [vm_compute; reflexivity|]. split; [vm_compute; reflexivity|].
  split; [vm_compute; reflexivity|].
  vm_compute; qc_entries.
Qed.

(** ** Daily P&L *)

Module MonthDataTheory.
Import JsDate PnLCalendar CalendarTheory GridTheory.
Local Open Scope Z_scope.

Local Strategy opaque [mkDate monthStart monthLength toDays getDay carryDays].

Lemma unpad_pad2 a : 1 <= a <= 31 -> unpad (pad2 a) = a.
Proof.
  intros H.
  assert (Hc : a = 1 \/ a = 2 \/ a = 3 \/ a = 4 \/ a = 5 \/ a = 6 \/ a = 7 \/ a = 8 \/
               a = 9 \/ a = 10 \/ a = 11 \/ a = 12 \/ a = 13 \/ a = 14 \/ a = 15 \/
               a = 16 \/ a = 17 \/ a = 18 \/ a = 19 \/ a = 20 \/ a = 21 \/ a = 22 \/
               a = 23 \/ a = 24 \/ a = 25 \/ a = 26 \/ a = 27 \/ a = 28 \/ a = 29 \/
               a = 30 \/ a = 31) by lia.
  repeat (destruct Hc as [-> | Hc]; [reflexivity|]). by subst.
Qed.

Lemma pad2_inj a b : 1 <= a <= 31 -> 1 <= b <= 31 -> pad2 a = pad2 b -> a = b.
Proof.
  intros Ha Hb E. by rewrite <- (unpad_pad2 a), <- (unpad_pad2 b), E.
Qed.

(** Two days of one month have different date strings. *)
Lemma formatDate_same_month y m a b :
  1 <= a <= 31 -> 1 <= b <= 31 ->
  formatDate (mkDateRec y m a) = formatDate (mkDateRec y m b) -> a = b.
Proof.
  intros Ha Hb. unfold formatDate. simpl. intros E.
  do 4 apply String.app_inj in E. by apply pad2_inj.
Qed.

(** *** The previous business day *)

Lemma toDays_yesterday p : toDays (setDate p (getDate p - 1)) = toDays p - 1.
Proof.
  replace (getDate p - 1) with (getDate p + -1) by lia.
  rewrite toDays_setDate. lia.
Qed.

Lemma skipWeekend_result (fuel : nat) : forall p,
  (if getDay p =? 0 then 2 else if getDay p =? 6 then 1 else 0) <= Z.of_nat fuel ->
  toDays (skipWeekend fuel p) =
    toDays p - (if getDay p =? 0 then 2 else if getDay p =? 6 then 1 else 0) /\
  1 <= getDay (skipWeekend fuel p) <= 5.
Proof.
  induction fuel as [|fuel IH]; intros p Hfuel; pose proof (getDay_range p) as Hr.
  - cbn [skipWeekend].
    destruct (getDay p =? 0) eqn:E0; [lia|].
    destruct (getDay p =? 6) eqn:E6; [lia|].
    apply Z.eqb_neq in E0, E6. lia.
  - cbn [skipWeekend]. unfold weekendOf.
    pose proof (toDays_yesterday p) as T.
    pose proof (getDay_shift p _ (-1) ltac:(rewrite T; lia)) as G.
    destruct (getDay p =? 0) eqn:E0; cbn [orb].
    { apply Z.eqb_eq in E0.
      assert (G6 : getDay (setDate p (getDate p - 1)) = 6) by (rewrite G; zdiv).
      specialize (IH (setDate p (getDate p - 1))).
      rewrite G6 in IH. cbn [Z.eqb Pos.eqb] in IH.
      destruct IH as [IH1 IH2]; [lia|]. split; [lia|done]. }
    destruct (getDay p =? 6) eqn:E6.
    { apply Z.eqb_eq in E6.
      assert (G5 : getDay (setDate p (getDate p - 1)) = 5) by (rewrite G; zdiv).
      specialize (IH (setDate p (getDate p - 1))).
      rewrite G5 in IH. cbn [Z.eqb Pos.eqb] in IH.
      destruct IH as [IH1 IH2]; [lia|]. split; [lia|done]. }
    apply Z.eqb_neq in E0, E6. lia.
Qed.

(** The previous business day is the last weekday before the date: three
    days back on a Monday, two on a Sunday, one otherwise. *)
Lemma previousBusinessDay_toDays d :
  toDays (_getPreviousBusinessDay d) =
  toDays d - (if getDay d =? 1 then 3 else if getDay d =? 0 then 2 else 1) /\
  1 <= getDay (_getPreviousBusinessDay d) <= 5.
Proof.
  unfold _getPreviousBusinessDay.
  pose proof (toDays_yesterday d) as T.
  pose proof (getDay_shift d _ (-1) ltac:(rewrite T; lia)) as G.
  pose proof (getDay_range d) as Hr.
  pose proof (getDay_range (setDate d (getDate d - 1))) as Hr'.
  destruct (skipWeekend_result 7 (setDate d (getDate d - 1))) as [S1 S2].
  { repeat match goal with |- context [if ?b then _ else _] => destruct b end; lia. }
  split; [|done]. rewrite S1, T.
  destruct (getDay d =? 1) eqn:E1.
  { apply Z.eqb_eq in E1.
    assert (getDay (setDate d (getDate d - 1)) = 0) as -> by (rewrite G; zdiv).
    cbn [Z.eqb]. lia. }
  destruct (getDay d =? 0) eqn:E0.
  { apply Z.eqb_eq in E0.
    assert (getDay (setDate d (getDate d - 1)) = 6) as -> by (rewrite G; zdiv).
    cbn [Z.eqb Pos.eqb]. lia. }
  apply Z.eqb_neq in E0, E1.
  assert ((getDay (setDate d (getDate d - 1)) =? 0) = false) as ->
    by (apply Z.eqb_neq; rewrite G; zdiv).
  assert ((getDay (setDate d (getDate d - 1)) =? 6) = false) as ->
    by (apply Z.eqb_neq; rewrite G; zdiv).
  lia.
Qed.

Lemma skipWeekend_valid fuel p : validDate p -> validDate (skipWeekend fuel p).
Proof.
  revert p. induction fuel as [|fuel IH]; intros p Hp; cbn [skipWeekend]; [done|].
  destruct (weekendOf p); [|done]. apply IH.
  replace (getDate p - 1) with (getDate p - 1) by lia.
  apply setDate_back_valid; [done|lia].
Qed.

Lemma previousBusinessDay_valid d :
  validDate d -> validDate (_getPreviousBusinessDay d).
Proof.
  intros Hd. unfold _getPreviousBusinessDay.
  apply skipWeekend_valid, setDate_back_valid; [done|lia].
Qed.

(** *** Reading a date string back *)

Lemma noDash_uint u : noDash (NilEmpty.string_of_uint u) = true.
Proof. induction u; simpl; auto. Qed.

Lemma dash_split a b x y :
  noDash a = true -> noDash b = true ->
  a +:+ "-" +:+ x = b +:+ "-" +:+ y -> a = b /\ x = y.
Proof.
  revert b. induction a as [|c a IH]; intros [|e b]; simpl; intros Ha Hb E.
  - by injection E.
  - injection E as <- _. by rewrite Ascii.eqb_refl in Hb.
  - injection E as -> _. by rewrite Ascii.eqb_refl in Ha.
  - injection E as -> E.
    apply andb_true_iff in Ha as [_ Ha]. apply andb_true_iff in Hb as [_ Hb].
    destruct (IH b Ha Hb E) as [-> ->]. done.
Qed.

(** '2025-03-07' is the string of one date only. *)
Lemma formatDate_sampleFriday d :
  validDate d -> formatDate d = "2025-03-07"%string -> d = mkDateRec 2025 2 7.
Proof.
  destruct d as [y m a]. unfold validDate. cbn [getFullYear getMonth getDate].
  intros [Hm Ha] E.
  pose proof (monthLength_bounds (12 * y + m)) as Hb.
  unfold formatDate in E. cbn [getFullYear getMonth getDate] in E.
  assert (Hy : pad4 y = "2025"%string /\
               pad2 (m + 1) +:+ "-" +:+ pad2 a = "03-07"%string).
  { unfold pad4 in *.
    destruct (y <? 10); [simpl in E; discriminate E|].
    destruct (y <? 100); [simpl in E; discriminate E|].
    destruct (y <? 1000); [simpl in E; discriminate E|].
    change ("" +:+ IncrementalStatsCalculator.decimal (Z.to_N y))
      with (IncrementalStatsCalculator.decimal (Z.to_N y)) in *.
    apply (dash_split _ "2025"); [apply noDash_uint|reflexivity|exact E]. }
  destruct Hy as [Hy Hrest].
  assert (Hm' : pad2 (m + 1) = "03"%string /\ pad2 a = "07"%string).
  { apply (dash_split _ "03"); [|reflexivity|exact Hrest].
    unfold pad2. destruct (m + 1 <? 10); simpl; apply noDash_uint. }
  destruct Hm' as [Hm' Ha'].
  assert (m + 1 = 3) by (apply pad2_inj; [lia|lia|exact Hm']).
  assert (a = 7) by (apply pad2_inj; [lia|lia|exact Ha']).
  assert (y = 2025).
  { unfold pad4 in Hy.
    destruct (y <? 10) eqn:E1; [simpl in Hy; discriminate Hy|].
    destruct (y <? 100) eqn:E2; [simpl in Hy; discriminate Hy|].
    destruct (y <? 1000) eqn:E3; [simpl in Hy; discriminate Hy|].
    change ("" +:+ IncrementalStatsCalculator.decimal (Z.to_N y))
      with (IncrementalStatsCalculator.decimal (Z.to_N y)) in Hy.
    apply (ChecksumTheory.decimal_inj (Z.to_N y) 2025) in Hy. lia. }
  subst. f_equal. lia.
Qed.

(** *** The loop of calculateMonthData *)

Section Fold.

Variable startingAccountSize : Qc.
Variable eod : gmap string EODSnapshot.

Local Abbreviation step := (monthDataStep startingAccountSize eod).
Local Abbreviation entry := (dayEntry startingAccountSize eod).

Lemma step_entry md day :
  step md day =
  if isCurrentMonth day then
    match entry (date day) with
    | Some e => <[formatDate (date day) := e]> md
    | None => md
    end
  else md.
Proof.
  unfold monthDataStep, dayEntry, prevBalanceOf, eodCacheManager.getEODData.
  destruct (isCurrentMonth day); [|done]. cbn [negb].
  destruct (eod !! formatDate (date day)) as [today|]; [|done].
  by destruct (incomplete today).
Qed.

Lemma fold_other (l : list Day) : forall md key,
  (forall d, d ∈ l -> isCurrentMonth d = true -> formatDate (date d) ≠ key) ->
  fold_left step l md !! key = md !! key.
Proof.
  induction l as [|d l IH]; intros md key H; [done|].
  cbn [fold_left]. rewrite IH by (intros d' Hd'; apply H; by right).
  rewrite step_entry.
  destruct (isCurrentMonth d) eqn:Hc; [|done].
  destruct (entry (date d)); [|done].
  apply lookup_insert_ne. apply H; [by left|done].
Qed.

Lemma fold_at (l1 l2 : list Day) d md :
  isCurrentMonth d = true ->
  (forall d', d' ∈ l1 -> isCurrentMonth d' = true ->
     formatDate (date d') ≠ formatDate (date d)) ->
  (forall d', d' ∈ l2 -> isCurrentMonth d' = true ->
     formatDate (date d') ≠ formatDate (date d)) ->
  md !! formatDate (date d) = None ->
  fold_left step (l1 ++ d :: l2) md !! formatDate (date d) = entry (date d).
Proof.
  intros Hc H1 H2 Hmd.
  rewrite fold_left_app. cbn [fold_left].
  rewrite fold_other by done. rewrite step_entry, Hc.
  destruct (entry (date d)) as [e|].
  - apply lookup_insert_eq.
  - by rewrite fold_other.
Qed.

End Fold.

Section GridKeys.

Variables currentYear currentMonth : Z.

Local Abbreviation K := (12 * currentYear + currentMonth).
Local Abbreviation days := (_getDaysInMonth currentYear currentMonth).

(** A cell of the displayed month is day [a] of that month, at index
    [firstDayOfWeek + a - 1]. *)
Lemma current_cell (i : nat) d :
  days !! i = Some d -> isCurrentMonth d = true ->
  exists a, 1 <= a <= monthLength K /\
    date d = mkDateRec (K / 12) (K mod 12) a /\
    Z.of_nat i = getDay (mkDate currentYear currentMonth 1) + a - 1.
Proof.
  unfold _getDaysInMonth. intros H Hc.
  pose proof (length_leadingDays currentYear currentMonth) as Hl.
  apply lookup_app_Some in H as [H|[Hge H]].
  { apply leadingDays_lookup in H as [_ ?]. congruence. }
  apply lookup_app_Some in H as [H|[_ H]].
  2:{ apply trailingDays_lookup in H as [_ ?]. congruence. }
  apply currentDays_lookup in H as (Hd & Hr & _).
  exists (Z.of_nat (i - length (leadingDays currentYear currentMonth)) + 1).
  split; [done|]. split; [|lia].
  rewrite Hd. by apply mkDate_in_range.
Qed.

Lemma current_key_inj (i j : nat) d d' :
  days !! i = Some d -> days !! j = Some d' ->
  isCurrentMonth d = true -> isCurrentMonth d' = true ->
  formatDate (date d) = formatDate (date d') -> i = j.
Proof.
  intros Hi Hj Hc Hc' E.
  destruct (current_cell _ _ Hi Hc) as (a & Ha & Hd & Hia).
  destruct (current_cell _ _ Hj Hc') as (b & Hb & Hd' & Hjb).
  rewrite Hd, Hd' in E.
  pose proof (monthLength_bounds K).
  apply formatDate_same_month in E; lia.
Qed.

(** What calculateMonthData leaves in monthData for a day of the displayed
    month. *)
Lemma monthData_entry startingAccountSize eod monthData (j : nat) day :
  days !! j = Some day -> isCurrentMonth day = true ->
  calculateMonthData startingAccountSize eod false currentYear currentMonth monthData
    !! formatDate (date day) = dayEntry startingAccountSize eod (date day).
Proof.
  intros Hj Hc. unfold calculateMonthData.
  rewrite <- (take_drop_middle _ _ _ Hj) at 1.
  apply fold_at; [done| | |apply lookup_empty].
  - intros d' Hd' Hc' E.
    apply list_elem_of_lookup in Hd' as [i Hi].
    pose proof (lookup_lt_Some _ _ _ Hi) as Hlt. rewrite length_take in Hlt.
    rewrite lookup_take_lt in Hi by lia.
    pose proof (current_key_inj _ _ _ _ Hi Hj Hc' Hc E). lia.
  - intros d' Hd' Hc' E.
    apply list_elem_of_lookup in Hd' as [i Hi].
    rewrite lookup_drop in Hi.
    pose proof (current_key_inj _ _ _ _ Hi Hj Hc' Hc E). lia.
Qed.

End GridKeys.

End MonthDataTheory.

(** C3 as claimed fails: with a complete snapshot for Friday 2025-03-07
    and none for Thursday, the calendar stores a daily P&L for the Friday
    (its balance minus the starting account size) where the claim says
    no data. *)
Lemma dailyPnL_previous_day_substituted :
  ~ (forall (startingAccountSize : Qc) (eod : gmap string EODSnapshot)
       (currentYear currentMonth : Z) (j : nat) (day : PnLCalendar.Day),
       PnLCalendar._getDaysInMonth currentYear currentMonth !! j = Some day ->
       PnLCalendar.isCurrentMonth day = true ->
       PnLCalendar.pnl <$>
         (PnLCalendar.calculateMonthData startingAccountSize eod false
            currentYear currentMonth ∅
          !! JsDate.formatDate (PnLCalendar.date day)) =
       dailyPnLSpec eod (PnLCalendar.date day)).
Proof.
  intros H.
  specialize (H (Qc_of_Z 10000) fridayOnly 2025%Z 2%Z 12%nat sampleFriday).
  assert (Hcell : PnLCalendar._getDaysInMonth 2025 2 !! 12%nat = Some sampleFriday)
    by (vm_compute; reflexivity).
  specialize (H Hcell eq_refl).
  assert (Hspec : dailyPnLSpec fridayOnly (PnLCalendar.date sampleFriday) = None)
    by (vm_compute; reflexivity).
  rewrite Hspec in H.
  destruct (PnLCalendar.calculateMonthData (Qc_of_Z 10000) fridayOnly false 2025 2 ∅
            !! JsDate.formatDate (PnLCalendar.date sampleFriday)) eqn:E;
    [discriminate H|].
  vm_compute in E. discriminate E.
Qed.

(** C3, amended: for every date of the displayed month the calendar has no
    data whenever the EOD snapshot of the date itself is missing or marked
    incomplete; when the snapshots of the date and of the previous
    business day (the last weekday before the date) are both there and
    complete, its daily P&L is balance(date) minus balance(previous
    business day) minus cashFlow(date); and on the first trading day, a
    date with a complete snapshot before which the EOD cache holds no
    snapshot of any date, the starting account size stands for the
    previous balance. *)
Theorem dailyPnL_from_snapshots
  (startingAccountSize : Qc) (eod : gmap string EODSnapshot)
  (monthData : gmap string PnLCalendar.DayData)
  (currentYear currentMonth : Z) (j : nat) (day : PnLCalendar.Day) :
  PnLCalendar._getDaysInMonth currentYear currentMonth !! j = Some day ->
  PnLCalendar.isCurrentMonth day = true ->
  let d := PnLCalendar.date day in
  let prevDay := PnLCalendar._getPreviousBusinessDay d in
  let stored :=
    PnLCalendar.calculateMonthData startingAccountSize eod false
      currentYear currentMonth monthData !! JsDate.formatDate d in
  ((eod !! JsDate.formatDate d = None \/
    exists today, eod !! JsDate.formatDate d = Some today /\ incomplete today = true) ->
   stored = None) /\
  (forall today prev,
     eod !! JsDate.formatDate d = Some today -> incomplete today = false ->
     eod !! JsDate.formatDate prevDay = Some prev -> incomplete prev = false ->
     PnLCalendar.pnl <$> stored =
       Some (balance today - balance prev - default 0 (cashFlow today))) /\
  (forall today,
     eod !! JsDate.formatDate d = Some today -> incomplete today = false ->
     (forall earlier, validDate earlier ->
        (JsDate.toDays earlier < JsDate.toDays d)%Z ->
        eod !! JsDate.formatDate earlier = None) ->
     PnLCalendar.pnl <$> stored =
       Some (balance today - startingAccountSize - default 0 (cashFlow today))) /\
  (JsDate.toDays prevDay =
     JsDate.toDays d - (if JsDate.getDay d =? 1 then 3
                        else if JsDate.getDay d =? 0 then 2 else 1) /\
   1 <= JsDate.getDay prevDay <= 5)%Z.
Proof.
  intros Hj Hc d prevDay stored.
  assert (Hs : stored = dayEntry startingAccountSize eod d).
  { by eapply MonthDataTheory.monthData_entry. }
  pose proof (MonthDataTheory.previousBusinessDay_toDays d) as Hprev.
  fold prevDay in Hprev.
  rewrite Hs. unfold dayEntry, prevBalanceOf. fold prevDay.
  split.
  { intros [->|(today & -> & ->)]; reflexivity. }
  split.
  { intros today prev -> -> -> ->. reflexivity. }
  split; [|exact Hprev].
  intros today -> -> Hfirst.
  rewrite (Hfirst prevDay); [reflexivity| |].
  - apply MonthDataTheory.previousBusinessDay_valid.
    by apply (GridTheory.days_valid currentYear currentMonth j).
  - destruct Hprev as [-> _].
    repeat match goal with |- context [if ?b then _ else _] => destruct b end; lia.
Qed.

Lemma dailyPnL_from_snapshots_witness :
  PnLCalendar.pnl <$>
    (PnLCalendar.calculateMonthData (Qc_of_Z 10000) fridayOnly false 2025 2 ∅
     !! JsDate.formatDate (PnLCalendar.date sampleFriday)) =
  Some (balance sampleSnapshot - Qc_of_Z 10000 - default 0 (cashFlow sampleSnapshot)).
Proof.
  destruct (dailyPnL_from_snapshots (Qc_of_Z 10000) fridayOnly ∅ 2025 2 12 sampleFriday)
    as (_ & _ & Hfirst & _).
  - vm_compute. reflexivity.
  - reflexivity.
  - apply (Hfirst sampleSnapshot).
    + vm_compute. reflexivity.
    + reflexivity.
    + intros earlier Hv Hlt. apply lookup_singleton_None. intros E.
      symmetry in E.
      apply (MonthDataTheory.formatDate_sampleFriday earlier Hv) in E.
      subst earlier. vm_compute in Hlt. discriminate Hlt.
Defined.

(** After a weekday without a snapshot that is not the start of the
    record, the loop of calculateMonthData takes the starting account
    size as well: with a starting size of 5000, complete snapshots for
    Wednesday 2025-11-26 (9900) and Friday 2025-11-28 (10000) and none
    for Thursday, Friday's entry is 10000 - 5000, while the balance moved
    by 100 since the last snapshot. *)
Example dailyPnL_after_missing_weekday :
  PnLCalendar._getDaysInMonth 2025 10 !! 33%nat =
    Some (PnLCalendar.mkDay (JsDate.mkDate 2025 10 28) true false) /\
  JsDate.formatDate (PnLCalendar._getPreviousBusinessDay (JsDate.mkDate 2025 10 28)) =
    "2025-11-27"%string /\
  PnLCalendar.pnl <$>
    (PnLCalendar.calculateMonthData (Qc_of_Z 5000) holidayGap false 2025 10 ∅
     !! "2025-11-28"%string) = Some (Qc_of_Z 5000) /\
  PnLCalendar.pnl <$>
    (PnLCalendar.calculateMonthData (Qc_of_Z 5000) holidayGap false 2025 10 ∅
     !! "2025-11-26"%string) = Some (Qc_of_Z 4900).
Proof.
  split; [vm_compute; reflexivity|]. split; [vm_compute; reflexivity|].
  split; vm_compute; f_equal; by apply Qc_is_canon.
Qed.

(** ** AppState: coherence of the account cache *)

Module AccountCacheTheory.
Import AppState AppStateOps.

Section WithExtractor.

Variable f : Trade -> Qc.

Lemma needsRecalculation_coherent st :
  cacheCoherent f st -> cacheCoherent f (_needsRecalculation f st).2.
Proof.
  destruct st as [s e cf [cr cs deps tmp]].
  unfold cacheCoherent, _needsRecalculation. simpl.
  by destruct (_ || _).
Qed.

Lemma recalcRealizedPnL_coherent st :
  cacheCoherent f st ->
  (recalcRealizedPnL f st).1 = calculateRealizedPnL f (entries st) /\
  cacheCoherent f (recalcRealizedPnL f st).2.
Proof.
  destruct st as [s e cf [cr cs deps tmp]].
  unfold cacheCoherent, recalcRealizedPnL, _updateCacheDependencies. simpl.
  intros [_ Hs]. split; [done|].
  destruct tmp; simpl; (split; [by intros v [= <-] | done]).
Qed.

Lemma realizedPnL_coherent st :
  cacheCoherent f st ->
  (realizedPnL f st).1 = calculateRealizedPnL f (entries st) /\
  cacheCoherent f (realizedPnL f st).2.
Proof.
  intros Hc. unfold realizedPnL.
  destruct (cachedRealizedPnL (_accountCache st)) as [cached|] eqn:E;
    [|by apply recalcRealizedPnL_coherent].
  pose proof (needsRecalculation_coherent st Hc) as Hc1.
  pose proof (needsRecalculation_data f st) as (_ & He & _).
  destruct (_needsRecalculation f st) as [[] st1]; cbn [fst snd] in *.
  - destruct (recalcRealizedPnL_coherent st1 Hc1) as [-> ?]. by rewrite He.
  - split; [|done]. by apply Hc.
Qed.

Lemma formula_data st st' :
  cashFlowOf st' = cashFlowOf st -> entries st' = entries st ->
  startingAccountSize st' = startingAccountSize st ->
  realizedBalanceFormula f st' = realizedBalanceFormula f st.
Proof.
  unfold realizedBalanceFormula, getCashFlowNet. by intros -> -> ->.
Qed.

Lemma recalcCurrentSize_coherent st :
  cacheCoherent f st ->
  (recalcCurrentSize f st).1 = realizedBalanceFormula f st /\
  cacheCoherent f (recalcCurrentSize f st).2.
Proof.
  intros Hc. unfold recalcCurrentSize.
  destruct (realizedPnL_coherent st Hc) as [Hv Hc1].
  pose proof (realizedPnL_data f st) as (Hcf & He & Hs).
  destruct (realizedPnL f st) as [pnl st1]; cbn [fst snd] in *.
  subst pnl. split; [done|].
  destruct st1 as [s1 e1 cf1 [cr1 cs1 deps1 tmp1]]. simpl in *. subst.
  destruct Hc1 as [Hr _]. split; [done|].
  intros v [= <-]. reflexivity.
Qed.

Lemma currentSize_coherent st :
  cacheCoherent f st ->
  (currentSize f st).1 = realizedBalanceFormula f st /\
  cacheCoherent f (currentSize f st).2.
Proof.
  intros Hc. unfold currentSize.
  destruct (cachedCurrentSize (_accountCache st)) as [cached|] eqn:E;
    [|by apply recalcCurrentSize_coherent].
  pose proof (needsRecalculation_coherent st Hc) as Hc1.
  pose proof (needsRecalculation_data f st) as (Hcf & He & Hs).
  destruct (_needsRecalculation f st) as [[] st1]; cbn [fst snd] in *.
  - destruct (recalcCurrentSize_coherent st1 Hc1) as [-> ?].
    split; [by apply formula_data|done].
  - split; [|done]. by apply Hc.
Qed.

Lemma invalidate_coherent st : cacheCoherent f (_invalidateAccountCache st).
Proof. split; intros v; discriminate. Qed.

Lemma call_coherent c st : cacheCoherent f st -> cacheCoherent f (call f c st).
Proof.
  intros Hc. destruct c; simpl.
  - unfold addCashFlowTransaction. apply currentSize_coherent, invalidate_coherent.
  - unfold deleteCashFlowTransaction.
    destruct (findIndex _ _) as [i|]; [|done].
    destruct (_ !! i) as [d|]; [|done].
    cbn [snd]. apply currentSize_coherent, invalidate_coherent.
  - apply invalidate_coherent.
  - unfold updateJournalEntry.
    destruct (findIndex _ _) as [i|]; [|done].
    destruct (_ !! i) as [d|]; [|done]. apply invalidate_coherent.
  - unfold deleteJournalEntry.
    destruct (findIndex _ _) as [i|]; [|done].
    destruct (_ !! i) as [d|]; [|done]. apply invalidate_coherent.
  - by apply realizedPnL_coherent.
  - by apply currentSize_coherent.
Qed.

Lemma calls_coherent cs : forall st,
  cacheCoherent f st -> cacheCoherent f (calls f cs st).
Proof.
  induction cs as [|c cs IH]; intros st Hc; [done|].
  apply IH. by apply call_coherent.
Qed.

Lemma initial_coherent : cacheCoherent f initial.
Proof. split; intros v; discriminate. Qed.

End WithExtractor.
End AccountCacheTheory.

(** X1: after any run of the cache-invalidating mutators (add or delete a
    cash-flow transaction, add, update or delete a journal entry) and of
    reads of the two getters, from a state whose cached values are
    current, a read of currentSize gives starting balance + realized P&L
    + net cash flow and a read of realizedPnL gives the realized P&L of
    the journal as it then is. *)
Theorem getters_current_after_invalidating_calls
  (f : Trade -> Qc) (cs : list AppStateOps.Call) (st : AppState.State) :
  AppStateOps.cacheCoherent f st ->
  let st' := AppStateOps.calls f cs st in
  (AppState.currentSize f st').1 = AppState.realizedBalanceFormula f st' /\
  (AppState.realizedPnL f st').1 = AppState.calculateRealizedPnL f (AppState.entries st').
Proof.
  intros Hc st'.
  pose proof (AccountCacheTheory.calls_coherent f cs st Hc) as Hc'.
  split.
  - by apply AccountCacheTheory.currentSize_coherent.
  - by apply AccountCacheTheory.realizedPnL_coherent.
Qed.

Lemma getters_current_after_invalidating_calls_witness :
  let st' :=
    AppStateOps.calls realized
      [AppStateOps.CallAddEntry sampleWin; AppStateOps.CallReadRealizedPnL;
       AppStateOps.CallAddCashFlow 7 AppState.Deposit (Qc_of_Z 500) "2025-03-05";
       AppStateOps.CallReadCurrentSize; AppStateOps.CallDeleteEntry 2]
      AppState.initial in
  (AppState.currentSize realized st').1 = AppState.realizedBalanceFormula realized st' /\
  (AppState.realizedPnL realized st').1 =
    AppState.calculateRealizedPnL realized (AppState.entries st').
Proof.
  apply (getters_current_after_invalidating_calls realized
           [AppStateOps.CallAddEntry sampleWin; AppStateOps.CallReadRealizedPnL;
            AppStateOps.CallAddCashFlow 7 AppState.Deposit (Qc_of_Z 500) "2025-03-05";
            AppStateOps.CallReadCurrentSize; AppStateOps.CallDeleteEntry 2]
           AppState.initial).
  split; intros v; discriminate.
Defined.

(** ** AppState: cash-flow and journal mutators *)

Module MutatorTheory.
Import AppState AppStateOps.

Lemma findIndex_None_iff {A} (p : A -> bool) (l : list A) :
  findIndex p l = None <-> forall x, x ∈ l -> p x = false.
Proof.
  induction l as [|x l IH]; simpl.
  - split; [intros _ y Hy; by apply elem_of_nil in Hy | done].
  - destruct (p x) eqn:E.
    + split; [discriminate|]. intros H. specialize (H x (list_elem_of_here _ _)). congruence.
    + rewrite fmap_None, IH. split.
      * intros H y Hy. apply elem_of_cons in Hy as [->|Hy]; auto.
      * intros H y Hy. apply H. by right.
Qed.

Lemma findIndex_first {A} (p : A -> bool) (l1 l2 : list A) x :
  p x = true -> (forall y, y ∈ l1 -> p y = false) ->
  findIndex p (l1 ++ x :: l2) = Some (length l1).
Proof.
  intros Hx. induction l1 as [|y l1 IH]; intros H; simpl.
  - by rewrite Hx.
  - rewrite (H y (list_elem_of_here _ _)), IH; [done|].
    intros z Hz. apply H. by right.
Qed.

Lemma findIndex_Some {A} (p : A -> bool) (l : list A) i :
  findIndex p l = Some i ->
  exists l1 x l2, l = l1 ++ x :: l2 /\ length l1 = i /\ p x = true /\
    forall y, y ∈ l1 -> p y = false.
Proof.
  revert i. induction l as [|x l IH]; intros i; simpl; [discriminate|].
  destruct (p x) eqn:E.
  - intros [= <-]. exists [], x, l. repeat split; [done|].
    intros y Hy. by apply elem_of_nil in Hy.
  - intros H. apply fmap_Some in H as (j & Hj & ->).
    destruct (IH j Hj) as (l1 & y & l2 & -> & <- & Hy & Hl1).
    exists (x :: l1), y, l2. repeat split; [done|].
    intros z Hz. apply elem_of_cons in Hz as [->|Hz]; auto.
Qed.

Lemma spliceOne_middle {A} (l1 l2 : list A) x :
  spliceOne (length l1) (l1 ++ x :: l2) = l1 ++ l2.
Proof.
  unfold spliceOne. rewrite take_app_length.
  replace (S (length l1)) with (length (l1 ++ [x])) by (rewrite length_app; simpl; lia).
  by rewrite (cons_middle x l1 l2), (assoc app), drop_app_length.
Qed.

Lemma lookup_middle_length {A} (l1 l2 : list A) x :
  (l1 ++ x :: l2) !! length l1 = Some x.
Proof. by rewrite list_lookup_middle. Qed.

Section WithExtractor.

Variable f : Trade -> Qc.

Lemma addCashFlowTransaction_cashFlow now type amount timestamp st :
  cashFlowOf (addCashFlowTransaction f now type amount timestamp st) =
  {| transactions := mkTx now type amount timestamp :: transactions (cashFlowOf st);
     totalDeposits := match type with
                      | Deposit => totalDeposits (cashFlowOf st) + amount
                      | Withdrawal => totalDeposits (cashFlowOf st)
                      end;
     totalWithdrawals := match type with
                         | Deposit => totalWithdrawals (cashFlowOf st)
                         | Withdrawal => totalWithdrawals (cashFlowOf st) + amount
                         end |}.
Proof.
  unfold addCashFlowTransaction.
  match goal with |- cashFlowOf (currentSize f ?s).2 = _ =>
    by destruct (currentSize_data f s) as (-> & _ & _) end.
Qed.

Lemma addCashFlowTransaction_rest now type amount timestamp st :
  entries (addCashFlowTransaction f now type amount timestamp st) = entries st /\
  startingAccountSize (addCashFlowTransaction f now type amount timestamp st) =
    startingAccountSize st.
Proof.
  unfold addCashFlowTransaction.
  match goal with |- entries (currentSize f ?s).2 = _ /\ _ =>
    by destruct (currentSize_data f s) as (_ & -> & ->) end.
Qed.

(** What deleteCashFlowTransaction does when the first transaction with
    the id is [tx]. *)
Lemma deleteCashFlowTransaction_found txId st l1 tx l2 :
  transactions (cashFlowOf st) = l1 ++ tx :: l2 ->
  tx_id tx = txId -> (forall y, y ∈ l1 -> tx_id y ≠ txId) ->
  (deleteCashFlowTransaction f txId st).1 = Some tx /\
  cashFlowOf (deleteCashFlowTransaction f txId st).2 =
    {| transactions := l1 ++ l2;
       totalDeposits := match tx_type tx with
                        | Deposit => totalDeposits (cashFlowOf st) - tx_amount tx
                        | Withdrawal => totalDeposits (cashFlowOf st)
                        end;
       totalWithdrawals := match tx_type tx with
                           | Deposit => totalWithdrawals (cashFlowOf st)
                           | Withdrawal => totalWithdrawals (cashFlowOf st) - tx_amount tx
                           end |} /\
  entries (deleteCashFlowTransaction f txId st).2 = entries st /\
  startingAccountSize (deleteCashFlowTransaction f txId st).2 = startingAccountSize st.
Proof.
  intros Htx Hid Hl1. unfold deleteCashFlowTransaction.
  rewrite Htx, (findIndex_first _ l1 l2 tx), lookup_middle_length, spliceOne_middle.
  - cbn [fst snd]. split; [done|].
    match goal with |- cashFlowOf (currentSize f ?s).2 = _ /\ _ =>
      by destruct (currentSize_data f s) as (-> & -> & ->) end.
  - by apply N.eqb_eq.
  - intros y Hy. apply N.eqb_neq. by apply Hl1.
Qed.

Lemma deleteCashFlowTransaction_missing txId st :
  (forall tx, tx ∈ transactions (cashFlowOf st) -> tx_id tx ≠ txId) ->
  deleteCashFlowTransaction f txId st = (None, st).
Proof.
  intros H. unfold deleteCashFlowTransaction.
  assert (findIndex (fun tx => (tx_id tx =? txId)%N) (transactions (cashFlowOf st)) = None)
    as ->; [|done].
  apply findIndex_None_iff. intros x Hx. apply N.eqb_neq. by apply H.
Qed.

Lemma deleteCashFlowTransaction_cases txId st :
  deleteCashFlowTransaction f txId st = (None, st) \/
  exists l1 tx l2,
    transactions (cashFlowOf st) = l1 ++ tx :: l2 /\ tx_id tx = txId /\
    (forall y, y ∈ l1 -> tx_id y ≠ txId).
Proof.
  destruct (findIndex (fun tx => (tx_id tx =? txId)%N) (transactions (cashFlowOf st)))
    as [i|] eqn:E.
  - right. apply findIndex_Some in E as (l1 & x & l2 & H1 & _ & Hx & Hl1).
    exists l1, x, l2. split; [done|]. split; [by apply N.eqb_eq|].
    intros y Hy. apply N.eqb_neq. by apply Hl1.
  - left. unfold deleteCashFlowTransaction. by rewrite E.
Qed.

End WithExtractor.
End MutatorTheory.

(** X3: deleting the transaction that addCashFlowTransaction has just
    added returns that transaction and restores the transaction list,
    whatever ids the older transactions have; the entries and the
    starting account size are untouched, the total of the transaction's
    type is the old total plus the amount minus the amount and the other
    total is untouched; a read of currentSize then gives the balance
    formula of the resulting state. *)
Theorem add_then_delete_cashFlow_restores
  (f : Trade -> Qc) (now : N) (type : AppState.TxType) (amount : Qc)
  (timestamp : string) (st : AppState.State) :
  let st1 := AppState.addCashFlowTransaction f now type amount timestamp st in
  let r := AppStateOps.deleteCashFlowTransaction f now st1 in
  r.1 = Some (AppState.mkTx now type amount timestamp) /\
  AppState.transactions (AppState.cashFlowOf r.2) =
    AppState.transactions (AppState.cashFlowOf st) /\
  AppState.totalDeposits (AppState.cashFlowOf r.2) =
    match type with
    | AppState.Deposit => AppState.totalDeposits (AppState.cashFlowOf st) + amount - amount
    | AppState.Withdrawal => AppState.totalDeposits (AppState.cashFlowOf st)
    end /\
  AppState.totalWithdrawals (AppState.cashFlowOf r.2) =
    match type with
    | AppState.Deposit => AppState.totalWithdrawals (AppState.cashFlowOf st)
    | AppState.Withdrawal =>
        AppState.totalWithdrawals (AppState.cashFlowOf st) + amount - amount
    end /\
  AppState.entries r.2 = AppState.entries st /\
  AppState.startingAccountSize r.2 = AppState.startingAccountSize st /\
  (AppState.currentSize f r.2).1 = AppState.realizedBalanceFormula f r.2.
Proof.
  intros st1 r.
  pose proof (MutatorTheory.addCashFlowTransaction_cashFlow f now type amount timestamp st)
    as Hcf.
  destruct (MutatorTheory.addCashFlowTransaction_rest f now type amount timestamp st)
    as [He Hs].
  fold st1 in Hcf, He, Hs.
  destruct (MutatorTheory.deleteCashFlowTransaction_found f now st1 []
              (AppState.mkTx now type amount timestamp)
              (AppState.transactions (AppState.cashFlowOf st)))
    as (H1 & H2 & H3 & H4).
  { by rewrite Hcf. }
  { done. }
  { intros y Hy. by apply elem_of_nil in Hy. }
  fold r in H1, H2, H3, H4.
  split; [done|]. rewrite H2, Hcf. cbn.
  split; [done|]. split; [by destruct type|]. split; [by destruct type|].
  split; [congruence|]. split; [congruence|].
  assert (AppStateOps.cacheCoherent f r.2) as Hc.
  { subst r st1.
    apply (AccountCacheTheory.call_coherent f (AppStateOps.CallDeleteCashFlow now)).
    apply (AccountCacheTheory.call_coherent f
             (AppStateOps.CallAddCashFlow now type amount timestamp)
             (AppState._invalidateAccountCache st)).
    apply AccountCacheTheory.invalidate_coherent. }
  by destruct (AccountCacheTheory.currentSize_coherent f r.2 Hc) as [-> _].
Qed.

(** X4: deleteCashFlowTransaction returns null and leaves the state
    untouched exactly when no transaction has the id; otherwise it returns
    the first transaction with the id, removes that one occurrence and
    keeps the order of the others, subtracts the amount from the total of
    the transaction's type and leaves the other total, the entries and
    the starting account size as they were. *)
Theorem deleteCashFlowTransaction_effect
  (f : Trade -> Qc) (txId : N) (st : AppState.State) :
  let r := AppStateOps.deleteCashFlowTransaction f txId st in
  match r.1 with
  | None =>
      (forall tx, tx ∈ AppState.transactions (AppState.cashFlowOf st) ->
                  AppState.tx_id tx ≠ txId) /\ r.2 = st
  | Some tx =>
      AppState.tx_id tx = txId /\
      exists l1 l2,
        AppState.transactions (AppState.cashFlowOf st) = l1 ++ tx :: l2 /\
        (forall y, y ∈ l1 -> AppState.tx_id y ≠ txId) /\
        AppState.transactions (AppState.cashFlowOf r.2) = l1 ++ l2 /\
        AppState.totalDeposits (AppState.cashFlowOf r.2) =
          match AppState.tx_type tx with
          | AppState.Deposit =>
              AppState.totalDeposits (AppState.cashFlowOf st) - AppState.tx_amount tx
          | AppState.Withdrawal => AppState.totalDeposits (AppState.cashFlowOf st)
          end /\
        AppState.totalWithdrawals (AppState.cashFlowOf r.2) =
          match AppState.tx_type tx with
          | AppState.Deposit => AppState.totalWithdrawals (AppState.cashFlowOf st)
          | AppState.Withdrawal =>
              AppState.totalWithdrawals (AppState.cashFlowOf st) - AppState.tx_amount tx
          end /\
        AppState.entries r.2 = AppState.entries st /\
        AppState.startingAccountSize r.2 = AppState.startingAccountSize st
  end.
Proof.
  intros r.
  destruct (AppStateOps.findIndex (fun tx => (AppState.tx_id tx =? txId)%N)
              (AppState.transactions (AppState.cashFlowOf st))) as [i|] eqn:E.
  - apply MutatorTheory.findIndex_Some in E as (l1 & x & l2 & H1 & _ & Hx & Hl1).
    apply N.eqb_eq in Hx.
    assert (forall y, y ∈ l1 -> AppState.tx_id y ≠ txId) as Hl1'.
    { intros y Hy. apply N.eqb_neq. by apply Hl1. }
    destruct (MutatorTheory.deleteCashFlowTransaction_found f txId st l1 x l2 H1 Hx Hl1')
      as (Hr & Hcf & He & Hs).
    fold r in Hr, Hcf, He, Hs. rewrite Hr. split; [done|].
    exists l1, l2. rewrite Hcf. cbn. by repeat split.
  - pose proof (proj1 (MutatorTheory.findIndex_None_iff _ _) E) as E'.
    assert (forall tx, tx ∈ AppState.transactions (AppState.cashFlowOf st) ->
                       AppState.tx_id tx ≠ txId) as Hno.
    { intros tx Htx. apply N.eqb_neq. by apply E'. }
    subst r. rewrite (MutatorTheory.deleteCashFlowTransaction_missing f txId st Hno).
    done.
Qed.

Module JournalTheory.
Import AppState AppStateOps.

Section WithExtractor.

Variable f : Trade -> Qc.

Lemma fold_realized_shift (l : list Trade) (a : Qc) :
  fold_left (fun sum t => sum + f t) l a = a + fold_left (fun sum t => sum + f t) l 0.
Proof.
  revert a. induction l as [|t l IH]; intros a; simpl.
  - ring.
  - rewrite (IH (a + f t)), (IH (0 + f t)). ring.
Qed.

Lemma calculateRealizedPnL_app (l1 l2 : list Trade) :
  calculateRealizedPnL f (l1 ++ l2) =
  calculateRealizedPnL f l1 + calculateRealizedPnL f l2.
Proof.
  unfold calculateRealizedPnL.
  rewrite List.filter_app, fold_left_app. apply fold_realized_shift.
Qed.

Lemma calculateRealizedPnL_cons (t : Trade) (l : list Trade) :
  calculateRealizedPnL f (t :: l) =
  (if isClosedOrTrimmed t then f t else 0) + calculateRealizedPnL f l.
Proof.
  unfold calculateRealizedPnL. simpl. destruct (isClosedOrTrimmed t); simpl.
  - rewrite fold_realized_shift. ring.
  - ring.
Qed.

Lemma insert_middle {A} (l1 l2 : list A) x y :
  <[length l1 := y]> (l1 ++ x :: l2) = l1 ++ y :: l2.
Proof.
  rewrite insert_app_r_alt by lia. by rewrite Nat.sub_diag.
Qed.

End WithExtractor.
End JournalTheory.

(** X5: updateJournalEntry returns undefined and leaves the state
    untouched exactly when no entry has the id; otherwise only the first
    entry with the id is overwritten with the update's fields, the number
    and order of the entries are kept, and the next read of realizedPnL
    is the realized P&L of the updated journal. *)
Theorem updateJournalEntry_effect
  (f : Trade -> Qc) (entryId : N) (updates : AppStateOps.TradeUpdate)
  (st : AppState.State) :
  let r := AppStateOps.updateJournalEntry entryId updates st in
  match r.1 with
  | None =>
      (forall e, e ∈ AppState.entries st -> id e ≠ entryId) /\ r.2 = st
  | Some e' =>
      exists l1 e l2,
        AppState.entries st = l1 ++ e :: l2 /\ id e = entryId /\
        (forall y, y ∈ l1 -> id y ≠ entryId) /\
        e' = AppStateOps.assign e updates /\
        AppState.entries r.2 = l1 ++ e' :: l2 /\
        (AppState.realizedPnL f r.2).1 =
          AppState.calculateRealizedPnL f (l1 ++ e' :: l2)
  end.
Proof.
  intros r. subst r. unfold AppStateOps.updateJournalEntry.
  destruct (AppStateOps.findIndex (fun e => (id e =? entryId)%N) (AppState.entries st))
    as [i|] eqn:E.
  - apply MutatorTheory.findIndex_Some in E as (l1 & x & l2 & H1 & <- & Hx & Hl1).
    rewrite H1, MutatorTheory.lookup_middle_length. cbn [fst snd].
    exists l1, x, l2. split; [done|]. split; [by apply N.eqb_eq|].
    split; [intros y Hy; apply N.eqb_neq; by apply Hl1|]. split; [done|].
    rewrite JournalTheory.insert_middle. split; [done|].
    match goal with |- (AppState.realizedPnL f ?s).1 = _ =>
      destruct (AccountCacheTheory.realizedPnL_coherent f s
                  (AccountCacheTheory.invalidate_coherent f _)) as [-> _] end.
    done.
  - cbn [fst snd]. split; [|done].
    pose proof (proj1 (MutatorTheory.findIndex_None_iff _ _) E) as E'.
    intros e He. apply N.eqb_neq. by apply E'.
Qed.


(** ** Order on date strings *)

Module StringOrder.

Lemma ascii_compare_refl (a : ascii) : Ascii.compare a a = Eq.
Proof. unfold Ascii.compare. apply N.compare_refl. Qed.

Lemma ascii_compare_lt_trans (a b c : ascii) :
  Ascii.compare a b = Lt -> Ascii.compare b c = Lt -> Ascii.compare a c = Lt.
Proof.
  unfold Ascii.compare. rewrite !N.compare_lt_iff. lia.
Qed.

Lemma compare_refl (s : string) : String.compare s s = Eq.
Proof. induction s as [|a s IH]; simpl; [done|]. by rewrite ascii_compare_refl. Qed.

Lemma compare_lt_trans (s1 : string) : forall s2 s3,
  String.compare s1 s2 = Lt -> String.compare s2 s3 = Lt -> String.compare s1 s3 = Lt.
Proof.
  induction s1 as [|a s1 IH]; intros [|b s2] [|c s3]; simpl; try done.
  destruct (Ascii.compare a b) eqn:E1; try done;
    destruct (Ascii.compare b c) eqn:E2; try done; intros H1 H2.
  - apply Ascii.compare_eq_iff in E1, E2. subst.
    rewrite ascii_compare_refl. by apply (IH s2).
  - apply Ascii.compare_eq_iff in E1. subst. by rewrite E2.
  - apply Ascii.compare_eq_iff in E2. subst. by rewrite E1.
  - by rewrite (ascii_compare_lt_trans a b c).
Qed.

Lemma leb_refl (s : string) : String.leb s s = true.
Proof. unfold String.leb. by rewrite compare_refl. Qed.

Lemma leb_trans (s1 s2 s3 : string) :
  String.leb s1 s2 = true -> String.leb s2 s3 = true -> String.leb s1 s3 = true.
Proof.
  unfold String.leb.
  destruct (String.compare s1 s2) eqn:E1; try done;
    destruct (String.compare s2 s3) eqn:E2; try done; intros _ _.
  - apply String.compare_eq_iff in E1, E2. subst. by rewrite compare_refl.
  - apply String.compare_eq_iff in E1. subst. by rewrite E2.
  - apply String.compare_eq_iff in E2. subst. by rewrite E1.
  - by rewrite (compare_lt_trans s1 s2 s3).
Qed.

(** [a < b] is the negation of [b <= a]. *)
Lemma ltb_negb_leb (s1 s2 : string) : String.ltb s1 s2 = negb (String.leb s2 s1).
Proof.
  unfold String.ltb, String.leb. rewrite (String.compare_antisym s1 s2).
  by destruct (String.compare s2 s1).
Qed.

Lemma leb_both (s1 s2 : string) :
  String.leb s1 s2 && String.leb s2 s1 = String.eqb s1 s2.
Proof.
  destruct (String.eqb_spec s1 s2) as [->|Hne].
  - by rewrite leb_refl.
  - destruct (String.leb s1 s2) eqn:E1, (String.leb s2 s1) eqn:E2; try done.
    destruct Hne. by apply String.leb_antisym.
Qed.

End StringOrder.

(** ** cashFlowUtils *)

Module CashFlowTheory.
Import AppState cashFlowUtils.

Lemma fold_signed_from (txs : list Transaction) (a : Qc) :
  fold_left (fun sum txn => sum + signedAmount txn) txs a =
  a + fold_left (fun sum txn => sum + signedAmount txn) txs 0.
Proof.
  revert a. induction txs as [|t l IH]; intros a; simpl.
  - ring.
  - rewrite (IH (a + _)), (IH (0 + _)). ring.
Qed.

Lemma sumKept_cons p tx txs :
  sumKept p (tx :: txs) = (if p tx then signedAmount tx else 0) + sumKept p txs.
Proof.
  unfold sumKept. simpl. destruct (p tx); simpl.
  - rewrite fold_signed_from. ring.
  - ring.
Qed.

Lemma sumKept_ext p q txs :
  (forall tx, tx ∈ txs -> p tx = q tx) -> sumKept p txs = sumKept q txs.
Proof.
  induction txs as [|tx txs IH]; intros H; [done|].
  rewrite !sumKept_cons, (H tx (list_elem_of_here _ _)), IH; [done|].
  intros y Hy. apply H. by right.
Qed.

Section WithDateParser.

Variable formattedDateOf : string -> string.

Local Abbreviation upTo := (getCashFlowUpToDate formattedDateOf).
Local Abbreviation onDay := (getCashFlowOnDate formattedDateOf).
Local Abbreviation within := (getCashFlowInRange formattedDateOf).

Lemma getCashFlowUpToDate_sumKept txs d :
  upTo txs d = sumKept (upToDate formattedDateOf d) txs.
Proof. unfold getCashFlowUpToDate. by destruct txs. Qed.

Lemma getCashFlowOnDate_sumKept txs d :
  onDay txs d = sumKept (onDate formattedDateOf d) txs.
Proof. unfold getCashFlowOnDate. by destruct txs. Qed.

Lemma getCashFlowInRange_sumKept txs d1 d2 :
  within txs d1 d2 = sumKept (inRange formattedDateOf d1 d2) txs.
Proof. unfold getCashFlowInRange. by destruct txs. Qed.

End WithDateParser.
End CashFlowTheory.

(** X8: a range whose two ends are the same non-empty date is that date:
    getCashFlowInRange(txs, d, d) is getCashFlowOnDate(txs, d). *)
Theorem cashFlow_single_day_range
  (formattedDateOf : string -> string) (txs : list AppState.Transaction) (d : string) :
  d <> ""%string ->
  cashFlowUtils.getCashFlowInRange formattedDateOf txs d d =
  cashFlowUtils.getCashFlowOnDate formattedDateOf txs d.
Proof.
  intros Hne.
  rewrite CashFlowTheory.getCashFlowInRange_sumKept,
    CashFlowTheory.getCashFlowOnDate_sumKept.
  apply CashFlowTheory.sumKept_ext. intros tx _.
  unfold cashFlowUtils.inRange, cashFlowUtils.onDate.
  destruct (cashFlowUtils.getTransactionDateString formattedDateOf tx) as [s|]; [|done].
  rewrite <- andb_assoc, (andb_comm (String.leb d s)), StringOrder.leb_both.
  destruct (String.eqb_spec s d) as [->|_]; [|by rewrite andb_false_r].
  destruct (String.eqb_spec d "") as [?|_]; done.
Qed.

Lemma cashFlow_single_day_range_witness :
  cashFlowUtils.getCashFlowInRange (fun _ => "2025-01-01")
    [AppState.mkTx 2 AppState.Withdrawal (Qc_of_Z 30) "2025-03-05T09:30:00.000Z";
     AppState.mkTx 1 AppState.Deposit (Qc_of_Z 500) "2025-03-01"]
    "2025-03-05" "2025-03-05" =
  cashFlowUtils.getCashFlowOnDate (fun _ => "2025-01-01")
    [AppState.mkTx 2 AppState.Withdrawal (Qc_of_Z 30) "2025-03-05T09:30:00.000Z";
     AppState.mkTx 1 AppState.Deposit (Qc_of_Z 500) "2025-03-01"]
    "2025-03-05".
Proof.
  apply (cashFlow_single_day_range (fun _ => "2025-01-01")
           [AppState.mkTx 2 AppState.Withdrawal (Qc_of_Z 30) "2025-03-05T09:30:00.000Z";
            AppState.mkTx 1 AppState.Deposit (Qc_of_Z 500) "2025-03-01"]
           "2025-03-05").
  discriminate.
Defined.

(** X9: for a timestamp that starts with a YYYY-MM-DD date (an ISO
    timestamp, or a bare date) the date string is its first ten
    characters, whatever follows them and whatever the Date parser would
    make of it; the result is a fixed point of the function. *)
Theorem dateString_of_ymd_timestamp
  (formattedDateOf : string -> string) (timestamp : string) :
  cashFlowUtils.matchesYMD timestamp = true ->
  exists d rest,
    timestamp = d +:+ rest /\ String.length d = 10%nat /\
    cashFlowUtils.getDateStringFromTimestamp formattedDateOf timestamp = Some d /\
    cashFlowUtils.getDateStringFromTimestamp formattedDateOf d = Some d.
Proof.
  intros H.
  destruct timestamp as [|c1 [|c2 [|c3 [|c4 [|c5 [|c6 [|c7 [|c8 [|c9 [|c10 rest]]]]]]]]]];
    try discriminate H.
  exists (String c1 (String c2 (String c3 (String c4 (String c5
            (String c6 (String c7 (String c8 (String c9 (String c10 "")))))))))), rest.
  split; [done|]. split; [done|].
  unfold cashFlowUtils.getDateStringFromTimestamp.
  split.
  - rewrite H. simpl. by destruct rest.
  - cbn [cashFlowUtils.matchesYMD] in H |- *. rewrite H. reflexivity.
Qed.

Lemma dateString_of_ymd_timestamp_witness :
  exists d rest,
    "2025-03-05T14:30:00.000Z"%string = d +:+ rest /\ String.length d = 10%nat /\
    cashFlowUtils.getDateStringFromTimestamp (fun _ => "1970-01-01")
      "2025-03-05T14:30:00.000Z" = Some d /\
    cashFlowUtils.getDateStringFromTimestamp (fun _ => "1970-01-01") d = Some d.
Proof.
  apply (dateString_of_ymd_timestamp (fun _ => "1970-01-01") "2025-03-05T14:30:00.000Z").
  reflexivity.
Defined.

(** ** StatsCalculator: net cash flow of a date range *)

Module CashFlowStatsTheory.
Import AppState.

Section WithLocalDate.

Variable txDateStr : Transaction -> string.

(** The refactored loop sets its flag to false on [<] and [>] where the
    straight-line filter keeps on [>=] and [<=]. *)
Lemma inRange_versions dateFrom dateTo tx :
  StatsCalculatorRefactoredCashFlow.inRange txDateStr dateFrom dateTo tx =
  StatsCalculatorCashFlow.inRange txDateStr dateFrom dateTo tx.
Proof.
  unfold StatsCalculatorCashFlow.inRange, StatsCalculatorRefactoredCashFlow.inRange.
  cbv zeta. rewrite !StringOrder.ltb_negb_leb.
  destruct (given dateFrom), (given dateTo); simpl;
    repeat match goal with |- context [String.leb ?a ?b] => destruct (String.leb a b) end;
    reflexivity.
Qed.

Local Abbreviation amounts :=
  (fold_left (fun (sum : Qc) (tx : Transaction) => sum + tx_amount tx)).

(** The loop adds the amounts of the deposits and of the withdrawals it
    keeps, each in the order of the list. *)
Lemma breakdown_fold dateFrom dateTo (txs : list Transaction) : forall d w,
  fold_left (StatsCalculatorRefactoredCashFlow.breakdownStep txDateStr dateFrom dateTo)
    txs (d, w) =
  (amounts
     (List.filter AppStateOps.isDeposit
        (List.filter (StatsCalculatorCashFlow.inRange txDateStr dateFrom dateTo) txs)) d,
   amounts
     (List.filter AppStateOps.isWithdrawal
        (List.filter (StatsCalculatorCashFlow.inRange txDateStr dateFrom dateTo) txs)) w).
Proof.
  induction txs as [|tx txs IH]; intros d w; [done|].
  cbn [fold_left List.filter].
  unfold StatsCalculatorRefactoredCashFlow.breakdownStep at 2.
  rewrite inRange_versions.
  destruct (StatsCalculatorCashFlow.inRange txDateStr dateFrom dateTo tx); [|apply IH].
  cbn [List.filter]. unfold AppStateOps.isDeposit, AppStateOps.isWithdrawal.
  destruct (tx_type tx); cbn [fst snd fold_left]; apply IH.
Qed.

End WithLocalDate.
End CashFlowStatsTheory.

(** X10: the two StatsCalculator classes keep the same transactions for
    every pair of date bounds: the flag of the refactored loop is the
    test of the straight-line filter.  Without bounds both return
    getCashFlowNet; with a bound the straight-line class adds the signed
    amounts of the kept transactions in the order of the list, and the
    refactored one returns as deposits and withdrawals the amounts of the
    kept deposits and of the kept withdrawals, added in the order of the
    list, and as net their difference. *)
Theorem cashFlow_versions_keep_same_transactions
  (txDateStr : AppState.Transaction -> string) (st : AppState.State)
  (dateFrom dateTo : option string) :
  let kept :=
    List.filter (StatsCalculatorCashFlow.inRange txDateStr dateFrom dateTo)
      (AppState.transactions (AppState.cashFlowOf st)) in
  let amounts := fold_left (fun sum tx => sum + AppState.tx_amount tx) in
  let b := StatsCalculatorRefactoredCashFlow.calculateCashFlowBreakdown
             txDateStr st dateFrom dateTo in
  (forall tx,
     StatsCalculatorRefactoredCashFlow.inRange txDateStr dateFrom dateTo tx =
     StatsCalculatorCashFlow.inRange txDateStr dateFrom dateTo tx) /\
  (given dateFrom = false -> given dateTo = false ->
   StatsCalculatorCashFlow.calculateNetCashFlow txDateStr st dateFrom dateTo =
     AppState.getCashFlowNet st /\
   StatsCalculatorRefactoredCashFlow.calculateNetCashFlow txDateStr st dateFrom dateTo =
     AppState.getCashFlowNet st) /\
  (given dateFrom = true \/ given dateTo = true ->
   StatsCalculatorCashFlow.calculateNetCashFlow txDateStr st dateFrom dateTo =
     fold_left (fun sum tx => sum + match AppState.tx_type tx with
                                    | AppState.Deposit => AppState.tx_amount tx
                                    | AppState.Withdrawal => - AppState.tx_amount tx
                                    end) kept 0 /\
   StatsCalculatorRefactoredCashFlow.deposits b =
     amounts (List.filter AppStateOps.isDeposit kept) 0 /\
   StatsCalculatorRefactoredCashFlow.withdrawals b =
     amounts (List.filter AppStateOps.isWithdrawal kept) 0 /\
   StatsCalculatorRefactoredCashFlow.calculateNetCashFlow txDateStr st dateFrom dateTo =
     StatsCalculatorRefactoredCashFlow.deposits b
     - StatsCalculatorRefactoredCashFlow.withdrawals b).
Proof.
  intros kept amounts b.
  split; [apply CashFlowStatsTheory.inRange_versions|].
  subst b kept.
  unfold StatsCalculatorCashFlow.calculateNetCashFlow,
    StatsCalculatorRefactoredCashFlow.calculateNetCashFlow,
    StatsCalculatorRefactoredCashFlow.calculateCashFlowBreakdown.
  split.
  - by intros -> ->.
  - intros H.
    assert (negb (given dateFrom) && negb (given dateTo) = false) as ->.
    { destruct H as [-> | ->]; [done|by rewrite andb_false_r]. }
    rewrite CashFlowStatsTheory.breakdown_fold. by cbn.
Qed.

Lemma cashFlow_versions_keep_same_transactions_witness :
  let st := AppState.addCashFlowTransaction realized 8 AppState.Withdrawal
              (Qc_of_Z 200) "2025-03-06"
              (AppState.addCashFlowTransaction realized 7 AppState.Deposit
                 (Qc_of_Z 500) "2025-03-05" AppState.initial) in
  let b := StatsCalculatorRefactoredCashFlow.calculateCashFlowBreakdown
             AppState.tx_timestamp st (Some "2025-03-06"%string) None in
  StatsCalculatorRefactoredCashFlow.deposits b = 0 /\
  StatsCalculatorRefactoredCashFlow.withdrawals b = 0 + Qc_of_Z 200.
Proof.
  intros st b.
  destruct (cashFlow_versions_keep_same_transactions AppState.tx_timestamp st
              (Some "2025-03-06"%string) None) as (_ & _ & H).
  destruct H as (_ & Hd & Hw & _); [by left|].
  split; [exact Hd | exact Hw].
Defined.

(** ** IncrementalStatsCalculator: reads of the cache *)

Module AccessorTheory.
Import IncrementalStatsCalculator IncrementalStatsAccessors.

Lemma isCacheValid_checksum cache l1 l2 :
  _calculateTradeChecksum l1 = _calculateTradeChecksum l2 ->
  _isCacheValid cache l1 = _isCacheValid cache l2.
Proof. unfold _isCacheValid. by intros ->. Qed.

Lemma isCacheValid_count0 c trades :
  tradeCount c = 0%nat -> _isCacheValid (Some c) trades = false.
Proof. unfold _isCacheValid. by intros ->. Qed.

(** A cache that holds the count and the checksum of a non-empty list is
    valid for it. *)
Lemma isCacheValid_holds c trades :
  trades ≠ [] -> tradeCount c = length trades ->
  tradeChecksum c = Some (_calculateTradeChecksum trades) ->
  _isCacheValid (Some c) trades = true.
Proof.
  intros Hne Hn Hs. unfold _isCacheValid. rewrite Hn, Hs.
  destruct trades; [done|]. simpl. apply String.eqb_refl.
Qed.

(** Both StatsCalculator classes of stats.js lack calculateAverageWin. *)
Lemma superStats_src f trades :
  superStats (StatsCalculatorParent f) trades = None /\
  superStats (StatsCalculatorRefactoredParent f) trades = None.
Proof. by split. Qed.

End AccessorTheory.

(** X12: when the cache holds the count and the checksum of a non-empty
    trade list, every overriding method returns the cached field for any
    list with the same ids, in any order and whatever the other fields of
    its trades are, without calling the parent (so also where the parent
    does not define the method), and calculateAndCacheStats returns the
    cache as it is: a change of P&L without a change of id is served
    from the cache. *)
Theorem cached_stats_served_for_same_ids
  (parent : IncrementalStatsCalculator.Parent)
  (c : IncrementalStatsCalculator.StatsCache) (trades trades' : list Trade) :
  trades ≠ [] ->
  IncrementalStatsCalculator.tradeCount c = length trades ->
  IncrementalStatsCalculator.tradeChecksum c =
    Some (IncrementalStatsCalculator._calculateTradeChecksum trades) ->
  map id trades ≡ₚ map id trades' ->
  (forall X (field : IncrementalStatsCalculator.CachedStats -> X)
          (method : option (list Trade -> X)),
     IncrementalStatsAccessors.cachedOr field method (Some c) trades' =
     Some (field (IncrementalStatsCalculator.stats c))) /\
  IncrementalStatsAccessors.calculateWinRate parent (Some c) trades' =
    Some (IncrementalStatsCalculator.cs_winRate (IncrementalStatsCalculator.stats c)) /\
  IncrementalStatsAccessors.calculateAverageWin parent (Some c) trades' =
    Some (IncrementalStatsCalculator.cs_avgWin (IncrementalStatsCalculator.stats c)) /\
  IncrementalStatsCalculator.calculateAndCacheStats parent (Some c) trades' = Some c /\
  IncrementalStatsCalculator.cacheAfter parent (Some c) trades' = Some c /\
  IncrementalStatsAccessors.getCachedStats (Some c) = Some c.
Proof.
  intros Hne Hn Hs Hp.
  assert (IncrementalStatsCalculator._isCacheValid (Some c) trades' = true) as Hv.
  { rewrite <- (AccessorTheory.isCacheValid_checksum (Some c) trades trades')
      by (by apply ChecksumTheory.checksum_ids_permutation).
    by apply AccessorTheory.isCacheValid_holds. }
  assert (forall X (field : IncrementalStatsCalculator.CachedStats -> X)
                 (method : option (list Trade -> X)),
            IncrementalStatsAccessors.cachedOr field method (Some c) trades' =
            Some (field (IncrementalStatsCalculator.stats c))) as Hall.
  { intros X field method. unfold IncrementalStatsAccessors.cachedOr. by rewrite Hv. }
  assert (IncrementalStatsCalculator.calculateAndCacheStats parent (Some c) trades'
          = Some c) as Hret.
  { unfold IncrementalStatsCalculator.calculateAndCacheStats. by rewrite Hv. }
  split; [done|]. split; [apply Hall|]. split; [apply Hall|]. split; [done|].
  split; [unfold IncrementalStatsCalculator.cacheAfter; by rewrite Hret|].
  unfold IncrementalStatsAccessors.getCachedStats. rewrite Hn.
  destruct trades; done.
Qed.

Lemma cached_stats_served_for_same_ids_witness :
  let c :=
    IncrementalStatsCalculator.mkStatsCache 1 (Some "1:2"%string)
      (IncrementalStatsCalculator.mkCachedStats (Some (Qc_of_Z 100))
         {| wl_wins := 1; wl_losses := 0; wl_total := 1 |}
         (Some (Qc_of_Z 100)) None None (Some (Qc_of_Z 100)) (Some (Qc_of_Z 100))
         None None)
      [2%N] in
  IncrementalStatsAccessors.calculateWinRate
    (IncrementalStatsCalculator.StatsCalculatorParent realized) (Some c)
    [mkTrade 2 StClosed (Qc_of_Z (-75))] = Some (Some (Qc_of_Z 100)) /\
  IncrementalStatsAccessors.calculateAverageWin
    (IncrementalStatsCalculator.StatsCalculatorParent realized) (Some c)
    [mkTrade 2 StClosed (Qc_of_Z (-75))] = Some (Some (Qc_of_Z 100)).
Proof.
  intros c.
  destruct (cached_stats_served_for_same_ids
              (IncrementalStatsCalculator.StatsCalculatorParent realized) c
              [sampleWin] [mkTrade 2 StClosed (Qc_of_Z (-75))])
    as (_ & H1 & H2 & _).
  - discriminate.
  - reflexivity.
  - reflexivity.
  - reflexivity.
  - split; [exact H1|exact H2].
Defined.

(** X13: a cache whose tradeCount is 0, as invalidateCache leaves it, is
    never used: getCachedStats is null, the cache is valid for no trade
    list (the empty one included), every overriding method is the call
    of the parent's method (a TypeError where the parent does not define
    it) and calculateAndCacheStats calls the parent afresh.  With either
    StatsCalculator class of stats.js as parent that call ends in the
    TypeError of the missing calculateAverageWin and the cache stays as
    it was. *)
Theorem empty_cache_never_used
  (parent : IncrementalStatsCalculator.Parent)
  (f : Trade -> Qc)
  (c : IncrementalStatsCalculator.StatsCache) (trades : list Trade) :
  IncrementalStatsCalculator.tradeCount c = 0%nat ->
  IncrementalStatsAccessors.getCachedStats (Some c) = None /\
  IncrementalStatsCalculator._isCacheValid (Some c) trades = false /\
  (forall X (field : IncrementalStatsCalculator.CachedStats -> X)
          (method : option (list Trade -> X)),
     IncrementalStatsAccessors.cachedOr field method (Some c) trades =
     IncrementalStatsCalculator.callSuper method trades) /\
  IncrementalStatsCalculator.stats <$>
    IncrementalStatsCalculator.calculateAndCacheStats parent (Some c) trades
    = IncrementalStatsCalculator.superStats parent trades /\
  IncrementalStatsCalculator.calculateAndCacheStats
    (IncrementalStatsCalculator.StatsCalculatorParent f) (Some c) trades = None /\
  IncrementalStatsCalculator.calculateAndCacheStats
    (IncrementalStatsCalculator.StatsCalculatorRefactoredParent f) (Some c) trades
    = None /\
  IncrementalStatsCalculator.cacheAfter
    (IncrementalStatsCalculator.StatsCalculatorParent f) (Some c) trades = Some c /\
  IncrementalStatsCalculator.cacheAfter
    (IncrementalStatsCalculator.StatsCalculatorRefactoredParent f) (Some c) trades
    = Some c /\
  IncrementalStatsCalculator.tradeCount IncrementalStatsCalculator.invalidateCache = 0%nat.
Proof.
  intros H0.
  pose proof (AccessorTheory.isCacheValid_count0 c trades H0) as Hv.
  split; [unfold IncrementalStatsAccessors.getCachedStats; by rewrite H0|].
  split; [done|].
  split; [intros X field method; unfold IncrementalStatsAccessors.cachedOr; by rewrite Hv|].
  unfold IncrementalStatsCalculator.cacheAfter,
    IncrementalStatsCalculator.calculateAndCacheStats.
  rewrite Hv.
  destruct (AccessorTheory.superStats_src f trades) as [-> ->].
  split; [by destruct (IncrementalStatsCalculator.superStats parent trades)|].
  done.
Qed.

Lemma empty_cache_never_used_witness :
  IncrementalStatsAccessors.getCachedStats
    (Some IncrementalStatsCalculator.invalidateCache) = None /\
  IncrementalStatsCalculator.calculateAndCacheStats
    (IncrementalStatsCalculator.StatsCalculatorParent realized)
    (Some IncrementalStatsCalculator.invalidateCache) [sampleWin; sampleLoss] = None.
Proof.
  destruct (empty_cache_never_used
              (IncrementalStatsCalculator.StatsCalculatorParent realized) realized
              IncrementalStatsCalculator.invalidateCache [sampleWin; sampleLoss])
    as (H1 & _ & _ & _ & H2 & _).
  - reflexivity.
  - by split.
Defined.

(** ** PnLCalendar: month navigation *)

(** X14: for a year from 1970 on and the month index in 0..11,
    handleNextMonth and handlePrevMonth are inverse to each other and
    keep the index in 0..11; the first day of the month shown after
    handleNextMonth is the day after the last day of the month shown
    before, and the first day of the month shown before handlePrevMonth
    is the day after the last day of the month it shows. *)
Theorem month_navigation_round_trip (v : PnLCalendarNav.View) :
  (1970 <= PnLCalendarNav.currentYear v)%Z ->
  (0 <= PnLCalendarNav.currentMonth v <= 11)%Z ->
  let next := PnLCalendarNav.handleNextMonth v in
  let prev := PnLCalendarNav.handlePrevMonth v in
  let firstOf w :=
    JsDate.mkDate (PnLCalendarNav.currentYear w) (PnLCalendarNav.currentMonth w) 1 in
  let lengthOf w :=
    JsDate.monthLength
      (12 * PnLCalendarNav.currentYear w + PnLCalendarNav.currentMonth w) in
  PnLCalendarNav.handlePrevMonth next = v /\
  PnLCalendarNav.handleNextMonth prev = v /\
  (0 <= PnLCalendarNav.currentMonth next <= 11)%Z /\
  (0 <= PnLCalendarNav.currentMonth prev <= 11)%Z /\
  (JsDate.toDays (firstOf next) = JsDate.toDays (firstOf v) + lengthOf v)%Z /\
  (JsDate.toDays (firstOf v) = JsDate.toDays (firstOf prev) + lengthOf prev)%Z.
Proof.
  destruct v as [y m]. cbn [PnLCalendarNav.currentMonth]. intros _ Hm.
  unfold PnLCalendarNav.handleNextMonth, PnLCalendarNav.handlePrevMonth.
  cbn [PnLCalendarNav.currentMonth PnLCalendarNav.currentYear]. cbv zeta.
  destruct (Z.eqb_spec m 11) as [E11|N11]; destruct (Z.eqb_spec m 0) as [E0|N0];
    try lia;
    cbn [PnLCalendarNav.currentMonth PnLCalendarNav.currentYear];
    repeat match goal with
           | |- context [(?a =? ?b)%Z] => destruct (Z.eqb_spec a b); try lia
           end;
    cbn [PnLCalendarNav.currentMonth PnLCalendarNav.currentYear];
    rewrite !CalendarTheory.toDays_mkDate;
    repeat split; try lia; try (f_equal; lia);
    match goal with
    | |- (JsDate.monthStart ?a + 1 - 1 = JsDate.monthStart ?b + 1 - 1 + _)%Z =>
        replace a with (b + 1)%Z by lia;
        rewrite CalendarTheory.monthStart_succ; lia
    end.
Qed.

Lemma month_navigation_round_trip_witness :
  PnLCalendarNav.handlePrevMonth
    (PnLCalendarNav.handleNextMonth (PnLCalendarNav.mkView 2025 11)) =
  PnLCalendarNav.mkView 2025 11.
Proof.
  destruct (month_navigation_round_trip (PnLCalendarNav.mkView 2025 11)) as (H & _).
  - simpl. lia.
  - simpl. lia.
  - exact H.
Defined.

(** ** tradeUtils *)

Module TradeDatesTheory.
Import tradeUtils.

Lemma uniqueFirst_spec (l : list string) : forall seen,
  NoDup (uniqueFirst seen l) /\
  forall x, x ∈ uniqueFirst seen l <-> x ∈ l /\ x ∉ seen.
Proof.
  induction l as [|y l IH]; intros seen; simpl.
  - split; [constructor|]. intros x. rewrite elem_of_nil. tauto.
  - destruct (existsb (String.eqb y) seen) eqn:E.
    + destruct (IH seen) as [Hnd Hin]. split; [done|].
      intros x. rewrite Hin, elem_of_cons.
      apply existsb_exists in E as (z & Hz & Ez). apply String.eqb_eq in Ez. subst z.
      apply list_elem_of_In in Hz.
      split; [tauto|]. intros [[->|?] ?]; tauto.
    + destruct (IH (y :: seen)) as [Hnd Hin].
      assert (y ∉ seen) as Hy.
      { intros Hy. apply list_elem_of_In in Hy.
        assert (existsb (String.eqb y) seen = true); [|congruence].
        apply existsb_exists. exists y. split; [done|apply String.eqb_refl]. }
      split.
      * constructor; [|done]. rewrite Hin, elem_of_cons. tauto.
      * intros x. rewrite !elem_of_cons, Hin, elem_of_cons.
        split.
        { intros [->|[? ?]]; tauto. }
        { intros [[->|?] ?]; [by left|].
          destruct (decide (x = y)) as [->|?]; [by left|right; tauto]. }
Qed.

Section WithDateParser.

Variable formattedDateOf : string -> string.

Local Abbreviation entryOf := (getTradeEntryDateString formattedDateOf).
Local Abbreviation step := (earliestStep formattedDateOf).

(** The invariant of the reduce of getEarliestTradeDate. *)
Lemma earliest_fold (l : list DatedTrade) : forall acc,
  (forall a, acc = Some a -> a <> ""%string) ->
  match fold_left step l acc with
  | None =>
      acc = None /\
      forall t, t ∈ l -> cashFlowUtils.truthy (entryOf t) = false
  | Some e =>
      e <> ""%string /\
      (acc = Some e \/ exists t, t ∈ l /\ entryOf t = Some e) /\
      (forall a, acc = Some a -> String.leb e a = true) /\
      (forall t d, t ∈ l -> entryOf t = Some d -> d <> ""%string ->
                   String.leb e d = true)
  end.
Proof.
  induction l as [|t l IH]; intros acc Hacc; simpl.
  - destruct acc as [a|].
    + split; [by apply Hacc|]. split; [by left|].
      split; [intros ? [= <-]; apply StringOrder.leb_refl|].
      intros ? ? H. by apply elem_of_nil in H.
    + split; [done|]. intros ? H. by apply elem_of_nil in H.
  - assert (forall a, step acc t = Some a -> a <> ""%string) as Hacc'.
    { unfold earliestStep. intros a.
      destruct (entryOf t) as [d|]; [|by apply Hacc].
      destruct (String.eqb_spec d "") as [->|Hd]; [by apply Hacc|].
      destruct acc as [e|]; [|by intros [= <-]].
      destruct (String.eqb e "" || String.ltb d e); [by intros [= <-]|by apply Hacc]. }
    specialize (IH (step acc t) Hacc').
    destruct (fold_left step l (step acc t)) as [e|].
    + destruct IH as (He & Hfrom & Hle & Hall). split; [done|].
      unfold earliestStep in Hfrom, Hle.
      destruct (entryOf t) as [d|] eqn:Et.
      * destruct (String.eqb_spec d "") as [->|Hd].
        { split; [destruct Hfrom as [?|(u & ? & ?)]; [by left|right; exists u; split; [by right|done]]|].
          split; [done|].
          intros u d' Hu Eu Hd'. apply elem_of_cons in Hu as [->|Hu]; [congruence|eauto]. }
        destruct acc as [a|].
        { pose proof (Hacc a eq_refl) as Ha.
          destruct (String.eqb_spec a "") as [?|_]; [done|]. simpl in Hfrom, Hle.
          destruct (String.ltb d a) eqn:Elt.
          - rewrite StringOrder.ltb_negb_leb in Elt. apply negb_true_iff in Elt.
            pose proof (Hle d eq_refl) as Hed.
            assert (String.leb d a = true) as Hda.
            { destruct (String.leb_total a d) as [?|?]; [congruence|done]. }
            split.
            { destruct Hfrom as [[= <-]|(u & ? & ?)];
                right; [exists t; split; [by left|done]|exists u; split; [by right|done]]. }
            split; [intros ? [= <-]; by eapply StringOrder.leb_trans|].
            intros u d' Hu Eu Hd'. apply elem_of_cons in Hu as [->|Hu]; [|eauto].
            assert (d' = d) as -> by congruence. done.
          - rewrite StringOrder.ltb_negb_leb in Elt. apply negb_false_iff in Elt.
            pose proof (Hle a eq_refl) as Hea.
            split.
            { destruct Hfrom as [?|(u & ? & ?)]; [by left|right; exists u; split; [by right|done]]. }
            split; [done|].
            intros u d' Hu Eu Hd'. apply elem_of_cons in Hu as [->|Hu]; [|eauto].
            assert (d' = d) as -> by congruence.
            by eapply StringOrder.leb_trans. }
        { pose proof (Hle d eq_refl) as Hed.
          split.
          { destruct Hfrom as [[= <-]|(u & ? & ?)];
              right; [exists t; split; [by left|done]|exists u; split; [by right|done]]. }
          split; [done|].
          intros u d' Hu Eu Hd'. apply elem_of_cons in Hu as [->|Hu]; [|eauto].
          assert (d' = d) as -> by congruence. done. }
      * split; [destruct Hfrom as [?|(u & ? & ?)]; [by left|right; exists u; split; [by right|done]]|].
        split; [done|].
        intros u d' Hu Eu Hd'. apply elem_of_cons in Hu as [->|Hu]; [congruence|eauto].
    + destruct IH as [Hnone Hall]. unfold earliestStep in Hnone.
      destruct (entryOf t) as [d|] eqn:Et.
      * destruct (String.eqb_spec d "") as [->|Hd].
        { split; [done|]. intros u Hu. apply elem_of_cons in Hu as [->|Hu]; [|eauto].
          by rewrite Et. }
        destruct acc as [a|]; [|done].
        destruct (String.eqb a "" || String.ltb d a); done.
      * split; [done|]. intros u Hu. apply elem_of_cons in Hu as [->|Hu]; [|eauto].
        by rewrite Et.
Qed.


End WithDateParser.
End TradeDatesTheory.

(** X15: getEarliestTradeDate is null exactly when no trade has an entry
    date; otherwise it is the entry date of one of the trades and no trade
    has an earlier one. *)
Theorem getEarliestTradeDate_minimum
  (formattedDateOf : string -> string) (trades : list tradeUtils.DatedTrade) :
  match tradeUtils.getEarliestTradeDate formattedDateOf trades with
  | None =>
      forall t, t ∈ trades ->
        cashFlowUtils.truthy (tradeUtils.getTradeEntryDateString formattedDateOf t) = false
  | Some e =>
      e <> ""%string /\
      (exists t, t ∈ trades /\
                 tradeUtils.getTradeEntryDateString formattedDateOf t = Some e) /\
      forall t d, t ∈ trades ->
        tradeUtils.getTradeEntryDateString formattedDateOf t = Some d ->
        d <> ""%string -> String.leb e d = true
  end.
Proof.
  unfold tradeUtils.getEarliestTradeDate.
  destruct trades as [|t0 l]; [intros t H; by apply elem_of_nil in H|].
  change (length (t0 :: l) =? 0)%nat with false. cbv iota.
  pose proof (TradeDatesTheory.earliest_fold formattedDateOf (t0 :: l) None) as H.
  destruct (fold_left _ (t0 :: l) None) as [e|].
  - destruct H as (He & Hfrom & _ & Hall); [done|].
    split; [done|]. split; [|done]. by destruct Hfrom as [?|?].
  - by destruct H as [_ H].
Qed.

(** X16: the dates on which a trade is open form an interval: a trade
    open on two dates is open on every date between them in string
    order; and a trade is not open on any date string that is the stored
    exitDate string or comes after it in string order.  The test is made
    on the exitDate string as stored: where it holds a timestamp, the
    date of the exit comes before it in string order and is not among
    these dates. *)
Theorem trade_open_dates_form_interval
  (formattedDateOf : string -> string) (trade : tradeUtils.DatedTrade)
  (d1 d2 d3 : string) :
  (String.leb d1 d2 = true -> String.leb d2 d3 = true ->
   tradeUtils.isTradeOpenOnDate formattedDateOf trade d1 = true ->
   tradeUtils.isTradeOpenOnDate formattedDateOf trade d3 = true ->
   tradeUtils.isTradeOpenOnDate formattedDateOf trade d2 = true) /\
  (forall e, tradeUtils.exitDate trade = Some e -> e <> ""%string ->
             String.leb e d1 = true ->
             tradeUtils.isTradeOpenOnDate formattedDateOf trade d1 = false).
Proof.
  unfold tradeUtils.isTradeOpenOnDate.
  destruct (tradeUtils.getTradeEntryDateString formattedDateOf trade) as [entry|];
    [|split; done].
  destruct (String.eqb entry ""); [split; done|].
  split.
  - intros H12 H23 H1 H3.
    apply andb_true_iff in H1 as [Hin1 _]. apply andb_true_iff in H3 as [_ Hout3].
    rewrite (StringOrder.leb_trans entry d1 d2 Hin1 H12). simpl.
    destruct (tradeUtils.exitDate trade) as [e|]; [|done].
    destruct (String.eqb e ""); [done|]. simpl in *.
    rewrite StringOrder.ltb_negb_leb in *.
    apply negb_true_iff in Hout3. apply negb_true_iff.
    destruct (String.leb e d2) eqn:E; [|done].
    by rewrite (StringOrder.leb_trans e d2 d3 E H23) in Hout3.
  - intros e -> Hne Hle. destruct (String.eqb_spec e "") as [?|_]; [done|]. simpl.
    rewrite StringOrder.ltb_negb_leb, Hle. apply andb_false_r.
Qed.

Lemma trade_open_dates_form_interval_witness :
  tradeUtils.isTradeOpenOnDate (fun _ => "1970-01-01")
    (tradeUtils.mkDatedTrade "2025-03-03T15:00:00.000Z" (Some "2025-03-10") "AAPL")
    "2025-03-05" = true /\
  tradeUtils.isTradeOpenOnDate (fun _ => "1970-01-01")
    (tradeUtils.mkDatedTrade "2025-03-03T15:00:00.000Z" (Some "2025-03-10") "AAPL")
    "2025-03-11" = false.
Proof.
  split.
  - apply (proj1 (trade_open_dates_form_interval (fun _ => "1970-01-01")
             (tradeUtils.mkDatedTrade "2025-03-03T15:00:00.000Z" (Some "2025-03-10") "AAPL")
             "2025-03-03" "2025-03-05" "2025-03-09")); reflexivity.
  - apply (proj2 (trade_open_dates_form_interval (fun _ => "1970-01-01")
             (tradeUtils.mkDatedTrade "2025-03-03T15:00:00.000Z" (Some "2025-03-10") "AAPL")
             "2025-03-11" "2025-03-11" "2025-03-11") "2025-03-10"%string);
      [reflexivity|discriminate|reflexivity].
Defined.

(** With the exitDate stored as a timestamp, as the journal stores it, the
    trade still counts as open on the day of its exit: '2025-03-07' comes
    before '2025-03-07T15:30:00.000Z' in string order. *)
Example isTradeOpenOnDate_timestamp_exit :
  tradeUtils.isTradeOpenOnDate (fun _ => "1970-01-01")
    (tradeUtils.mkDatedTrade "2025-03-03T15:00:00.000Z"
       (Some "2025-03-07T15:30:00.000Z") "AAPL") "2025-03-07" = true.
Proof. reflexivity. Qed.

(** X17: getTickersOpenOnDate lists each ticker once, and a ticker is
    listed exactly when some trade with that ticker is open on the
    date. *)
Theorem getTickersOpenOnDate_unique
  (formattedDateOf : string -> string) (trades : list tradeUtils.DatedTrade)
  (dateStr : string) :
  NoDup (tradeUtils.getTickersOpenOnDate formattedDateOf trades dateStr) /\
  forall x,
    x ∈ tradeUtils.getTickersOpenOnDate formattedDateOf trades dateStr <->
    exists t, t ∈ trades /\
              tradeUtils.isTradeOpenOnDate formattedDateOf t dateStr = true /\
              tradeUtils.ticker t = x.
Proof.
  unfold tradeUtils.getTickersOpenOnDate, tradeUtils.getTradesOpenOnDate.
  destruct (TradeDatesTheory.uniqueFirst_spec
              (map tradeUtils.ticker
                 (List.filter (fun trade =>
                    tradeUtils.isTradeOpenOnDate formattedDateOf trade dateStr) trades)) [])
    as [Hnd Hin].
  split; [done|]. intros x. rewrite Hin. split.
  - intros [Hx _]. apply list_elem_of_In, in_map_iff in Hx as (t & <- & Ht).
    apply filter_In in Ht as [Ht Ho]. exists t. split; [by apply list_elem_of_In|done].
  - intros (t & Ht & Ho & <-). split; [|by apply not_elem_of_nil].
    apply list_elem_of_In, in_map_iff. exists t. split; [done|].
    apply filter_In. split; [by apply list_elem_of_In|done].
Qed.

(** ** The profit factor and the sign of the realized P&L *)

Module ProfitFactorTheory.

(** Order facts on [Qc] are decided on the underlying rationals. *)
Ltac qc2q :=
  unfold Qclt, Qcle, Qcminus, Qcplus, Qcopp, Qcmult, Q2Qc in *; cbn [this] in *;
  repeat match goal with
  | H : context [Qred _] |- _ => setoid_rewrite Qred_correct in H
  | |- context [Qred _] => setoid_rewrite Qred_correct
  end.

Lemma Qc_sign_split (x : Qc) :
  x = (if Qc_gtb x 0 then x else 0) + (if Qc_ltb x 0 then x else 0).
Proof.
  unfold Qc_gtb, Qc_ltb. repeat case_bool_decide; try ring.
  - exfalso. qc2q. lra.
  - assert (x = 0) as ->; [|ring].
    apply Qcle_antisym; by apply Qcnot_lt_le.
Qed.

Section WithExtractor.

Variable f : Trade -> Qc.

Lemma closed_sum_split (trades : list Trade) :
  sumIf isClosedOrTrimmed f trades = winTotal f trades + lossTotal f trades.
Proof.
  unfold winTotal, lossTotal. induction trades as [|t l IH]; simpl; [ring|].
  rewrite IH. destruct (isClosedOrTrimmed t); simpl; [|ring].
  rewrite (Qc_sign_split (f t)) at 1. ring.
Qed.

Lemma winTotal_nonneg (trades : list Trade) : 0 <= winTotal f trades.
Proof.
  unfold winTotal. induction trades as [|t l IH]; simpl; [apply Qcle_refl|].
  set (S := sumIf _ f l) in *. clearbody S.
  destruct (isClosedOrTrimmed t); simpl.
  - unfold Qc_gtb. case_bool_decide; qc2q; lra.
  - qc2q; lra.
Qed.

Lemma winTotal_pos (trades : list Trade) :
  winCount f trades ≠ 0%nat -> 0 < winTotal f trades.
Proof.
  unfold winTotal, winCount. induction trades as [|t l IH]; simpl; [done|].
  pose proof (winTotal_nonneg l) as Hn. unfold winTotal in Hn.
  set (S := sumIf _ f l) in *. clearbody S.
  set (C := countIf _ l) in *. clearbody C.
  destruct (isClosedOrTrimmed t); simpl.
  - unfold Qc_gtb. case_bool_decide as Hpos.
    + intros _. qc2q. lra.
    + intros H. specialize (IH H). qc2q. lra.
  - intros H. specialize (IH H). qc2q. lra.
Qed.

End WithExtractor.
End ProfitFactorTheory.

(** X18: when the profit factor is defined it is positive, it is above 1
    exactly when the realized P&L summed over the closed and trimmed
    trades is positive, and below 1 exactly when that sum is negative. *)
Theorem profitFactor_above_one_iff_profitable
  (f : Trade -> Qc) (trades : list Trade) (pf : Qc) :
  StatsCalculatorRefactored.calculateProfitFactor f trades = Some pf ->
  0 < pf /\
  (1 < pf <-> 0 < sumIf isClosedOrTrimmed f trades) /\
  (pf < 1 <-> sumIf isClosedOrTrimmed f trades < 0).
Proof.
  rewrite profitFactor_formula, ProfitFactorTheory.closed_sum_split.
  destruct (winCount f trades =? 0)%nat eqn:Ew; [discriminate|].
  destruct (nonWinCount f trades =? 0)%nat; [discriminate|]. simpl.
  apply Nat.eqb_neq in Ew.
  pose proof (ProfitFactorTheory.winTotal_pos f trades Ew) as HW.
  pose proof (lossTotal_nonpos f trades) as HL.
  revert HW HL. generalize (winTotal f trades) (lossTotal f trades). intros W L HW HL.
  unfold Qc_eqb. case_bool_decide as HA; [discriminate|]. intros [= <-].
  assert (Qc_abs L = - L) as EA.
  { unfold Qc_abs, Qc_ltb. case_bool_decide as Hneg; [done|].
    assert (L = 0) as ->; [|ring].
    apply Qcle_antisym; [done|by apply Qcnot_lt_le]. }
  rewrite EA in *.
  assert (0 < - L) as HApos.
  { apply Qcnot_le_lt. intros Hle. apply HA.
    apply Qcle_antisym; [done|]. ProfitFactorTheory.qc2q. lra. }
  assert (W / - L * - L = W) as Hmul by (field; exact HA).
  revert Hmul. generalize (W / - L). intros q Hmul.
  assert (q * - L <= W) as H1 by (rewrite Hmul; apply Qcle_refl).
  assert (W <= q * - L) as H2 by (rewrite Hmul; apply Qcle_refl).
  clear Hmul HA EA.
  repeat split; try intros ?; ProfitFactorTheory.qc2q; nra.
Qed.

Lemma profitFactor_above_one_iff_profitable_witness :
  0 < Qc_of_Z 2 /\
  (1 < Qc_of_Z 2 <-> 0 < sumIf isClosedOrTrimmed realized [sampleWin; sampleLoss]) /\
  (Qc_of_Z 2 < 1 <-> sumIf isClosedOrTrimmed realized [sampleWin; sampleLoss] < 0).
Proof.
  apply (profitFactor_above_one_iff_profitable realized [sampleWin; sampleLoss]
           (Qc_of_Z 2)).
  vm_compute. f_equal. by apply Qc_is_canon.
Defined.

(** ** The shape of the calendar grid *)

Module GridShapeTheory.
Import JsDate PnLCalendar CalendarTheory.
Local Open Scope Z_scope.

(** The day numbers of the dates of a month. *)
Lemma toDays_in_month d k :
  validDate d -> 12 * getFullYear d + getMonth d = k ->
  monthStart k <= toDays d < monthStart k + monthLength k.
Proof.
  unfold validDate, toDays. intros [_ Hd] <-. lia.
Qed.

Local Strategy opaque [mkDate monthStart monthLength toDays getDay carryDays].

Section Grid.

Variables currentYear currentMonth : Z.

Local Abbreviation K := (12 * currentYear + currentMonth).
Local Abbreviation firstDay := (mkDate currentYear currentMonth 1).
Local Abbreviation lastDay := (mkDate currentYear (currentMonth + 1) 0).
Local Abbreviation days := (_getDaysInMonth currentYear currentMonth).

Lemma getDay_lastDay : getDay lastDay = (getDay firstDay + monthLength K - 1) mod 7.
Proof.
  rewrite (getDay_shift firstDay lastDay (monthLength K - 1)).
  - f_equal. lia.
  - rewrite !toDays_mkDate.
    replace (12 * currentYear + (currentMonth + 1)) with (K + 1) by lia.
    rewrite monthStart_succ. lia.
Qed.

Lemma length_trailingDays :
  Z.of_nat (length (trailingDays currentYear currentMonth)) = 6 - getDay lastDay.
Proof.
  unfold trailingDays. pose proof (getDay_range lastDay) as Hr.
  destruct (getDay lastDay <? 6) eqn:E.
  - rewrite length_map, length_seqZ. lia.
  - simpl. lia.
Qed.

Lemma length_days :
  Z.of_nat (length days) =
  getDay firstDay + monthLength K + (6 - (getDay firstDay + monthLength K - 1) mod 7).
Proof.
  unfold _getDaysInMonth. rewrite !length_app, !Nat2Z.inj_add.
  rewrite (GridTheory.length_leadingDays currentYear currentMonth),
    (GridTheory.length_currentDays currentYear currentMonth),
    length_trailingDays, getDay_lastDay.
  lia.
Qed.

Lemma cell_isWeekend (j : nat) day :
  days !! j = Some day -> isWeekend day = weekendOf (date day).
Proof.
  unfold _getDaysInMonth, leadingDays, currentDays, trailingDays. intros H.
  apply lookup_app_Some in H as [H|[_ H]].
  { destruct (0 <? getDay firstDay); [|done].
    rewrite list_lookup_fmap in H. by apply fmap_Some in H as (i & _ & ->). }
  apply lookup_app_Some in H as [H|[_ H]].
  { rewrite list_lookup_fmap in H. by apply fmap_Some in H as (i & _ & ->). }
  destruct (getDay lastDay <? 6); [|done].
  rewrite list_lookup_fmap in H. by apply fmap_Some in H as (i & _ & ->).
Qed.

Lemma cell_isCurrentMonth (j : nat) day :
  0 <= currentMonth <= 11 ->
  days !! j = Some day ->
  (isCurrentMonth day = true <->
   getFullYear (date day) = currentYear /\ getMonth (date day) = currentMonth).
Proof.
  intros Hm H.
  pose proof (GridTheory.days_valid currentYear currentMonth j day H) as Hv.
  pose proof (GridTheory.length_leadingDays currentYear currentMonth) as Hl.
  pose proof (GridTheory.length_currentDays currentYear currentMonth) as Hc.
  pose proof (GridTheory.toDays_firstDay currentYear currentMonth) as Hf.
  unfold _getDaysInMonth in H.
  apply lookup_app_Some in H as [H|[Hge H]].
  { pose proof (lookup_lt_Some _ _ _ H) as Hlt.
    apply GridTheory.leadingDays_lookup in H as [Ht ->].
    split; [done|]. intros [Hy Hmo].
    pose proof (toDays_in_month (date day) K Hv ltac:(lia)). lia. }
  apply lookup_app_Some in H as [H|[Hge' H]].
  { apply GridTheory.currentDays_lookup in H as (-> & Hr & ->).
    split; [intros _|done].
    rewrite mkDate_in_range by done. simpl. split; zdiv. }
  apply GridTheory.trailingDays_lookup in H as [Ht ->].
  split; [done|]. intros [Hy Hmo].
  pose proof (toDays_in_month (date day) K Hv ltac:(lia)). lia.
Qed.

End Grid.
End GridShapeTheory.

(** X19: for a year from 1970 on and a month index in 0..11 the grid of
    _getDaysInMonth is made of whole weeks, four to six of them: its
    length is a multiple of 7, the cell at index j holds a valid date
    whose day of the week is j mod 7 (so every row runs from Sunday to
    Saturday), isWeekend is set exactly on the first and the last cell
    of a row, and isCurrentMonth is set exactly on the cells whose date
    lies in the month shown. *)
Theorem calendar_grid_whole_weeks (currentYear currentMonth : Z) :
  (1970 <= currentYear)%Z -> (0 <= currentMonth <= 11)%Z ->
  let days := PnLCalendar._getDaysInMonth currentYear currentMonth in
  (Z.of_nat (length days) mod 7 = 0)%Z /\
  (28 <= length days <= 42)%nat /\
  forall (j : nat) day, days !! j = Some day ->
    validDate (PnLCalendar.date day) /\
    JsDate.getDay (PnLCalendar.date day) = (Z.of_nat j mod 7)%Z /\
    PnLCalendar.isWeekend day =
      ((Z.of_nat j mod 7 =? 0) || (Z.of_nat j mod 7 =? 6))%Z /\
    (PnLCalendar.isCurrentMonth day = true <->
     JsDate.getFullYear (PnLCalendar.date day) = currentYear /\
     JsDate.getMonth (PnLCalendar.date day) = currentMonth).
Proof.
  intros _ Hm days.
  pose proof (GridShapeTheory.length_days currentYear currentMonth) as Hlen.
  pose proof (CalendarTheory.getDay_range (JsDate.mkDate currentYear currentMonth 1)) as Hw.
  pose proof (CalendarTheory.monthLength_bounds (12 * currentYear + currentMonth)) as Hb.
  fold days in Hlen.
  split; [rewrite Hlen; CalendarTheory.zdiv|].
  split.
  { assert (28 <= Z.of_nat (length days) <= 42)%Z; [|lia].
    rewrite Hlen. CalendarTheory.zdiv. }
  intros j day Hj.
  split; [by eapply GridTheory.days_valid|].
  pose proof (GridTheory.days_getDay currentYear currentMonth j day Hj) as Hg.
  split; [done|].
  split.
  - rewrite (GridShapeTheory.cell_isWeekend currentYear currentMonth j day Hj).
    unfold PnLCalendar.weekendOf. by rewrite Hg.
  - by apply (GridShapeTheory.cell_isCurrentMonth currentYear currentMonth j).
Qed.

Lemma calendar_grid_whole_weeks_witness :
  (Z.of_nat (length (PnLCalendar._getDaysInMonth 2025 2)) mod 7 = 0)%Z /\
  (28 <= length (PnLCalendar._getDaysInMonth 2025 2) <= 42)%nat.
Proof.
  destruct (calendar_grid_whole_weeks 2025 2) as (H1 & H2 & _).
  - lia.
  - lia.
  - split; [exact H1|exact H2].
Defined.

(** ** The keys of monthData *)

Module MonthKeysTheory.
Import JsDate PnLCalendar.

Section Fold.

Variable startingAccountSize : Qc.
Variable eod : gmap string EODSnapshot.

Lemma fold_keys (l : list Day) : forall md key v,
  fold_left (monthDataStep startingAccountSize eod) l md !! key = Some v ->
  md !! key = Some v \/
  exists d, d ∈ l /\ isCurrentMonth d = true /\ formatDate (date d) = key /\
            dayEntry startingAccountSize eod (date d) = Some v.
Proof.
  induction l as [|d l IH]; intros md key v H; [by left|].
  cbn [fold_left] in H. apply IH in H as [H|(d' & Hd' & ?)].
  - rewrite MonthDataTheory.step_entry in H.
    destruct (isCurrentMonth d) eqn:Hc; [|by left].
    destruct (dayEntry startingAccountSize eod (date d)) as [e|] eqn:He; [|by left].
    destruct (decide (formatDate (date d) = key)) as [Hk|Hk].
    + subst key. rewrite lookup_insert_eq in H. injection H as <-.
      right. exists d. split; [by left|done].
    + rewrite lookup_insert_ne in H by done. by left.
  - right. exists d'. split; [by right|done].
Qed.

End Fold.
End MonthKeysTheory.

(** X20: whatever monthData held before, every entry that
    calculateMonthData stores is keyed by the date of a cell of the month
    shown, never of a leading or trailing cell, and that date has a
    complete EOD snapshot whose balance and cash flow the entry
    carries. *)
Theorem monthData_only_complete_days_of_month
  (startingAccountSize : Qc) (eod : gmap string EODSnapshot)
  (monthData : gmap string PnLCalendar.DayData)
  (currentYear currentMonth : Z) (key : string) (v : PnLCalendar.DayData) :
  PnLCalendar.calculateMonthData startingAccountSize eod false
    currentYear currentMonth monthData !! key = Some v ->
  (exists (j : nat) day,
     PnLCalendar._getDaysInMonth currentYear currentMonth !! j = Some day /\
     PnLCalendar.isCurrentMonth day = true /\
     JsDate.formatDate (PnLCalendar.date day) = key) /\
  (exists snap,
     eod !! key = Some snap /\ incomplete snap = false /\
     PnLCalendar.dayBalance v = balance snap /\
     PnLCalendar.dayCashFlow v = default 0 (cashFlow snap)).
Proof.
  unfold PnLCalendar.calculateMonthData. intros H.
  apply MonthKeysTheory.fold_keys in H as [H|(d & Hd & Hc & Hk & He)].
  { by rewrite lookup_empty in H. }
  split.
  - apply list_elem_of_lookup in Hd as [j Hj]. by exists j, d.
  - unfold dayEntry in He. rewrite Hk in He.
    destruct (eod !! key) as [snap|]; [|done].
    destruct (incomplete snap) eqn:Hi; [done|].
    injection He as <-. by exists snap.
Qed.

Lemma monthData_only_complete_days_of_month_witness :
  exists snap,
    fridayOnly !! "2025-03-07"%string = Some snap /\ incomplete snap = false /\
    balance sampleSnapshot = balance snap /\
    default 0 (cashFlow sampleSnapshot) = default 0 (cashFlow snap).
Proof.
  apply (monthData_only_complete_days_of_month (Qc_of_Z 10000) fridayOnly ∅ 2025 2
           "2025-03-07"
           (PnLCalendar.mkDayData
              (balance sampleSnapshot - Qc_of_Z 10000 - default 0 (cashFlow sampleSnapshot))
              (balance sampleSnapshot) (default 0 (cashFlow sampleSnapshot)))).
  change "2025-03-07"%string with (JsDate.formatDate (PnLCalendar.date sampleFriday)).
  rewrite (MonthDataTheory.monthData_entry 2025 2 (Qc_of_Z 10000) fridayOnly ∅ 12
             sampleFriday); [reflexivity|vm_compute; reflexivity|reflexivity].
Defined.

(** ** The checksum determines the multiset of ids *)

Module ChecksumInjTheory.
Import IncrementalStatsCalculator.

Lemma noComma_uint d : noComma (NilEmpty.string_of_uint d) = true.
Proof. induction d; simpl; auto. Qed.

Lemma noComma_idOrEmpty t : noComma (idOrEmpty t) = true.
Proof. unfold idOrEmpty, decimal. destruct (id t =? 0)%N; [done|apply noComma_uint]. Qed.

Lemma app_inv_head_string (a x y : string) : a +:+ x = a +:+ y -> x = y.
Proof. induction a as [|c a IH]; simpl; [done|]. intros [= E]. by apply IH. Qed.

Lemma comma_split a b x y :
  noComma a = true -> noComma b = true ->
  a +:+ "," +:+ x = b +:+ "," +:+ y -> a = b /\ x = y.
Proof.
  revert b. induction a as [|c a IH]; intros [|d b]; simpl; intros Ha Hb E.
  - injection E as E. by subst.
  - injection E as <- _. by rewrite Ascii.eqb_refl in Hb.
  - injection E as -> _. by rewrite Ascii.eqb_refl in Ha.
  - injection E as -> E.
    apply andb_true_iff in Ha as [_ Ha]. apply andb_true_iff in Hb as [_ Hb].
    destruct (IH b Ha Hb E) as [-> ->]. done.
Qed.

Lemma concat_comma_inj (l1 : list string) : forall l2,
  length l1 = length l2 ->
  Forall (fun s => noComma s = true) l1 -> Forall (fun s => noComma s = true) l2 ->
  String.concat "," l1 = String.concat "," l2 -> l1 = l2.
Proof.
  induction l1 as [|x l1 IH]; intros [|y l2] Hlen H1 H2 E; try done.
  simpl in Hlen. injection Hlen as Hlen.
  apply Forall_cons in H1 as [Hx H1]. apply Forall_cons in H2 as [Hy H2].
  destruct l1 as [|x' l1], l2 as [|y' l2]; try done.
  - simpl in E. by subst.
  - change (x +:+ "," +:+ String.concat "," (x' :: l1) =
            y +:+ "," +:+ String.concat "," (y' :: l2)) in E.
    apply comma_split in E as [-> E]; [|done|done].
    f_equal. by apply IH.
Qed.

Lemma decimal_nonempty n : decimal n <> ""%string.
Proof.
  unfold decimal. intros E.
  assert (Some (N.to_uint n) = Some Decimal.Nil) as [= E'].
  { by rewrite <- NilEmpty.usu, E. }
  assert (n = 0%N) as ->.
  { by rewrite <- (DecimalN.Unsigned.of_to n), E'. }
  vm_compute in E'. discriminate E'.
Qed.

Lemma idKey_inj (n m : N) :
  (if (n =? 0)%N then ""%string else decimal n) =
  (if (m =? 0)%N then ""%string else decimal m) -> n = m.
Proof.
  destruct (N.eqb_spec n 0) as [->|Hn], (N.eqb_spec m 0) as [->|Hm]; intros E.
  - done.
  - symmetry in E. by apply decimal_nonempty in E.
  - by apply decimal_nonempty in E.
  - by apply ChecksumTheory.decimal_inj.
Qed.

End ChecksumInjTheory.

(** X21: two trade lists have the same checksum exactly when they have
    the same ids with the same multiplicities: no change of the ids of
    the journal goes unnoticed, and nothing else is noticed. *)
Theorem checksum_equal_iff_same_ids (l1 l2 : list Trade) :
  IncrementalStatsCalculator._calculateTradeChecksum l1 =
  IncrementalStatsCalculator._calculateTradeChecksum l2 <->
  map id l1 ≡ₚ map id l2.
Proof.
  split; [|apply ChecksumTheory.checksum_ids_permutation].
  intros E. pose proof (ChecksumTheory.checksum_length l1 l2 E) as Hlen.
  destruct l1 as [|t1 l1], l2 as [|t2 l2]; try done.
  rewrite !ChecksumTheory.checksum_nonempty, Hlen in E.
  apply ChecksumInjTheory.app_inv_head_string in E.
  apply (ChecksumInjTheory.app_inv_head_string ":") in E.
  assert (forall l, Forall (fun s => noComma s = true)
                      (IncrementalStatsCalculator.jsSort
                         (map IncrementalStatsCalculator.idOrEmpty l))) as Hfree.
  { intros l. unfold IncrementalStatsCalculator.jsSort.
    rewrite merge_sort_Permutation. apply Forall_forall. intros s Hs.
    apply list_elem_of_In, in_map_iff in Hs as (t & <- & _).
    apply ChecksumInjTheory.noComma_idOrEmpty. }
  apply ChecksumInjTheory.concat_comma_inj in E; [|
    unfold IncrementalStatsCalculator.jsSort;
    by rewrite !merge_sort_Permutation, !length_map | apply Hfree | apply Hfree].
  assert (map IncrementalStatsCalculator.idOrEmpty (t1 :: l1)
          ≡ₚ map IncrementalStatsCalculator.idOrEmpty (t2 :: l2)) as Hp.
  { unfold IncrementalStatsCalculator.jsSort in E.
    rewrite <- (merge_sort_Permutation String.le (map _ (t1 :: l1))), E.
    apply merge_sort_Permutation. }
  assert (forall l, map IncrementalStatsCalculator.idOrEmpty l =
            map (fun i => if (i =? 0)%N then ""%string
                          else IncrementalStatsCalculator.decimal i) (map id l)) as Hk.
  { intros l. by rewrite map_map. }
  rewrite !Hk in Hp.
  apply Permutation_map_inv in Hp as (l3 & Hl3 & Hp3).
  assert (map id (t1 :: l1) = l3) as ->; [|by symmetry].
  revert Hl3. generalize (map id (t1 :: l1)). clear.
  intros l. revert l3. induction l as [|n l IH]; intros [|m l3]; simpl; try done.
  intros [= Hn Hl]. f_equal; [by apply ChecksumInjTheory.idKey_inj|by apply IH].
Qed.

(** ** priceTracker: total unrealized P&L *)

Module PriceTrackerTheory.
Import priceTracker.

Lemma upperChar_idem (c : ascii) : upperChar (upperChar c) = upperChar c.
Proof. destruct c as [[] [] [] [] [] [] [] []]; reflexivity. Qed.

Lemma toUpperCase_idem (s : string) : toUpperCase (toUpperCase s) = toUpperCase s.
Proof. induction s as [|c s IH]; simpl; [done|]. by rewrite upperChar_idem, IH. Qed.

Lemma toUpperCase_empty (s : string) : String.eqb (toUpperCase s) "" = String.eqb s "".
Proof. by destruct s. Qed.

Lemma getPrice_upper cache t : getPrice cache (toUpperCase t) = getPrice cache t.
Proof. unfold getPrice. by rewrite toUpperCase_empty, toUpperCase_idem. Qed.

Local Abbreviation step cache :=
  (fun (acc : Qc * nat) trade =>
     match calculateUnrealizedPnL cache trade with
     | Some pnl => (acc.1 + unrealizedPnL pnl, S acc.2)
     | None => acc
     end).

(** The count of the loop does not depend on the amounts. *)
Lemma count_from cache (l : list PositionTrade) : forall a n,
  (fold_left (step cache) l (a, n)).2 =
  (n + (calculateTotalUnrealizedPnL cache l).2)%nat.
Proof.
  unfold calculateTotalUnrealizedPnL.
  induction l as [|t l IH]; intros a n; cbn [fold_left fst snd]; [lia|].
  destruct (calculateUnrealizedPnL cache t) as [p|]; cbn [fst snd].
  - rewrite (IH _ (S n)), (IH _ 1%nat). lia.
  - apply IH.
Qed.

Lemma count_app cache (l1 l2 : list PositionTrade) :
  (calculateTotalUnrealizedPnL cache (l1 ++ l2)).2 =
  ((calculateTotalUnrealizedPnL cache l1).2 + (calculateTotalUnrealizedPnL cache l2).2)%nat.
Proof.
  unfold calculateTotalUnrealizedPnL at 1. rewrite fold_left_app.
  destruct (fold_left (step cache) l1 (0, 0%nat)) as [a n] eqn:E.
  rewrite count_from. f_equal.
  unfold calculateTotalUnrealizedPnL. by rewrite E.
Qed.

(** A trade without a quote leaves the loop state as it is. *)
Lemma total_skip cache t (l1 l2 : list PositionTrade) :
  getPrice cache (ticker t) = None ->
  calculateTotalUnrealizedPnL cache (l1 ++ t :: l2) =
  calculateTotalUnrealizedPnL cache (l1 ++ l2).
Proof.
  intros Hn. unfold calculateTotalUnrealizedPnL.
  rewrite !fold_left_app. cbn [fold_left].
  unfold calculateUnrealizedPnL at 2. by rewrite Hn.
Qed.

(** The last trade of the list is the last addition. *)
Lemma total_snoc cache t q (l : list PositionTrade) :
  getPrice cache (ticker t) = Some q ->
  calculateTotalUnrealizedPnL cache (l ++ [t]) =
  ((calculateTotalUnrealizedPnL cache l).1 + (price q - entry t) * sharesOf t,
   S (calculateTotalUnrealizedPnL cache l).2).
Proof.
  intros Hq. unfold calculateTotalUnrealizedPnL.
  rewrite fold_left_app. cbn [fold_left].
  unfold calculateUnrealizedPnL at 1. by rewrite Hq.
Qed.

Lemma total_upper cache (l : list PositionTrade) : forall acc,
  fold_left (step cache)
    (map (fun u => mkPositionTrade (toUpperCase (ticker u)) (remainingShares u)
                     (shares u) (entry u)) l) acc =
  fold_left (step cache) l acc.
Proof.
  induction l as [|u l IH]; intros acc; [done|].
  cbn [map fold_left]. rewrite IH. f_equal.
  unfold calculateUnrealizedPnL. cbn [ticker]. rewrite getPrice_upper.
  by destruct (getPrice cache (ticker u)).
Qed.

End PriceTrackerTheory.

(** X22: in calculateTotalUnrealizedPnL the count of a list is the sum
    of the counts of its parts; a trade whose ticker has no cached quote
    is skipped without a trace, wherever it stands; a trade with a quote
    at the end of the list adds (price - entry) x shares to the total of
    the trades before it and 1 to their count, the shares being
    remainingShares unless that is missing or 0; and the result does not
    depend on the letter case of the tickers. *)
Theorem totalUnrealizedPnL_priced_trades
  (cache : gmap string priceTracker.PriceData)
  (l1 l2 : list priceTracker.PositionTrade) (t : priceTracker.PositionTrade) :
  let total := priceTracker.calculateTotalUnrealizedPnL cache in
  (total (l1 ++ l2)).2 = ((total l1).2 + (total l2).2)%nat /\
  (priceTracker.getPrice cache (priceTracker.ticker t) = None ->
   total (l1 ++ t :: l2) = total (l1 ++ l2)) /\
  (forall q, priceTracker.getPrice cache (priceTracker.ticker t) = Some q ->
   total (l1 ++ [t]) =
     ((total l1).1 + (priceTracker.price q - priceTracker.entry t) * priceTracker.sharesOf t,
      S (total l1).2)) /\
  total (map (fun u => priceTracker.mkPositionTrade
                         (priceTracker.toUpperCase (priceTracker.ticker u))
                         (priceTracker.remainingShares u) (priceTracker.shares u)
                         (priceTracker.entry u)) l1) = total l1.
Proof.
  intros total. subst total.
  split; [apply PriceTrackerTheory.count_app|].
  split; [apply PriceTrackerTheory.total_skip|].
  split; [intros q; apply PriceTrackerTheory.total_snoc|].
  apply PriceTrackerTheory.total_upper.
Qed.

Lemma totalUnrealizedPnL_priced_trades_witness :
  priceTracker.calculateTotalUnrealizedPnL
    {[ "AAPL"%string := priceTracker.mkPriceData (Qc_of_Z 110) ]}
    ([priceTracker.mkPositionTrade "MSFT" None (Qc_of_Z 5) (Qc_of_Z 50)]
     ++ [priceTracker.mkPositionTrade "aapl" (Some 0) (Qc_of_Z 10) (Qc_of_Z 100)]) =
  ((priceTracker.calculateTotalUnrealizedPnL
      {[ "AAPL"%string := priceTracker.mkPriceData (Qc_of_Z 110) ]}
      [priceTracker.mkPositionTrade "MSFT" None (Qc_of_Z 5) (Qc_of_Z 50)]).1
   + (Qc_of_Z 110 - Qc_of_Z 100) * Qc_of_Z 10, 1%nat).
Proof.
  destruct (totalUnrealizedPnL_priced_trades
              {[ "AAPL"%string := priceTracker.mkPriceData (Qc_of_Z 110) ]}
              [priceTracker.mkPositionTrade "MSFT" None (Qc_of_Z 5) (Qc_of_Z 50)] []
              (priceTracker.mkPositionTrade "aapl" (Some 0) (Qc_of_Z 10) (Qc_of_Z 100)))
    as (_ & _ & H & _).
  apply (H (priceTracker.mkPriceData (Qc_of_Z 110))).
  reflexivity.
Defined.

(** ** journalTableRenderer: the figures of a journal row *)

(** X23: whenever the R-multiple of a row is shown it has the sign of
    the realized P&L, and so has the P&L percentage whenever it is shown;
    hence a closed trade is marked a winner exactly when the figures
    shown are positive and a loser exactly when they are negative. *)
Theorem row_figures_have_sign_of_pnl
  (getTradeRealizedPnL : journalTableRenderer.RowTrade -> Qc)
  (trade : journalTableRenderer.RowTrade) :
  (forall r, journalTableRenderer.rMultiple getTradeRealizedPnL trade = Some r ->
     (0 < r <-> 0 < getTradeRealizedPnL trade) /\
     (r < 0 <-> getTradeRealizedPnL trade < 0)) /\
  (forall p, journalTableRenderer.pnlPercent getTradeRealizedPnL trade = Some p ->
     (0 < p <-> 0 < getTradeRealizedPnL trade) /\
     (p < 0 <-> getTradeRealizedPnL trade < 0)) /\
  (journalTableRenderer.rowBgClass getTradeRealizedPnL trade
     = journalTableRenderer.ClosedWinner <->
   journalTableRenderer.r_status trade = StClosed /\ 0 < getTradeRealizedPnL trade) /\
  (journalTableRenderer.rowBgClass getTradeRealizedPnL trade
     = journalTableRenderer.ClosedLoser <->
   journalTableRenderer.r_status trade = StClosed /\ getTradeRealizedPnL trade < 0).
Proof.
  assert (Hdiv : forall x a q : Qc, 0 < a -> q = x / a ->
            (0 < q <-> 0 < x) /\ (q < 0 <-> x < 0)).
  { intros x a q Ha ->.
    assert (a <> 0) as Hne.
    { intros ->. by apply (Qclt_not_eq 0 0). }
    assert (x / a * a = x) as Hmul by (field; exact Hne).
    revert Hmul. generalize (x / a). intros q Hmul.
    assert (q * a <= x) as H1 by (rewrite Hmul; apply Qcle_refl).
    assert (x <= q * a) as H2 by (rewrite Hmul; apply Qcle_refl).
    clear Hmul Hne.
    repeat split; intros ?; ProfitFactorTheory.qc2q; nra. }
  assert (Hmult : 0 < journalTableRenderer.multiplier trade).
  { unfold journalTableRenderer.multiplier.
    destruct (journalTableRenderer.isOptions trade); reflexivity. }
  split.
  { intros r. unfold journalTableRenderer.rMultiple.
    destruct (journalTableRenderer.riskDollars trade) as [risk|]; [|done].
    destruct (journalTableRenderer.hasPnL trade); [|done]. simpl.
    unfold Qc_gtb. case_bool_decide as Hr; [|done]. intros [= <-].
    apply (Hdiv _ (risk * journalTableRenderer.multiplier trade)); [|done].
    revert Hmult. generalize (journalTableRenderer.multiplier trade). intros m Hm.
    ProfitFactorTheory.qc2q. nra. }
  split.
  { intros p. unfold journalTableRenderer.pnlPercent.
    destruct (journalTableRenderer.hasPnL trade); [|done].
    unfold Qc_gtb. case_bool_decide as Hc; [|done]. intros [= <-].
    pose proof (Hdiv (getTradeRealizedPnL trade) _ _ Hc eq_refl) as [Hp Hn].
    revert Hp Hn.
    generalize (getTradeRealizedPnL trade
                / (journalTableRenderer.r_entry trade
                   * journalTableRenderer.totalShares trade
                   * journalTableRenderer.multiplier trade)).
    generalize (getTradeRealizedPnL trade). intros x q Hp Hn.
    rewrite <- Hp, <- Hn.
    assert (0 < Qc_of_Z 100) as H100 by reflexivity.
    revert H100. generalize (Qc_of_Z 100). intros c H100.
    split; split; intros ?; ProfitFactorTheory.qc2q; nra. }
  unfold journalTableRenderer.rowBgClass, Qc_gtb, Qc_ltb.
  destruct (journalTableRenderer.r_status trade);
    repeat case_bool_decide; split; split; try done; try (intros [? ?]; done).
  all: intros [_ ?]; exfalso; ProfitFactorTheory.qc2q; lra.
Qed.

Lemma row_figures_have_sign_of_pnl_witness :
  (0 < Qc_of_Z 2 <-> 0 < Qc_of_Z 100) /\ (Qc_of_Z 2 < 0 <-> Qc_of_Z 100 < 0).
Proof.
  apply (proj1 (row_figures_have_sign_of_pnl (fun _ => Qc_of_Z 100)
                  (journalTableRenderer.mkRowTrade StClosed (Some (Qc_of_Z 50)) false
                     (Qc_of_Z 10) (Qc_of_Z 20) None None)) (Qc_of_Z 2)).
  vm_compute. f_equal. by apply Qc_is_canon.
Defined.

(** ** HistoricalPrices *)

Module HistoricalPricesTheory.
Import JsDate HistoricalPrices.
Local Open Scope Z_scope.

Lemma toDays_probe target k :
  toDays (setDate target (getDate target - k)) = toDays target - k.
Proof.
  replace (getDate target - k) with (getDate target + - k) by lia.
  rewrite CalendarTheory.toDays_setDate. lia.
Qed.

Lemma lookBack_first (prices : gmap string Bar) (target : Date) (n : nat) : forall i,
  match lookBack prices target i n with
  | Some c =>
      exists k bar, i <= k < i + Z.of_nat n /\
        prices !! formatDate (setDate target (getDate target - k)) = Some bar /\
        close bar = c /\
        forall k', i <= k' < k ->
          prices !! formatDate (setDate target (getDate target - k')) = None
  | None =>
      forall k, i <= k < i + Z.of_nat n ->
        prices !! formatDate (setDate target (getDate target - k)) = None
  end.
Proof.
  induction n as [|n IH]; intros i; cbn [lookBack].
  - intros k Hk. lia.
  - destruct (prices !! formatDate (setDate target (getDate target - i))) as [bar|] eqn:E.
    + exists i, bar. split; [lia|]. split; [done|]. split; [done|]. intros k' Hk'. lia.
    + specialize (IH (i + 1)).
      destruct (lookBack prices target (i + 1) n) as [c|].
      * destruct IH as (k & bar & Hk & Hb & Hc & Hfirst).
        exists k, bar. split; [lia|]. split; [done|]. split; [done|].
        intros k' Hk'. destruct (decide (k' = i)) as [->|?]; [done|].
        apply Hfirst. lia.
      * intros k Hk. destruct (decide (k = i)) as [->|?]; [done|].
        apply IH. lia.
Qed.

End HistoricalPricesTheory.

(** X24: for a ticker in the cache, getPriceOnDate gives the close of the
    bar stored under the date itself when there is one; otherwise the
    close of the nearest stored bar among the seven days before the day
    the parser makes of the date string; and null only when none of these
    eight keys is stored. *)
Theorem getPriceOnDate_nearest_stored
  (parseDate : string -> JsDate.Date)
  (cache : gmap string (gmap string HistoricalPrices.Bar)) (ticker : string)
  (date : JsDate.Date) (prices : gmap string HistoricalPrices.Bar) :
  cache !! ticker = Some prices ->
  let target := parseDate (HistoricalPrices.formatDate date) in
  let probe (k : Z) := JsDate.setDate target (JsDate.getDate target - k) in
  (forall k, JsDate.toDays (probe k) = JsDate.toDays target - k)%Z /\
  match HistoricalPrices.getPriceOnDate parseDate cache ticker date with
  | Some c =>
      (exists bar, prices !! HistoricalPrices.formatDate date = Some bar /\
                   HistoricalPrices.close bar = c) \/
      (prices !! HistoricalPrices.formatDate date = None /\
       exists k bar, (1 <= k <= 7)%Z /\
         prices !! HistoricalPrices.formatDate (probe k) = Some bar /\
         HistoricalPrices.close bar = c /\
         forall k', (1 <= k' < k)%Z ->
           prices !! HistoricalPrices.formatDate (probe k') = None)
  | None =>
      prices !! HistoricalPrices.formatDate date = None /\
      forall k, (1 <= k <= 7)%Z ->
        prices !! HistoricalPrices.formatDate (probe k) = None
  end.
Proof.
  intros Hc target probe.
  split; [intros k; apply HistoricalPricesTheory.toDays_probe|].
  unfold HistoricalPrices.getPriceOnDate. rewrite Hc.
  destruct (prices !! HistoricalPrices.formatDate date) as [bar|] eqn:E.
  { left. by exists bar. }
  fold target.
  pose proof (HistoricalPricesTheory.lookBack_first prices target 7 1) as H.
  destruct (HistoricalPrices.lookBack prices target 1 7) as [c|].
  - right. split; [done|].
    destruct H as (k & bar & Hk & Hb & Hcl & Hfirst).
    exists k, bar. split; [lia|]. by repeat split.
  - split; [done|]. intros k Hk. apply H. lia.
Qed.

Lemma getPriceOnDate_nearest_stored_witness :
  (JsDate.toDays (JsDate.setDate (JsDate.mkDate 2025 2 9)
                    (JsDate.getDate (JsDate.mkDate 2025 2 9) - 2)) =
   JsDate.toDays (JsDate.mkDate 2025 2 9) - 2)%Z.
Proof.
  destruct (getPriceOnDate_nearest_stored (fun _ => JsDate.mkDate 2025 2 9)
              {[ "AAPL"%string :=
                   {[ "2025-03-07"%string :=
                        HistoricalPrices.mkBar (Qc_of_Z 100) (Qc_of_Z 105) (Qc_of_Z 99)
                          (Qc_of_Z 104) ]} ]}
              "AAPL" (JsDate.mkDate 2025 2 9)
              {[ "2025-03-07"%string :=
                   HistoricalPrices.mkBar (Qc_of_Z 100) (Qc_of_Z 105) (Qc_of_Z 99)
                     (Qc_of_Z 104) ]}) as [H _].
  - reflexivity.
  - exact (H 2%Z).
Defined.

(** X25: the price cache behaves as a two-level map: after the cache
    update of fetchHistoricalPrices the fetched bars are found and the
    older bars of the ticker and all other tickers are kept; after
    clearCache(ticker) the ticker has no price on any date and all other
    tickers are kept; clearCache with no ticker or an empty one empties
    the cache; and getCacheStats counts one ticker and its bars less
    after clearCache(ticker). *)
Theorem price_cache_round_trips
  (parseDate : string -> JsDate.Date)
  (cache : gmap string (gmap string HistoricalPrices.Bar)) (ticker other : string)
  (prices : gmap string HistoricalPrices.Bar) (date : JsDate.Date) :
  ticker <> ""%string ->
  HistoricalPrices.getPrice (HistoricalPrices.mergePrices cache ticker prices) ticker date =
    match prices !! HistoricalPrices.formatDate date with
    | Some bar => Some (HistoricalPrices.close bar)
    | None => HistoricalPrices.getPrice cache ticker date
    end /\
  (other <> ticker ->
   HistoricalPrices.getPrice (HistoricalPrices.mergePrices cache ticker prices) other date =
     HistoricalPrices.getPrice cache other date) /\
  HistoricalPrices.getPrice (HistoricalPrices.clearCache cache (Some ticker)) ticker date
    = None /\
  HistoricalPrices.getPriceOnDate parseDate
    (HistoricalPrices.clearCache cache (Some ticker)) ticker date = None /\
  (other <> ticker ->
   HistoricalPrices.getPrice (HistoricalPrices.clearCache cache (Some ticker)) other date =
     HistoricalPrices.getPrice cache other date /\
   HistoricalPrices.getPriceOnDate parseDate
     (HistoricalPrices.clearCache cache (Some ticker)) other date =
     HistoricalPrices.getPriceOnDate parseDate cache other date) /\
  HistoricalPrices.clearCache cache None = ∅ /\
  HistoricalPrices.clearCache cache (Some ""%string) = ∅ /\
  HistoricalPrices.getCacheStats (HistoricalPrices.clearCache cache None) = (0, 0)%nat /\
  (forall stored, cache !! ticker = Some stored ->
   HistoricalPrices.getCacheStats cache =
     (S (HistoricalPrices.getCacheStats
           (HistoricalPrices.clearCache cache (Some ticker))).1,
      ((HistoricalPrices.getCacheStats
          (HistoricalPrices.clearCache cache (Some ticker))).2 + size stored)%nat)).
Proof.
  intros Hne.
  assert (String.eqb ticker "" = false) as Ht by (by apply String.eqb_neq).
  unfold HistoricalPrices.getPrice, HistoricalPrices.getPriceOnDate,
    HistoricalPrices.mergePrices, HistoricalPrices.clearCache.
  rewrite Ht.
  split.
  { rewrite lookup_insert_eq, lookup_union.
    destruct (prices !! HistoricalPrices.formatDate date) as [bar|]; simpl.
    - by destruct (default ∅ (cache !! ticker) !! HistoricalPrices.formatDate date).
    - destruct (cache !! ticker) as [old|]; simpl.
      + by destruct (old !! HistoricalPrices.formatDate date).
      + by rewrite lookup_empty. }
  split.
  { intros Ho. by rewrite lookup_insert_ne. }
  split; [by rewrite lookup_delete_eq|].
  split; [by rewrite lookup_delete_eq|].
  split.
  { intros Ho. by rewrite !lookup_delete_ne. }
  split; [done|]. split; [done|]. split; [done|].
  intros stored Hs. unfold HistoricalPrices.getCacheStats. cbn [fst snd].
  rewrite map_size_delete, Hs.
  rewrite (map_fold_delete_L _ _ ticker stored cache); [|intros; lia|done].
  assert (size cache ≠ 0%nat) as Hsize.
  { intros H0. apply map_size_empty_inv in H0. by rewrite H0, lookup_empty in Hs. }
  f_equal; lia.
Qed.

Lemma price_cache_round_trips_witness :
  HistoricalPrices.getPrice
    (HistoricalPrices.clearCache
       {[ "AAPL"%string :=
            {[ "2025-03-07"%string :=
                 HistoricalPrices.mkBar (Qc_of_Z 100) (Qc_of_Z 105) (Qc_of_Z 99)
                   (Qc_of_Z 104) ]} ]}
       (Some "AAPL"%string)) "AAPL" (JsDate.mkDate 2025 2 7) = None.
Proof.
  destruct (price_cache_round_trips (fun _ => JsDate.mkDate 2025 2 7)
              {[ "AAPL"%string :=
                   {[ "2025-03-07"%string :=
                        HistoricalPrices.mkBar (Qc_of_Z 100) (Qc_of_Z 105) (Qc_of_Z 99)
                          (Qc_of_Z 104) ]} ]}
              "AAPL" "MSFT" ∅ (JsDate.mkDate 2025 2 7)) as (_ & _ & H & _).
  - discriminate.
  - exact H.
Defined.

(** ** AppState: journal filters *)

(** X26: the status filters split the journal: every entry is returned
    by exactly one of getFilteredEntries('open'), ('closed') and
    ('trimmed'), each in journal order, so their sizes add up to the size
    of the journal; 'all' returns the journal itself, any other filter
    nothing, and getOpenTrades is the 'open' filter. *)
Theorem journal_filters_partition (st : AppState.State) :
  (length (AppStateOps.getFilteredEntries (AppStateOps.FilterStatus StOpen) st)
   + length (AppStateOps.getFilteredEntries (AppStateOps.FilterStatus StClosed) st)
   + length (AppStateOps.getFilteredEntries (AppStateOps.FilterStatus StTrimmed) st)
   = length (AppState.entries st))%nat /\
  (forall e s, e ∈ AppStateOps.getFilteredEntries (AppStateOps.FilterStatus s) st <->
               e ∈ AppState.entries st /\ status e = s) /\
  AppStateOps.getFilteredEntries AppStateOps.FilterAll st = AppState.entries st /\
  AppStateOps.getFilteredEntries AppStateOps.FilterOther st = [] /\
  AppStateOps.getOpenTrades st =
    AppStateOps.getFilteredEntries (AppStateOps.FilterStatus StOpen) st.
Proof.
  unfold AppStateOps.getFilteredEntries, AppStateOps.getOpenTrades.
  split.
  { induction (AppState.entries st) as [|e l IH]; [done|].
    simpl. destruct (status e); simpl; lia. }
  split.
  { intros e s. rewrite !list_elem_of_In, filter_In, bool_decide_eq_true. tauto. }
  split; [done|]. split; [|done].
  induction (AppState.entries st) as [|e l IH]; [done|]. by simpl.
Qed.
